(** * Duplicate-audio detection of the dataset organizer

    A shallow embedding of the duplicate-detection subsystem of
    [dataset_organizer/dataset_organizer.py]: the audio fingerprinter
    [audio_content_hash], the grouping pass [run_dedup_analysis] with its
    file-name cache [find_audio_path], the commit handler [do_delete] and
    the backup-then-mutate executor [execute_dedup_deletion].

    Conventions.
    - A Python [str] is a [string]; every character stands for one code
      point below 256.  Text files hold their decoded text (newlines
      already translated to LF, as Python's text mode delivers them).
    - Paths follow [posixpath].
    - A Python [dict] that is only looked up and updated is a [gmap]; the
      insertion-ordered [defaultdict] that is iterated is an association
      list; a [set] is a [gset].
    - The file system, the message boxes and the log are a [world] that
      the executor threads through a state-and-exception monad. *)

From stdpp Require Import base strings gmap list pretty.
From Stdlib Require Import Ascii ZArith Lia.

Local Open Scope Z_scope.
Local Open Scope nat_scope.

(** ** Python string primitives *)

Module PyStr.

Definition LF : ascii := "010"%char.
Definition PIPE : ascii := "|"%char.

(** [str.isspace] on the code points below 256. *)
Definition is_space (c : ascii) : bool :=
  let n := nat_of_ascii c in
  ((9 <=? n) && (n <=? 13)) || ((28 <=? n) && (n <=? 32))
  || (n =? 133) || (n =? 160).

Definition is_lf (c : ascii) : bool := Ascii.eqb c LF.

Definition is_empty (s : string) : bool :=
  match s with EmptyString => true | String _ _ => false end.

(** [s.lstrip(...)] / [s.rstrip(...)] for a class of characters. *)
Fixpoint lstrip_by (f : ascii → bool) (s : string) : string :=
  match s with
  | EmptyString => EmptyString
  | String c r => if f c then lstrip_by f r else s
  end.

Fixpoint rstrip_by (f : ascii → bool) (s : string) : string :=
  match s with
  | EmptyString => EmptyString
  | String c r =>
      let r' := rstrip_by f r in
      if f c && is_empty r' then EmptyString else String c r'
  end.

(** [s.strip()] *)
Definition strip (s : string) : string := lstrip_by is_space (rstrip_by is_space s).

(** [s.rstrip("\n")] *)
Definition rstrip_lf (s : string) : string := rstrip_by is_lf s.

(** [s.partition(sep)], [None] when [sep] does not occur. *)
Fixpoint cut (sep : ascii) (s : string) : option (string * string) :=
  match s with
  | EmptyString => None
  | String c r =>
      if Ascii.eqb c sep then Some (EmptyString, r)
      else match cut sep r with
           | Some (a, b) => Some (String c a, b)
           | None => None
           end
  end.

(** [s.split(sep, maxsplit)] *)
Fixpoint split_max (sep : ascii) (maxsplit : nat) (s : string) : list string :=
  match maxsplit with
  | O => [s]
  | S n =>
      match cut sep s with
      | Some (a, b) => a :: split_max sep n b
      | None => [s]
      end
  end.

(** [s.split(sep)]: there are at most [length s] separators. *)
Definition split (sep : ascii) (s : string) : list string :=
  split_max sep (String.length s) s.

(** Number of occurrences of a character. *)
Fixpoint count_char (c : ascii) (s : string) : nat :=
  match s with
  | EmptyString => 0
  | String d r => (if Ascii.eqb d c then 1 else 0) + count_char c r
  end.

(** Iterating a text file: each line keeps its terminating LF; a last
    line without LF is delivered as it is. *)
Fixpoint readlines (s : string) : list string :=
  match s with
  | EmptyString => []
  | String c r =>
      if is_lf c then String c EmptyString :: readlines r
      else match readlines r with
           | [] => [String c EmptyString]
           | l :: ls => String c l :: ls
           end
  end.

(** What [f.writelines(lines)] leaves in the file. *)
Fixpoint writelines (lines : list string) : string :=
  match lines with
  | [] => EmptyString
  | l :: ls => l +:+ writelines ls
  end.

End PyStr.

(** ** [os.path] (posixpath) *)

Module OsPath.

Definition SEP : ascii := "/"%char.

Definition is_sep (c : ascii) : bool := Ascii.eqb c SEP.

Fixpoint has_sep (p : string) : bool :=
  match p with
  | EmptyString => false
  | String c r => is_sep c || has_sep r
  end.

Fixpoint ends_with_sep (p : string) : bool :=
  match p with
  | EmptyString => false
  | String c EmptyString => is_sep c
  | String _ r => ends_with_sep r
  end.

Definition starts_with_sep (p : string) : bool :=
  match p with
  | String c _ => is_sep c
  | EmptyString => false
  end.

(** [basename(p) = p[p.rfind('/') + 1:]] *)
Fixpoint basename (p : string) : string :=
  match p with
  | EmptyString => EmptyString
  | String c r =>
      if has_sep r then basename r
      else if is_sep c then r else p
  end.

(** [p[:p.rfind('/') + 1]]: everything up to and including the last
    separator. *)
Fixpoint head_of (p : string) : string :=
  match p with
  | EmptyString => EmptyString
  | String c r =>
      if has_sep r then String c (head_of r)
      else if is_sep c then String c EmptyString else EmptyString
  end.

Fixpoint all_sep (p : string) : bool :=
  match p with
  | EmptyString => true
  | String c r => is_sep c && all_sep r
  end.

(** [dirname]: the head, with trailing separators removed unless the
    head consists of separators only. *)
Definition dirname (p : string) : string :=
  let head := head_of p in
  if negb (PyStr.is_empty head) && negb (all_sep head)
  then PyStr.rstrip_by is_sep head
  else head.

(** [join(a, b)] *)
Definition join (a b : string) : string :=
  if starts_with_sep b then b
  else if PyStr.is_empty a || ends_with_sep a then a +:+ b
  else a +:+ String SEP b.

End OsPath.

(** ** Exceptions *)

Inductive exn : Type := Exception (msg : string).

Definition exn_msg (e : exn) : string := match e with Exception m => m end.

Inductive outcome (A : Type) : Type :=
| Ok (a : A)
| Raise (e : exn).
Arguments Ok {A} a.
Arguments Raise {A} e.

#[global] Instance outcome_ret : MRet outcome := λ A a, Ok a.
#[global] Instance outcome_bind : MBind outcome :=
  λ A B f m, match m with Ok a => f a | Raise e => Raise e end.

(** ** The audio fingerprinter *)

(** The numeric back end ([librosa], [numpy], [hashlib]) is an interface:
    every call into it may raise.  [librosa_load] receives the bytes of
    the file, so a fingerprint depends on the file's bytes and on the
    parameters only. *)
Class AudioLib : Type := {
  HAS_LIBROSA : bool;
  signal : Type;
  amplitude : Type;
  librosa_load : string → Z → outcome signal;
  librosa_trim : signal → Z → outcome signal;
  signal_len : signal → nat;
  np_max_abs : signal → outcome amplitude;
  amplitude_is_zero : amplitude → bool;
  np_divide : signal → amplitude → outcome signal;
  librosa_resample : signal → Z → Z → outcome signal;
  (** [np.round(y * ((q_levels - 1) / 2.0)).astype(np.int8).tobytes()] *)
  np_quantize : signal → Z → outcome string;
  sha1_hexdigest : string → string
}.

Section fingerprint.
Context `{AudioLib}.

Definition open_audio (files : gmap string string) (path : string) : outcome string :=
  match files !! path with
  | Some bytes => Ok bytes
  | None => Raise (Exception "No such file or directory")
  end.

(** The body of the [try] block of [audio_content_hash]. *)
Definition hash_body (files : gmap string string) (path : string)
    (sr top_db hash_sr q_levels : Z) : outcome (option string) :=
  bytes ← open_audio files path;
  y ← librosa_load bytes sr;
  y ← librosa_trim y top_db;
  if signal_len y =? 0 then mret None
  else
    max_abs ← np_max_abs y;
    if amplitude_is_zero max_abs then mret None
    else
      y ← np_divide y max_abs;
      y ← (if bool_decide (sr ≠ hash_sr) then librosa_resample y sr hash_sr else mret y);
      y_q ← np_quantize y q_levels;
      mret (Some (sha1_hexdigest y_q)).

Definition audio_content_hash (files : gmap string string) (path : string)
    (sr top_db hash_sr q_levels : Z) : option string :=
  if negb HAS_LIBROSA then None
  else match hash_body files path sr top_db hash_sr q_levels with
       | Ok r => r
       | Raise _ => None
       end.

End fingerprint.

(** ** The grouping pass *)

(** [(raw_line, filename, actor, lang, text)] *)
Record rec : Type := Rec {
  raw_line : string;
  rec_file : string;
  rec_actor : string;
  rec_lang : string;
  rec_text : string
}.

(** One entry of [duplicate_groups]. *)
Record candidate : Type := Candidate {
  text : string;
  keep_file : string;
  keep_path : string;
  delete_file : string;
  delete_path : string;
  delete_line : string;
  keep_line : string;
  selected : bool
}.

(** The body of the loop that reads the manifest: [None] is [continue]. *)
Definition parse_line (line : string) : option rec :=
  let line := PyStr.rstrip_lf line in
  if PyStr.is_empty line then None
  else match PyStr.split_max PyStr.PIPE 3 line with
       | [p0; p1; p2; p3] => Some (Rec line p0 p1 p2 p3)
       | _ => None
       end.

Fixpoint read_records (lines : list string) : list rec :=
  match lines with
  | [] => []
  | line :: rest =>
      match parse_line line with
      | Some r => r :: read_records rest
      | None => read_records rest
      end
  end.

(** [text_groups[text].append(rec)] on the insertion-ordered dictionary. *)
Fixpoint group_append (t : string) (r : rec) (groups : list (string * list rec))
    : list (string * list rec) :=
  match groups with
  | [] => [(t, [r])]
  | (t', g) :: rest =>
      if String.eqb t' t then (t', g ++ [r]) :: rest
      else (t', g) :: group_append t r rest
  end.

Definition text_groups (records : list rec) : list (string * list rec) :=
  fold_left (λ groups r, group_append (rec_text r) r groups) records [].

(** The walk of the audio tree: the [(root, files)] pairs in the order
    [os.walk] yields them. *)
Fixpoint walk_find (walk : list (string * list string)) (filename : string) : option string :=
  match walk with
  | [] => None
  | (root, names) :: rest =>
      if bool_decide (filename ∈ names) then Some (OsPath.join root filename)
      else walk_find rest filename
  end.

(** The cache [self.raw_files_map] as [load_preview] rebuilds it: the last
    match of a name wins. *)
Definition is_audio_name (name : string) : bool :=
  let ends (suffix : string) :=
    String.prefix (String.rev suffix) (String.rev name) in
  ends ".wav" || ends ".ogg" || ends ".mp3".

Fixpoint preview_add (root : string) (names : list string) (m : gmap string string)
    : gmap string string :=
  match names with
  | [] => m
  | name :: rest =>
      preview_add root rest
        (if is_audio_name name then <[name := OsPath.join root name]> m else m)
  end.

Fixpoint preview_map (walk : list (string * list string)) (m : gmap string string)
    : gmap string string :=
  match walk with
  | [] => m
  | (root, names) :: rest => preview_map rest (preview_add root names m)
  end.

Definition load_preview_map (walk : list (string * list string)) : gmap string string :=
  preview_map walk ∅.

(** The manifest reader of [load_preview]: an entry needs two fields. *)
Definition preview_accepts (line : string) : bool :=
  2 <=? length (PyStr.split PyStr.PIPE (PyStr.strip line)).

(** Python truthiness of a path: [None] and the empty string are false. *)
Definition truthy (p : option string) : option string :=
  match p with
  | Some s => if PyStr.is_empty s then None else Some s
  | None => None
  end.

Definition make_candidate (t : string) (d : (rec * string) * rec * string) : candidate :=
  let '((orig_rec, orig_path), dupe, d_path) := d in
  {| text := t;
     keep_file := OsPath.basename (rec_file orig_rec);
     keep_path := orig_path;
     delete_file := OsPath.basename (rec_file dupe);
     delete_path := d_path;
     delete_line := raw_line dupe;
     keep_line := raw_line orig_rec;
     selected := true |}.

Section analysis.
Context `{AudioLib}.
(** [os.walk] on the dataset as it stands during the pass. *)
Variable os_walk : string → list (string * list string).
Variable files : gmap string string.

Definition find_audio_path (raw_dir filename : string) (raw_files_map : gmap string string)
    : option string * gmap string string :=
  match raw_files_map !! filename with
  | Some path => (Some path, raw_files_map)
  | None =>
      match walk_find (os_walk raw_dir) filename with
      | Some path => (Some path, <[filename := path]> raw_files_map)
      | None => (None, raw_files_map)
      end
  end.

Variables (raw_dir : string) (top_db hash_sr q_levels : Z).

(** The loop [for rec in group]. *)
Fixpoint scan_group (group : list rec)
    (hash_to_first : gmap string (rec * string))
    (current_group_dupes : list ((rec * string) * rec * string))
    (raw_files_map : gmap string string)
    : list ((rec * string) * rec * string) * gmap string string :=
  match group with
  | [] => (current_group_dupes, raw_files_map)
  | r :: rest =>
      let filename := OsPath.basename (rec_file r) in
      let '(found, raw_files_map) := find_audio_path raw_dir filename raw_files_map in
      match truthy found with
      | None => scan_group rest hash_to_first current_group_dupes raw_files_map
      | Some audio_path =>
          match audio_content_hash files audio_path 16000 top_db hash_sr q_levels with
          | None => scan_group rest hash_to_first current_group_dupes raw_files_map
          | Some h =>
              match hash_to_first !! h with
              | Some original =>
                  scan_group rest hash_to_first
                    (current_group_dupes ++ [(original, r, audio_path)]) raw_files_map
              | None =>
                  scan_group rest (<[h := (r, audio_path)]> hash_to_first)
                    current_group_dupes raw_files_map
              end
          end
      end
  end.

(** The loop [for text, group in text_groups.items()]. *)
Fixpoint scan_groups (groups : list (string * list rec))
    (duplicate_groups : list candidate) (raw_files_map : gmap string string)
    : list candidate * gmap string string :=
  match groups with
  | [] => (duplicate_groups, raw_files_map)
  | (t, group) :: rest =>
      if length group <? 2 then scan_groups rest duplicate_groups raw_files_map
      else
        let '(dupes, raw_files_map) := scan_group group ∅ [] raw_files_map in
        scan_groups rest (duplicate_groups ++ map (make_candidate t) dupes) raw_files_map
  end.

(** [run_dedup_analysis]: [None] stands for the [except] branch (the
    manifest cannot be opened); the second component is the cache after
    the pass. *)
Definition run_dedup_analysis (esd_path : string) (raw_files_map : gmap string string)
    : option (list candidate) * gmap string string :=
  match files !! esd_path with
  | None => (None, raw_files_map)
  | Some content =>
      let records := read_records (PyStr.readlines content) in
      let '(duplicate_groups, raw_files_map) :=
        scan_groups (text_groups records) [] raw_files_map in
      (Some duplicate_groups, raw_files_map)
  end.

End analysis.

(** ** The world of the executor: files, dialogs, log *)

Inductive event : Type :=
| EvLog (msg : string)
| EvShowInfo (title msg : string)
| EvShowError (title msg : string)
| EvAskYesNo (title msg : string) (answer : bool)
| EvDestroy
| EvMakedirs (path : string)
| EvCopy (src dst : string)
| EvRead (path : string)
| EvTruncate (path : string)
| EvWrite (path data : string)
| EvMove (src dst : string).

(** [files]: the regular files and their content.  [trace]: what has been
    done so far, oldest first.  [faults]: for each coming file-system
    call, whether the operating system refuses it (disk full, permission,
    ...); an exhausted list means no further refusal. *)
Record world : Type := World {
  files : gmap string string;
  trace : list event;
  faults : list bool
}.

Definition M (A : Type) : Type := world → outcome A * world.

#[global] Instance M_ret : MRet M := λ A a w, (Ok a, w).
#[global] Instance M_bind : MBind M :=
  λ A B f m w, match m w with
               | (Ok a, w') => f a w'
               | (Raise e, w') => (Raise e, w')
               end.

Definition raise {A : Type} (e : exn) : M A := λ w, (Raise e, w).

(** [try: body except Exception as e: handler(e)] *)
Definition try_except {A : Type} (body : M A) (handler : exn → M A) : M A :=
  λ w, match body w with
       | (Ok a, w') => (Ok a, w')
       | (Raise e, w') => handler e w'
       end.

Definition emit (e : event) : M unit :=
  λ w, (Ok (), World (files w) (trace w ++ [e]) (faults w)).

Definition set_files (f : gmap string string → gmap string string) : M unit :=
  λ w, (Ok (), World (f (files w)) (trace w) (faults w)).

Definition get_file (path : string) : M (option string) :=
  λ w, (Ok (files w !! path), w).

(** Every file-system call first asks the operating system: [fault] tells
    whether it refuses the coming call, [tick] moves on to the next one. *)
Definition fault (w : world) : bool :=
  match head (faults w) with
  | Some true => true
  | _ => false
  end.

Definition tick (w : world) : world :=
  World (files w) (trace w) (tail (faults w)).

Definition syscall : M unit :=
  λ w, if fault w then (Raise (Exception "OSError"), tick w) else (Ok (), tick w).

Definition log (msg : string) : M unit := emit (EvLog msg).
Definition showinfo (title msg : string) : M unit := emit (EvShowInfo title msg).
Definition showerror (title msg : string) : M unit := emit (EvShowError title msg).
Definition askyesno (title msg : string) (answer : bool) : M bool :=
  emit (EvAskYesNo title msg answer);; mret answer.

(** [os.makedirs(path, exist_ok=True)] *)
Definition makedirs (path : string) : M unit :=
  syscall;; emit (EvMakedirs path).

(** [shutil.copy2(src, dst)] *)
Definition copy2 (src dst : string) : M unit :=
  syscall;;
  c ← get_file src;
  match c with
  | None => raise (Exception "No such file or directory")
  | Some data => set_files (insert dst data);; emit (EvCopy src dst)
  end.

(** [with open(path, "r") as f: for line in f: ...] *)
Definition read_lines (path : string) : M (list string) :=
  syscall;;
  c ← get_file path;
  match c with
  | None => raise (Exception "No such file or directory")
  | Some data => emit (EvRead path);; mret (PyStr.readlines data)
  end.

(** [open(path, "w")] truncates; [writelines] and the close write. *)
Definition open_w (path : string) : M unit :=
  syscall;; set_files (insert path EmptyString);; emit (EvTruncate path).

Definition write_lines (path : string) (lines : list string) : M unit :=
  syscall;;
  set_files (insert path (PyStr.writelines lines));;
  emit (EvWrite path (PyStr.writelines lines)).

(** [os.path.exists(path)] *)
Definition path_exists (path : string) : M bool :=
  c ← get_file path; mret (bool_decide (is_Some c)).

(** [shutil.move(src, dst)] *)
Definition shutil_move (src dst : string) : M unit :=
  syscall;;
  c ← get_file src;
  match c with
  | None => raise (Exception "No such file or directory")
  | Some data => set_files (λ fs, <[dst := data]> (delete src fs));; emit (EvMove src dst)
  end.

(** What an event does to the files. *)
Definition apply_event (e : event) (fs : gmap string string) : gmap string string :=
  match e with
  | EvCopy src dst =>
      match fs !! src with Some data => <[dst := data]> fs | None => fs end
  | EvTruncate path => <[path := EmptyString]> fs
  | EvWrite path data => <[path := data]> fs
  | EvMove src dst =>
      match fs !! src with Some data => <[dst := data]> (delete src fs) | None => fs end
  | _ => fs
  end.

Definition replay (evs : list event) (fs : gmap string string) : gmap string string :=
  fold_left (λ fs e, apply_event e fs) evs fs.

(** An event that changes or removes the file at [path]. *)
Definition mutates (path : string) (e : event) : Prop :=
  match e with
  | EvCopy _ dst => dst = path
  | EvTruncate p => p = path
  | EvWrite p _ => p = path
  | EvMove src dst => src = path ∨ dst = path
  | _ => False
  end.

#[global] Instance mutates_dec path e : Decision (mutates path e).
Proof. destruct e; simpl; apply _. Defined.

(** ** The clock *)

Record datetime : Type := Datetime {
  year : nat; month : nat; day : nat;
  hour : nat; minute : nat; second : nat
}.

Definition digit (n : nat) : ascii := ascii_of_nat (48 + n mod 10).

Definition two_digits (n : nat) : string :=
  String (digit (n / 10)) (String (digit n) EmptyString).

Definition four_digits (n : nat) : string :=
  two_digits (n / 100) +:+ two_digits n.

(** [now.strftime("%Y%m%d_%H%M%S")] *)
Definition strftime (now : datetime) : string :=
  four_digits (year now) +:+ two_digits (month now) +:+ two_digits (day now)
  +:+ "_" +:+ two_digits (hour now) +:+ two_digits (minute now)
  +:+ two_digits (second now).

(** ** The executor and the commit handler *)

Definition backup_root_of (esd_path : string) (now : datetime) : string :=
  OsPath.dirname esd_path +:+ "/backup_dedup_" +:+ strftime now.

Definition backup_esd_of (esd_path : string) (now : datetime) : string :=
  OsPath.join (backup_root_of esd_path now) "esd.list".

Definition backup_files_dir_of (esd_path : string) (now : datetime) : string :=
  OsPath.join (backup_root_of esd_path now) "deleted_files".

(** The loop that rebuilds the manifest. *)
Fixpoint rebuild (lines_to_remove : gset string) (lines : list string)
    (new_lines : list string) : list string :=
  match lines with
  | [] => new_lines
  | line :: rest =>
      if bool_decide (PyStr.strip line ∈ lines_to_remove)
      then rebuild lines_to_remove rest new_lines
      else rebuild lines_to_remove rest (new_lines ++ [line])
  end.

(** The loop that moves the audio files away. *)
Fixpoint move_files (paths : list string) (backup_files_dir : string)
    (deleted_count : nat) : M nat :=
  match paths with
  | [] => mret deleted_count
  | f_path :: rest =>
      present ← path_exists f_path;
      if present : bool then
        let fname := OsPath.basename f_path in
        shutil_move f_path (OsPath.join backup_files_dir fname);;
        move_files rest backup_files_dir (S deleted_count)
      else move_files rest backup_files_dir deleted_count
  end.

(** The [try] block of [execute_dedup_deletion]; [now] is what
    [datetime.now()] returns. *)
Definition execute_body (duplicates : list candidate) (esd_path raw_dir : string)
    (now : datetime) : M unit :=
  log "=== dedup deletion start ===";;
  let timestamp := strftime now in
  let backup_root := OsPath.dirname esd_path +:+ "/backup_dedup_" +:+ timestamp in
  makedirs backup_root;;
  copy2 esd_path (OsPath.join backup_root "esd.list");;
  let backup_files_dir := OsPath.join backup_root "deleted_files" in
  makedirs backup_files_dir;;
  log ("backup created: " +:+ backup_root);;
  let lines_to_remove : gset string := list_to_set (map delete_line duplicates) in
  let files_to_remove : gset string := list_to_set (map delete_path duplicates) in
  lines ← read_lines esd_path;
  let new_lines := rebuild lines_to_remove lines [] in
  open_w esd_path;;
  write_lines esd_path new_lines;;
  deleted_count ← move_files (elements files_to_remove) backup_files_dir 0;
  log ("done. esd lines: " +:+ pretty (length new_lines)
       +:+ " files moved: " +:+ pretty deleted_count);;
  showinfo "done" ("deleted files were moved to: " +:+ backup_files_dir).

Definition execute_dedup_deletion (duplicates : list candidate) (esd_path raw_dir : string)
    (now : datetime) : M unit :=
  try_except (execute_body duplicates esd_path raw_dir now)
    (λ e, showerror "error" ("error during deletion: " +:+ exn_msg e);;
          log ("error: " +:+ exn_msg e)).

(** A click on the first column of row [i] of the result window. *)
Definition toggle_selected (d : candidate) : candidate :=
  {| text := text d; keep_file := keep_file d; keep_path := keep_path d;
     delete_file := delete_file d; delete_path := delete_path d;
     delete_line := delete_line d; keep_line := keep_line d;
     selected := negb (selected d) |}.

Definition on_dedup_tree_click (i : nat) (duplicates : list candidate) : list candidate :=
  alter toggle_selected i duplicates.

(** The commit button; [answer] is what the operator replies to the
    warning dialog. *)
Definition do_delete (duplicates : list candidate) (esd_path raw_dir : string)
    (answer : bool) (now : datetime) : M unit :=
  let selected_dupes := filter (λ d, selected d = true) duplicates in
  let count := length selected_dupes in
  if count =? 0 then showinfo "info" "nothing is selected for deletion"
  else
    yes ← askyesno "warning" ("delete the " +:+ pretty count +:+ " checked files?") answer;
    if negb yes then mret ()
    else emit EvDestroy;; execute_dedup_deletion selected_dupes esd_path raw_dir now.


(** ** Auxiliary notions for the statements *)

Section analysis_spec.
Context `{AudioLib}.
Variable os_walk : string → list (string * list string).
Variable files0 : gmap string string.
Variables (raw_dir : string) (top_db hash_sr q_levels : Z).

(** What a look-up of [filename] returns for a given cache: the cached
    path, else the first match of the walk. *)
Definition resolve (raw_files_map : gmap string string) (filename : string) : option string :=
  match raw_files_map !! filename with
  | Some path => Some path
  | None => walk_find (os_walk raw_dir) filename
  end.

(** The audio path and the fingerprint of a manifest entry, when both are
    available; [res] resolves file names. *)
Definition entry_fingerprint (res : string → option string) (r : rec)
    : option (string * string) :=
  match truthy (res (OsPath.basename (rec_file r))) with
  | None => None
  | Some audio_path =>
      match audio_content_hash files0 audio_path 16000 top_db hash_sr q_levels with
      | None => None
      | Some h => Some (audio_path, h)
      end
  end.

(** The first entry of [entries] whose fingerprint is [h], with its audio
    path. *)
Fixpoint first_with (res : string → option string) (h : string) (entries : list rec)
    : option (rec * string) :=
  match entries with
  | [] => None
  | k :: rest =>
      match entry_fingerprint res k with
      | Some (keep_path, h') =>
          if String.eqb h' h then Some (k, keep_path) else first_with res h rest
      | None => first_with res h rest
      end
  end.

(** The tie-break rule in the specification's words: going through the
    group in manifest order, an entry whose fingerprint was already met
    becomes a "delete" candidate paired with the first earlier entry of
    that fingerprint (the "keep" entry); [earlier] are the entries gone
    through so far. *)
Fixpoint keep_first_pairs (res : string → option string) (earlier group : list rec)
    : list ((rec * string) * rec * string) :=
  match group with
  | [] => []
  | r :: rest =>
      match entry_fingerprint res r with
      | None => keep_first_pairs res (earlier ++ [r]) rest
      | Some (audio_path, h) =>
          match first_with res h earlier with
          | Some keep => (keep, r, audio_path) :: keep_first_pairs res (earlier ++ [r]) rest
          | None => keep_first_pairs res (earlier ++ [r]) rest
          end
      end
  end.

Definition group_candidates (res : string → option string) (tg : string * list rec)
    : list candidate :=
  if length tg.2 <? 2 then []
  else map (make_candidate tg.1) (keep_first_pairs res [] tg.2).

(** The candidates of a manifest, group after group. *)
Definition manifest_candidates (res : string → option string) (lines : list string)
    : list candidate :=
  flat_map (group_candidates res) (text_groups (read_records lines)).

End analysis_spec.

(** The cache maps a file name to a path whose last component is that
    name. *)
Definition cache_wf (raw_files_map : gmap string string) : Prop :=
  ∀ filename path, raw_files_map !! filename = Some path → OsPath.basename path = filename.

(** The names a walk lists are single path components. *)
Definition walk_wf (walk : list (string * list string)) : Prop :=
  ∀ root names name, (root, names) ∈ walk → name ∈ names → OsPath.has_sep name = false.

(** The lines the rewrite of the manifest keeps. *)
Definition kept_lines (duplicates : list candidate) (lines : list string) : list string :=
  filter (λ line, PyStr.strip line ∉ map delete_line duplicates) lines.

(** The lines the rewrite of the manifest drops. *)
Definition dropped_lines (duplicates : list candidate) (lines : list string) : list string :=
  filter (λ line, PyStr.strip line ∈ map delete_line duplicates) lines.

(** The operating system refuses nothing. *)
Definition no_faults (w : world) : Prop := Forall (λ b, b = false) (faults w).

(** Every group holds, in manifest order, exactly the records of its
    transcript; no transcript has two groups. *)
Definition groups_of (records : list rec) (groups : list (string * list rec)) : Prop :=
  NoDup groups.*1
  ∧ (∀ t g, (t, g) ∈ groups → g = filter (λ r, rec_text r = t) records ∧ g ≠ [])
  ∧ (∀ r, r ∈ records → rec_text r ∈ groups.*1).

Section fingerprint_spec.
Context `{AudioLib}.

(** The signal of a file after loading and silence trimming. *)
Definition trimmed (files : gmap string string) (path : string) (sr top_db : Z)
    : outcome signal :=
  bytes ← open_audio files path;
  y ← librosa_load bytes sr;
  librosa_trim y top_db.

(** Opening or decoding the file raises. *)
Definition load_fails (files : gmap string string) (path : string) (sr : Z) : Prop :=
  ∃ e, (bytes ← open_audio files path; librosa_load bytes sr) = Raise e.

Definition empty_after_trim (files : gmap string string) (path : string) (sr top_db : Z)
    : Prop :=
  ∃ y, trimmed files path sr top_db = Ok y ∧ signal_len y = 0.

Definition zero_peak (files : gmap string string) (path : string) (sr top_db : Z) : Prop :=
  ∃ y m, trimmed files path sr top_db = Ok y ∧ signal_len y ≠ 0
         ∧ np_max_abs y = Ok m ∧ amplitude_is_zero m = true.

(** Trimming the decoded signal raises. *)
Definition trim_fails (files : gmap string string) (path : string) (sr top_db : Z) : Prop :=
  ∃ bytes y e,
    files !! path = Some bytes ∧ librosa_load bytes sr = Ok y
    ∧ librosa_trim y top_db = Raise e.

(** The signal that is quantised: the normalised signal itself when the
    comparison rate is the loading rate, else what resampling returns. *)
Definition at_hash_rate (y_n : signal) (sr hash_sr : Z) : outcome signal :=
  if bool_decide (sr = hash_sr) then Ok y_n else librosa_resample y_n sr hash_sr.

(** A numeric step after the two early exits raises: the peak, the
    division by the peak, the resampling or the quantisation. *)
Definition numeric_step_fails (files : gmap string string) (path : string)
    (sr top_db hash_sr q_levels : Z) : Prop :=
  ∃ y_t, trimmed files path sr top_db = Ok y_t ∧ signal_len y_t ≠ 0
    ∧ ((∃ e, np_max_abs y_t = Raise e)
       ∨ ∃ m, np_max_abs y_t = Ok m ∧ amplitude_is_zero m = false
          ∧ ((∃ e, np_divide y_t m = Raise e)
             ∨ ∃ y_n, np_divide y_t m = Ok y_n
                ∧ ((∃ e, at_hash_rate y_n sr hash_sr = Raise e)
                   ∨ ∃ y_r e, at_hash_rate y_n sr hash_sr = Ok y_r
                              ∧ np_quantize y_r q_levels = Raise e))).

(** [y_q] holds the quantised samples of the file: every step succeeds,
    the trimmed signal is not empty and its peak is not zero. *)
Inductive quantised_samples (files : gmap string string) (path : string)
    (sr top_db hash_sr q_levels : Z) (y_q : string) : Prop :=
| quantised_steps bytes y y_t m y_n y_r :
    files !! path = Some bytes →
    librosa_load bytes sr = Ok y →
    librosa_trim y top_db = Ok y_t →
    signal_len y_t ≠ 0 →
    np_max_abs y_t = Ok m →
    amplitude_is_zero m = false →
    np_divide y_t m = Ok y_n →
    at_hash_rate y_n sr hash_sr = Ok y_r →
    np_quantize y_r q_levels = Ok y_q →
    quantised_samples files path sr top_db hash_sr q_levels y_q.

(** The claim on the fingerprinter as the specification words it. *)
Definition unavailable_as_specified (files : gmap string string) (path : string)
    (sr top_db hash_sr q_levels : Z) : Prop :=
  audio_content_hash files path sr top_db hash_sr q_levels = None ↔
    empty_after_trim files path sr top_db
    ∨ zero_peak files path sr top_db
    ∨ load_fails files path sr.

End fingerprint_spec.

(** An event that changes no file. *)
Definition harmless (e : event) : Prop := ∀ path, ¬ mutates path e.

(** How far a run of the executor got.  [w] is the world it started in,
    [w'] the world it ended in. *)
Inductive exec_stage (duplicates : list candidate) (esd_path : string) (now : datetime)
    (w w' : world) : Prop :=
| stage_nothing evs :
    files w' = files w →
    trace w' = trace w ++ evs →
    Forall harmless evs →
    ¬ no_faults w ∨ files w !! esd_path = None →
    exec_stage duplicates esd_path now w w'
| stage_copied data msg evs :
    files w !! esd_path = Some data →
    files w' = <[backup_esd_of esd_path now := data]> (files w) →
    trace w' = trace w
      ++ [EvLog msg; EvMakedirs (backup_root_of esd_path now);
          EvCopy esd_path (backup_esd_of esd_path now)] ++ evs →
    Forall harmless evs →
    ¬ no_faults w →
    exec_stage duplicates esd_path now w w'
| stage_truncated data msg evs evs' :
    files w !! esd_path = Some data →
    files w' = <[esd_path := EmptyString]> (<[backup_esd_of esd_path now := data]> (files w)) →
    trace w' = trace w
      ++ [EvLog msg; EvMakedirs (backup_root_of esd_path now);
          EvCopy esd_path (backup_esd_of esd_path now)] ++ evs
      ++ [EvTruncate esd_path] ++ evs' →
    Forall harmless evs → Forall harmless evs' →
    ¬ no_faults w →
    exec_stage duplicates esd_path now w w'
| stage_rewritten data msg evs evs' w1 r1 w2 :
    files w !! esd_path = Some data →
    let new_lines :=
      rebuild (list_to_set (map delete_line duplicates)) (PyStr.readlines data) [] in
    files w1 = <[esd_path := PyStr.writelines new_lines]>
                 (<[esd_path := EmptyString]> (<[backup_esd_of esd_path now := data]> (files w))) →
    trace w1 = trace w
      ++ [EvLog msg; EvMakedirs (backup_root_of esd_path now);
          EvCopy esd_path (backup_esd_of esd_path now)] ++ evs
      ++ [EvTruncate esd_path; EvWrite esd_path (PyStr.writelines new_lines)] →
    Forall harmless evs →
    move_files (elements (list_to_set (map delete_path duplicates) : gset string))
      (backup_files_dir_of esd_path now) 0 w1 = (r1, w2) →
    files w' = files w2 →
    trace w' = trace w2 ++ evs' →
    Forall harmless evs' →
    exec_stage duplicates esd_path now w w'.

(** Distinct paths of the list have distinct last components. *)
Definition basename_inj (paths : list string) : Prop :=
  ∀ a b, a ∈ paths → b ∈ paths → OsPath.basename a = OsPath.basename b → a = b.

(** *** Lines of a text file *)

Fixpoint no_lf (s : string) : bool :=
  match s with
  | EmptyString => true
  | String c r => negb (PyStr.is_lf c) && no_lf r
  end.

(** A line with its terminating LF, and a last line without one. *)
Definition complete_line (l : string) : Prop :=
  ∃ body, l = body +:+ String PyStr.LF EmptyString ∧ no_lf body = true.

Definition partial_line (l : string) : Prop := l ≠ EmptyString ∧ no_lf l = true.

(** The lines of a file: all complete, but possibly the last. *)
Inductive lines_ok : list string → Prop :=
| lines_ok_nil : lines_ok []
| lines_ok_last l : partial_line l → lines_ok [l]
| lines_ok_cons l ls : complete_line l → lines_ok ls → lines_ok (l :: ls).

(** The number of confirmed candidates whose delete line stands verbatim
    in the manifest. *)
Definition confirmed_present (duplicates : list candidate) (lines : list string) : nat :=
  length (filter (λ d, delete_line d ∈ map PyStr.rstrip_lf lines) duplicates).

(** The claim on the line count as the specification words it, for a run
    from [w] to [w']. *)
Definition count_as_specified (duplicates : list candidate) (esd_path : string)
    (w w' : world) : Prop :=
  ∀ before after,
    files w !! esd_path = Some before →
    files w' !! esd_path = Some after →
    length (PyStr.readlines after)
    = length (PyStr.readlines before) - confirmed_present duplicates (PyStr.readlines before).

(** No line carries white space around its text, the line break apart. *)
Definition unpadded (lines : list string) : Prop :=
  Forall (λ line, PyStr.strip line = PyStr.rstrip_lf line) lines.

(** The manifest lines whose text is, verbatim, the delete line of a
    confirmed candidate: every copy of such a line. *)
Definition verbatim_copies (duplicates : list candidate) (lines : list string)
    : list string :=
  filter (λ line, PyStr.rstrip_lf line ∈ map delete_line duplicates) lines.

(** A file lies in the directory [dir] or below it, so the directory
    exists. *)
Definition dir_in_use (fs : gmap string string) (dir : string) : Prop :=
  ∃ path data, fs !! path = Some data ∧ String.prefix (dir +:+ "/") path = true.

(** The claim on the backup directory as the specification words it, for
    a run from [w] to [w']: a run that changes the manifest made a
    directory that did not exist before. *)
Definition backup_dir_as_specified (esd_path : string) (now : datetime) (w w' : world)
    : Prop :=
  files w' !! esd_path ≠ files w !! esd_path →
  ¬ dir_in_use (files w) (backup_root_of esd_path now).

(** ** A small data set for the examples *)

Module Demo.

Fixpoint drop_silence (y : list nat) : list nat :=
  match y with
  | 0 :: rest => drop_silence rest
  | _ => y
  end.

(** A stand-in for the numeric back end: one sample per character of the
    file ("0" is silence), a file that starts with "!" cannot be decoded,
    a comparison rate that is not positive cannot be resampled to, and
    the digest is the quantised signal itself. *)
Definition toy (has_librosa : bool) : AudioLib := {|
  HAS_LIBROSA := has_librosa;
  signal := list nat;
  amplitude := nat;
  librosa_load bytes sr :=
    if String.prefix "!" bytes then Raise (Exception "cannot decode")
    else Ok (map (λ c, nat_of_ascii c - 48) (String.list_ascii_of_string bytes));
  librosa_trim y top_db := Ok (rev (drop_silence (rev (drop_silence y))));
  signal_len := length;
  np_max_abs y := Ok (foldr Nat.max 0 y);
  amplitude_is_zero m := m =? 0;
  np_divide y m := Ok (map (λ x, x * 100 / m) y);
  librosa_resample y sr hash_sr :=
    if (hash_sr <=? 0)%Z then Raise (Exception "invalid sample rate") else Ok y;
  np_quantize y q_levels :=
    Ok (String.string_of_list_ascii
          (map (λ x, ascii_of_nat (48 + x * Z.to_nat (q_levels - 1) / 200)) y));
  sha1_hexdigest y_q := "sha1:" +:+ y_q
|}.

Definition librosa : AudioLib := toy true.

Definition line (s : string) : string := s +:+ String PyStr.LF EmptyString.

Definition esd_path : string := "data/esd.list".
Definition raw_dir : string := "data/raw".

Definition os_walk (dir : string) : list (string * list string) :=
  if String.eqb dir raw_dir then [("data/raw", ["a.wav"; "b.wav"; "c.wav"])] else [].

(** [a.wav] and [b.wav] hold the same sound with different silence around
    it, [c.wav] holds another sound; all three lines have the same
    transcript. *)
Definition manifest : string :=
  PyStr.writelines
    [line "a.wav|spk|en|Hello"; line "b.wav|spk|en|Hello"; line "c.wav|spk|en|Hello";
     line "d.wav|spk"; line EmptyString].

Definition audio : gmap string string :=
  <["data/raw/a.wav" := "01200"]>
    (<["data/raw/b.wav" := "12"]> (<["data/raw/c.wav" := "21"]> ∅)).

Definition disk : gmap string string := <[esd_path := manifest]> audio.

Definition analysis : option (list candidate) * gmap string string :=
  @run_dedup_analysis librosa os_walk disk raw_dir 40 2000 15 esd_path ∅.

Definition cands : list candidate := default [] analysis.1.

Definition now : datetime := Datetime 2025 1 2 3 4 5.

Definition w0 : world := World disk [] [].

(** The same data set with the line of [b.wav] written twice. *)
Definition manifest2 : string :=
  PyStr.writelines
    [line "a.wav|spk|en|Hello"; line "b.wav|spk|en|Hello"; line "b.wav|spk|en|Hello"].

Definition disk2 : gmap string string := <[esd_path := manifest2]> audio.

Definition cands2 : list candidate :=
  default [] (@run_dedup_analysis librosa os_walk disk2 raw_dir 40 2000 15 esd_path ∅).1.

(** The operator unticks the second row and commits. *)
Definition confirmed2 : list candidate :=
  filter (λ d, selected d = true) (on_dedup_tree_click 1 cands2).

Definition w2 : world := World disk2 [] [].

Definition w2' : world := (do_delete (on_dedup_tree_click 1 cands2) esd_path raw_dir true now w2).2.

Definition w0' : world := (execute_dedup_deletion cands esd_path raw_dir now w0).2.

(** The backup directory of this second is there already and holds the
    manifest copy of an earlier commit. *)
Definition w5 : world :=
  World (<["data/backup_dedup_20250102_030405/esd.list" := "earlier"]> disk) [] [].

Definition w5' : world := (execute_dedup_deletion cands esd_path raw_dir now w5).2.

Definition rec_a : rec := Rec "a.wav|spk|en|Hello" "a.wav" "spk" "en" "Hello".
Definition rec_b : rec := Rec "b.wav|spk|en|Hello" "b.wav" "spk" "en" "Hello".
Definition rec_c : rec := Rec "c.wav|spk|en|Hello" "c.wav" "spk" "en" "Hello".

Definition the_candidate : candidate :=
  make_candidate "Hello" ((rec_a, "data/raw/a.wav"), rec_b, "data/raw/b.wav").

(** A tree where the name [a.wav] occurs in two folders. *)
Definition os_walk3 (dir : string) : list (string * list string) :=
  if String.eqb dir raw_dir
  then [("data/raw", ["b.wav"]); ("data/raw/x", ["a.wav"]); ("data/raw/y", ["a.wav"])]
  else [].

Definition disk3 : gmap string string :=
  <[esd_path := PyStr.writelines [line "a.wav|spk|en|Hi"; line "b.wav|spk|en|Hi"]]>
    (<["data/raw/x/a.wav" := "12"]>
       (<["data/raw/y/a.wav" := "21"]> (<["data/raw/b.wav" := "12"]> ∅))).

(** A manifest whose transcripts end with a space. *)
Definition manifest4 : string :=
  PyStr.writelines [line "a.wav|spk|en|Hello "; line "b.wav|spk|en|Hello "].

Definition disk4 : gmap string string := <[esd_path := manifest4]> audio.

Definition cands4 : list candidate :=
  default [] (@run_dedup_analysis librosa os_walk disk4 raw_dir 40 2000 15 esd_path ∅).1.

Definition w4' : world :=
  (do_delete cands4 esd_path raw_dir true now (World disk4 [] [])).2.

End Demo.

(** The cache holds first matches of the walk only, as it does when
    nothing but [find_audio_path] filled it. *)
Definition first_match_cache (os_walk : string → list (string * list string))
    (raw_dir : string) (raw_files_map : gmap string string) : Prop :=
  ∀ filename path,
    raw_files_map !! filename = Some path →
    walk_find (os_walk raw_dir) filename = Some path.

(** * The rest of the duplicate tool and the organizer *)

(** ** Dialog boxes in a trace *)

Definition is_dialog (e : event) : bool :=
  match e with
  | EvShowInfo _ _ | EvShowError _ _ | EvAskYesNo _ _ _ => true
  | _ => false
  end.

Definition quiet (e : event) : Prop := is_dialog e = false.

(** Every event a computation adds to the trace satisfies [P]. *)
Definition emits {A : Type} (P : event → Prop) (m : M A) : Prop :=
  ∀ w r w', m w = (r, w') → ∃ evs, trace w' = trace w ++ evs ∧ Forall P evs.

(** The same, but a run that returns normally ends with one more event,
    which satisfies [Q]. *)
Definition closes {A : Type} (P Q : event → Prop) (m : M A) : Prop :=
  ∀ w r w', m w = (r, w') →
    ∃ evs, trace w' = trace w ++ evs ∧
      match r with
      | Ok _ => ∃ pre e, evs = pre ++ [e] ∧ Forall P pre ∧ Q e
      | Raise _ => Forall P evs
      end.

(** Where the executor puts a file it moves away. *)
Definition backup_place (esd_path : string) (now : datetime) (path : string) : string :=
  OsPath.join (backup_files_dir_of esd_path now) (OsPath.basename path).

(** ** The result window *)

Definition tick_row (d : candidate) : candidate :=
  {| text := text d; keep_file := keep_file d; keep_path := keep_path d;
     delete_file := delete_file d; delete_path := delete_path d;
     delete_line := delete_line d; keep_line := keep_line d;
     selected := true |}.

(** [show_dedup_results] up to the point where the window waits for the
    operator: [None] when there is nothing to show and no window opens,
    else the rows of the window. *)
Definition show_dedup_results (duplicates : list candidate) : M (option (list candidate)) :=
  match duplicates with
  | [] => showinfo "result" "no duplicate audio was found";; mret None
  | _ => mret (Some (map tick_row duplicates))
  end.

(** ** The button that starts the duplicate check *)

Section start.
(** The directories of the file system; the check only reads them. *)
Variable isdir : string → bool.

(** [os.path.exists] *)
Definition exists_path (path : string) : M bool :=
  c ← get_file path; mret (bool_decide (is_Some c) || isdir path).

(** [params] is what reading the three spin boxes gives: [None] when one
    of them holds no number.  The result is the argument tuple of the
    analysis thread, when one is started. *)
Definition start_dedup_check (dataset_root : string) (params : option (Z * Z * Z))
    (answer : bool) : M (option (string * string * Z * Z * Z)) :=
  root_exists ← exists_path dataset_root;
  if PyStr.is_empty dataset_root || negb root_exists
  then showerror "error" "select the dataset folder";; mret None
  else
    let esd_path := OsPath.join dataset_root "esd.list" in
    let raw_dir := OsPath.join dataset_root "raw" in
    esd_exists ← exists_path esd_path;
    raw_exists ← exists_path raw_dir;
    if negb esd_exists || negb raw_exists
    then showerror "error" "esd.list or the raw folder is missing";; mret None
    else
      match params with
      | None => showerror "error" "the parameters must be numbers";; mret None
      | Some (p_top_db, p_hash_sr, p_q_levels) =>
          yes ← askyesno "confirm" "start the duplicate check?" answer;
          if yes : bool then
            log "=== duplicate check start ===";;
            mret (Some (esd_path, raw_dir, p_top_db, p_hash_sr, p_q_levels))
          else mret None
      end.

End start.

(** The rows after the operator clicked the check column of the rows
    [clicks], one after the other. *)
Definition clicks_on (clicks : list nat) (rows : list candidate) : list candidate :=
  foldl (λ rows i, on_dedup_tree_click i rows) rows clicks.

(** What look-ups may add to the cache: the first match of the walk, for
    a name the cache did not hold. *)
Definition cache_extends (os_walk : string → list (string * list string))
    (raw_dir : string) (cache cache' : gmap string string) : Prop :=
  cache ⊆ cache'
  ∧ ∀ f p, cache' !! f = Some p →
      cache !! f = Some p
      ∨ (cache !! f = None ∧ walk_find (os_walk raw_dir) f = Some p).

(** ** The organizer: preview, plan and export *)

Module Organizer.

(** *** More string primitives *)

Definition between (lo hi n : nat) : bool := (lo <=? n) && (n <=? hi).

(** [str.isalnum] on the code points below 256: the letters, the decimal
    digits, and the superscript digits and vulgar fractions that count
    as numeric. *)
Definition isalnum (c : ascii) : bool :=
  let n := nat_of_ascii c in
  between 48 57 n || between 65 90 n || between 97 122 n
  || (n =? 170) || (n =? 178) || (n =? 179) || (n =? 181) || (n =? 185) || (n =? 186)
  || between 188 190 n || between 192 214 n || between 216 246 n || between 248 255 n.

(** [str.lower] on the code points below 256. *)
Definition lower_char (c : ascii) : ascii :=
  let n := nat_of_ascii c in
  if between 65 90 n || between 192 214 n || between 216 222 n
  then ascii_of_nat (n + 32) else c.

Fixpoint lower (s : string) : string :=
  match s with
  | EmptyString => EmptyString
  | String c r => String (lower_char c) (lower r)
  end.

(** [s.replace(a, b)] for single characters. *)
Fixpoint replace_char (a b : ascii) (s : string) : string :=
  match s with
  | EmptyString => EmptyString
  | String c r => String (if Ascii.eqb c a then b else c) (replace_char a b r)
  end.

(** [s.strip(chars)] for a class of characters. *)
Definition strip_by (f : ascii → bool) (s : string) : string :=
  PyStr.lstrip_by f (PyStr.rstrip_by f s).

(** [''.join(c for c in s if f(c))] *)
Fixpoint keep_chars (f : ascii → bool) (s : string) : string :=
  match s with
  | EmptyString => EmptyString
  | String c r => if f c then String c (keep_chars f r) else keep_chars f r
  end.

(** [sep.join(parts)] *)
Fixpoint join_with (sep : ascii) (parts : list string) : string :=
  match parts with
  | [] => EmptyString
  | [p] => p
  | p :: rest => p +:+ String sep (join_with sep rest)
  end.

Definition BACKSLASH : ascii := ascii_of_nat 92.

(** The characters an emotion or category name keeps. *)
Definition name_char (c : ascii) : bool :=
  isalnum c || Ascii.eqb c " " || Ascii.eqb c "_" || Ascii.eqb c "-".

(** [''.join(c for c in s if c.isalnum() or c in (' ', '_', '-')).strip()] *)
Definition sanitize (s : string) : string := PyStr.strip (keep_chars name_char s).

(** *** Rows of the analysis CSV *)

(** A value of a [csv.DictReader] row: a string, or [None] where the
    line was shorter than the header. *)
Inductive pyval : Type :=
| PStr (s : string)
| PNone.

Definition row : Type := gmap string pyval.

(** [row.get(key, default)] *)
Definition row_get (r : row) (key default : string) : pyval :=
  match r !! key with
  | Some v => v
  | None => PStr default
  end.

(** [v.strip()] *)
Definition val_strip (v : pyval) : outcome string :=
  match v with
  | PStr s => Ok (PyStr.strip s)
  | PNone => Raise (Exception "'NoneType' object has no attribute 'strip'")
  end.

(** The loop that indexes the rows by file name; the reader delivers the
    rows one by one and may raise at any of them. *)
Fixpoint csv_index (rows : list (outcome row)) (csv_data : gmap string row)
    : outcome (gmap string row) :=
  match rows with
  | [] => Ok csv_data
  | next :: rest =>
      r ← next;
      filename ← val_strip (row_get r "Filename" EmptyString);
      let filename := OsPath.basename filename in
      csv_index rest
        (if PyStr.is_empty filename then csv_data else <[filename := r]> csv_data)
  end.

(** [row.get('Is_Usable', 'False').strip().lower() == 'true'] *)
Definition is_usable_of (r : row) : outcome bool :=
  u ← val_strip (row_get r "Is_Usable" "False");
  mret (String.eqb (lower u) "true").

(** The emotion of a row, cleaned; [Neutral] when nothing is left. *)
Definition clean_emotion (e : string) : string :=
  let e := sanitize e in
  if PyStr.is_empty e then "Neutral" else e.

(** *** The preview *)

(** A tab of the preview.  The label of the tab of the entries to delete
    starts with four ideographs, which no string of code points below 256
    equals; it is a category of its own. *)
Inductive category : Type :=
| Excluded
| Named (name : string).

#[global] Instance category_eq_dec : EqDecision category.
Proof. solve_decision. Defined.

Record item : Type := Item {
  filename : string;
  text : string;
  reason : string;
  status : string;
  path : string;
  original_line : string
}.

Record stats : Type := Stats {
  moved : nat;
  deleted : nat;
  kept : nat
}.

Inductive bump : Type := Moved | Deleted | Kept.

#[global] Instance bump_eq_dec : EqDecision bump.
Proof. solve_decision. Defined.

Definition count (b : bump) (s : stats) : stats :=
  match b with
  | Moved => Stats (S (moved s)) (deleted s) (kept s)
  | Deleted => Stats (moved s) (S (deleted s)) (kept s)
  | Kept => Stats (moved s) (deleted s) (S (kept s))
  end.

(** The folder of an entry, as the emotion it stands for. *)
Definition current_emotion_of (current_full_path : string) : string :=
  let current_dir := OsPath.dirname current_full_path in
  let current_dir := strip_by OsPath.is_sep (replace_char BACKSLASH OsPath.SEP current_dir) in
  if PyStr.is_empty current_dir || String.eqb current_dir "." then "Unclassified"
  else current_dir.

(** [d[key].append(v)], with [d[key] = []] first when the key is new, on
    an insertion-ordered dictionary. *)
Fixpoint dict_append {K V : Type} `{EqDecision K} (k : K) (v : V) (d : list (K * list V))
    : list (K * list V) :=
  match d with
  | [] => [(k, [v])]
  | (k', vs) :: rest =>
      if decide (k' = k) then (k', vs ++ [v]) :: rest
      else (k', vs) :: dict_append k v rest
  end.

(** The body of the loop over the manifest in [load_preview]: [None] is
    [continue]; an entry is filed under a category and counted. *)
Definition preview_entry (csv_data : gmap string row) (raw_files_map : gmap string string)
    (line : string) : option (outcome (category * bump * item)) :=
  let parts := PyStr.split PyStr.PIPE (PyStr.strip line) in
  match parts with
  | current_full_path :: _ :: _ =>
      Some (
        let filename := OsPath.basename current_full_path in
        let current_emotion := current_emotion_of current_full_path in
        let text := default EmptyString (parts !! 3) in
        '(category, reason, status, b) ←
          match csv_data !! filename with
          | Some r =>
              is_usable ← is_usable_of r;
              new_emotion ← val_strip (row_get r "Emotion" "Neutral");
              reason ← val_strip (row_get r "Reason" EmptyString);
              let new_emotion := clean_emotion new_emotion in
              if negb is_usable then mret (Excluded, reason, "Delete", Deleted)
              else if negb (String.eqb current_emotion new_emotion)
                      && negb (String.eqb current_emotion "Unclassified")
              then mret (Named new_emotion, reason,
                         "Move (" +:+ current_emotion +:+ " -> " +:+ new_emotion +:+ ")",
                         Moved)
              else if String.eqb current_emotion "Unclassified"
              then mret (Named new_emotion, reason,
                         "New Sort (" +:+ new_emotion +:+ ")", Moved)
              else mret (Named new_emotion, reason, "Keep (Verified)", Kept)
          | None =>
              mret (Named (if negb (String.eqb current_emotion "Unclassified")
                           then current_emotion else "Unclassified (Root)"),
                    "-", "Keep (No CSV Entry)", Kept)
          end;
        mret (category, b,
              Item filename text reason status
                (default EmptyString (raw_files_map !! filename)) (PyStr.strip line)))
  | _ => None
  end.

(** The loop itself: it stops at the first entry that raises and leaves
    what it has filed so far. *)
Fixpoint preview_loop (csv_data : gmap string row) (raw_files_map : gmap string string)
    (lines : list string) (preview_data : list (category * list item)) (st : stats)
    : list (category * list item) * stats * option exn :=
  match lines with
  | [] => (preview_data, st, None)
  | line :: rest =>
      match preview_entry csv_data raw_files_map line with
      | None => preview_loop csv_data raw_files_map rest preview_data st
      | Some (Raise e) => (preview_data, st, Some e)
      | Some (Ok (cat, b, it)) =>
          preview_loop csv_data raw_files_map rest (dict_append cat it preview_data)
            (count b st)
      end
  end.

(** What the application keeps between two button presses: the file-name
    cache, the preview, and the preview the tabs were last built from. *)
Record app : Type := App {
  app_raw_files_map : gmap string string;
  app_preview_data : list (category * list item);
  app_notebook : list (category * list item)
}.

Section preview.
Variable isdir : string → bool.
Variable os_walk : string → list (string * list string).
(** [csv.DictReader] over the text of a file, the header names stripped:
    the rows in order, each of which may raise. *)
Variable read_csv : string → list (outcome row).

(** [with open(csv_file) as f: ...] of the preview, as far as the index. *)
Definition load_csv (csv_file : string) : M (gmap string row) :=
  syscall;;
  c ← get_file csv_file;
  match c with
  | None => raise (Exception "No such file or directory")
  | Some data =>
      match csv_index (read_csv data) ∅ with
      | Ok csv_data => mret csv_data
      | Raise e => raise e
      end
  end.

(** [load_preview]; the two strings are what the two entry fields hold. *)
Definition load_preview (dataset_root csv_file : string) (a : app) : M app :=
  root_exists ← exists_path isdir dataset_root;
  if PyStr.is_empty dataset_root || negb root_exists
  then showerror "error" "select a valid dataset folder";; mret a
  else
    let esd_path := OsPath.join dataset_root "esd.list" in
    let raw_dir := OsPath.join dataset_root "raw" in
    esd_exists ← exists_path isdir esd_path;
    raw_exists ← exists_path isdir raw_dir;
    if negb esd_exists || negb raw_exists
    then showerror "error" "esd.list or the raw folder is missing";; mret a
    else
      log "loading the data...";;
      let raw_files_map := load_preview_map (os_walk raw_dir) in
      let a := App raw_files_map (app_preview_data a) (app_notebook a) in
      csv_exists ← exists_path isdir csv_file;
      csv ← (if negb (PyStr.is_empty csv_file) && csv_exists
             then try_except
                    ((csv_data ← load_csv csv_file; mret (Some csv_data))
                     : M (option (gmap string row)))
                    (λ e, showerror "error" ("CSV read error: " +:+ exn_msg e);; mret None)
             else if negb (PyStr.is_empty csv_file)
             then showerror "error" "the CSV file was not found";; mret None
             else log "no CSV file given, showing the present layout";; mret (Some ∅));
      match csv with
      | None => mret a
      | Some csv_data =>
          (* the handler of the second [try]; [preview_data] is the
             preview as the loop left it *)
          let failed (preview_data : list (category * list item)) (e : exn) : M app :=
            showerror "error" ("data error: " +:+ exn_msg e);;
            log ("error detail: " +:+ exn_msg e);;
            mret (App raw_files_map preview_data (app_notebook a)) in
          try_except
            ((lines ← read_lines esd_path;
              let '(preview_data, st, err) :=
                preview_loop csv_data raw_files_map lines [] (Stats 0 0 0) in
              match err with
              | Some e => failed preview_data e
              | None =>
                  (if bool_decide (csv_data = ∅)
                   then log ("layout read: " +:+ pretty (kept st) +:+ " entries")
                   else log ("difference: moved " +:+ pretty (moved st)
                             +:+ ", to delete " +:+ pretty (deleted st)
                             +:+ ", kept " +:+ pretty (kept st)));;
                  mret (App raw_files_map preview_data preview_data)
              end) : M app)
            (failed [])
      end.

End preview.

(** *** The plan of [run_processing] *)

(** What the loop over the manifest in [run_processing] collects. *)
Record plan : Type := Plan {
  new_esd_lines : list string;
  files_to_delete : list string;
  files_to_move : list (string * string * string);
  moved_count : nat;
  deleted_count : nat
}.

Section plan.
(** [os.path.normpath] *)
Variable normpath : string → string.
Variable raw_dir : string.

(** The body of that loop. *)
Definition plan_entry (csv_data : gmap string row) (current_files : gmap string string)
    (line : string) (p : plan) : outcome plan :=
  let line := PyStr.strip line in
  if PyStr.is_empty line then mret p
  else
    match PyStr.split PyStr.PIPE line with
    | current_full_path :: ((_ :: _) as others) =>
        let filename := OsPath.basename current_full_path in
        match csv_data !! filename with
        | Some r =>
            is_usable ← is_usable_of r;
            emotion ← val_strip (row_get r "Emotion" "Neutral");
            let emotion := clean_emotion emotion in
            let file_abs_path := truthy (current_files !! filename) in
            if negb is_usable then
              mret (Plan (new_esd_lines p)
                      (match file_abs_path with
                       | Some f => files_to_delete p ++ [f]
                       | None => files_to_delete p
                       end)
                      (files_to_move p) (moved_count p) (S (deleted_count p)))
            else
              let new_rel_path := emotion +:+ "/" +:+ filename in
              let new_line :=
                join_with PyStr.PIPE (new_rel_path :: others)
                +:+ String PyStr.LF EmptyString in
              match file_abs_path with
              | Some f =>
                  let dest_dir := OsPath.join raw_dir emotion in
                  let dest_path := OsPath.join dest_dir filename in
                  if negb (String.eqb (normpath f) (normpath dest_path)) then
                    mret (Plan (new_esd_lines p ++ [new_line]) (files_to_delete p)
                            (files_to_move p ++ [(f, dest_dir, dest_path)])
                            (S (moved_count p)) (deleted_count p))
                  else
                    mret (Plan (new_esd_lines p ++ [new_line]) (files_to_delete p)
                            (files_to_move p) (moved_count p) (deleted_count p))
              | None =>
                  mret (Plan (new_esd_lines p ++ [new_line]) (files_to_delete p)
                          (files_to_move p) (moved_count p) (deleted_count p))
              end
        | None =>
            mret (Plan (new_esd_lines p ++ [line +:+ String PyStr.LF EmptyString])
                    (files_to_delete p) (files_to_move p)
                    (moved_count p) (deleted_count p))
        end
    | _ => mret p
    end.

Fixpoint plan_loop (csv_data : gmap string row) (current_files : gmap string string)
    (lines : list string) (p : plan) : outcome plan :=
  match lines with
  | [] => Ok p
  | line :: rest =>
      p ← plan_entry csv_data current_files line p;
      plan_loop csv_data current_files rest p
  end.

End plan.

(** The state of the plan after some lines, [n] of which were entries. *)
Definition plan_inv (n : nat) (p : plan) : Prop :=
  length (new_esd_lines p) + deleted_count p = n
  ∧ moved_count p = length (files_to_move p)
  ∧ length (files_to_delete p) ≤ deleted_count p
  ∧ moved_count p ≤ length (new_esd_lines p)
  ∧ Forall complete_line (new_esd_lines p).

(** Where the planned deletions and moves come from. *)
Definition plan_sources (normpath : string → string) (raw_dir : string)
    (csv_data : gmap string row) (current_files : gmap string string) (p : plan) : Prop :=
  (∀ f, f ∈ files_to_delete p →
     ∃ name r, csv_data !! name = Some r ∧ is_usable_of r = Ok false
               ∧ current_files !! name = Some f)
  ∧ (∀ src dest_dir dest, (src, dest_dir, dest) ∈ files_to_move p →
       ∃ name r e, csv_data !! name = Some r ∧ is_usable_of r = Ok true
                   ∧ val_strip (row_get r "Emotion" "Neutral") = Ok e
                   ∧ current_files !! name = Some src
                   ∧ OsPath.has_sep name = false
                   ∧ dest_dir = OsPath.join raw_dir (clean_emotion e)
                   ∧ dest = OsPath.join dest_dir name
                   ∧ normpath src ≠ normpath dest).

(** *** The export of a tab *)

(** What the loop of [export_category_list] writes. *)
Fixpoint export_lines (items : list item) : list string :=
  match items with
  | [] => []
  | it :: rest =>
      let line := PyStr.strip (original_line it) in
      if PyStr.is_empty line then export_lines rest
      else (line +:+ String PyStr.LF EmptyString) :: export_lines rest
  end.

(** [export_category_list]; [save_path] is what the file dialog returns,
    the empty string when the operator cancels. *)
Definition export_category_list (cat : category) (items : list item) (save_path : string)
    : M unit :=
  match items with
  | [] => mret ()
  | _ =>
      if PyStr.is_empty save_path then mret ()
      else
        try_except
          (open_w save_path;;
           write_lines save_path (export_lines items);;
           showinfo "done" ("list saved: " +:+ save_path))
          (λ e, showerror "error" ("saving failed: " +:+ exn_msg e))
  end.

(** *** Notions for the statements *)

Fixpoint all_chars (f : ascii → bool) (s : string) : bool :=
  match s with
  | EmptyString => true
  | String c r => f c && all_chars f r
  end.

(** The entries the preview loop files: those of the lines before the
    first one that raises. *)
Fixpoint filed (csv_data : gmap string row) (raw_files_map : gmap string string)
    (lines : list string) : list (category * bump * item) :=
  match lines with
  | [] => []
  | line :: rest =>
      match preview_entry csv_data raw_files_map line with
      | None => filed csv_data raw_files_map rest
      | Some (Raise _) => []
      | Some (Ok e) => e :: filed csv_data raw_files_map rest
      end
  end.

(** The first exception of the loop, if any. *)
Fixpoint first_error (csv_data : gmap string row) (raw_files_map : gmap string string)
    (lines : list string) : option exn :=
  match lines with
  | [] => None
  | line :: rest =>
      match preview_entry csv_data raw_files_map line with
      | Some (Raise e) => Some e
      | _ => first_error csv_data raw_files_map rest
      end
  end.

(** A dictionary of lists holds the values of [entries], grouped by key:
    every key once, in the order of its first entry, its values in the
    order of the entries. *)
Definition grouped {K V : Type} `{EqDecision K} (entries : list (K * V))
    (d : list (K * list V)) : Prop :=
  NoDup d.*1
  ∧ (∀ k vs, (k, vs) ∈ d → vs = (filter (λ e, e.1 = k) entries).*2 ∧ vs ≠ [])
  ∧ (∀ e, e ∈ entries → e.1 ∈ d.*1).

Definition bump_count (b : bump) (entries : list (category * bump * item)) : nat :=
  length (filter (λ e, e.1.2 = b) entries).

End Organizer.

(** ** Example data for the rest of the tool *)

Module Demo2.
Import Organizer.

(** The example data set without its manifest. *)
Definition w_missing : world := World Demo.audio [] [].

(** A manifest where no transcript occurs twice. *)
Definition manifest_distinct : string :=
  PyStr.writelines [Demo.line "a.wav|spk|en|Hello"; Demo.line "c.wav|spk|en|Bye"].

Definition disk_distinct : gmap string string :=
  <[Demo.esd_path := manifest_distinct]> Demo.audio.

(** A row of the analysis CSV. *)
Definition row_of (name emotion usable why : string) : row :=
  <["Filename" := PStr name]>
    (<["Emotion" := PStr emotion]>
       (<["Is_Usable" := PStr usable]> (<["Reason" := PStr why]> ∅))).

Definition row_a : row := row_of "a.wav" "Happy" "True" "clear voice".
Definition row_b : row := row_of "b.wav" "Sad" "False" "noise".

(** The analysis finds [a.wav] usable and happy, [b.wav] unusable, and
    says nothing of [c.wav]. *)
Definition csv_data : gmap string row :=
  <["a.wav" := row_a]> (<["b.wav" := row_b]> ∅).

Definition current_files : gmap string string :=
  <["a.wav" := "data/raw/a.wav"]>
    (<["b.wav" := "data/raw/b.wav"]> (<["c.wav" := "data/raw/c.wav"]> ∅)).

Definition manifest : string :=
  PyStr.writelines
    [Demo.line "a.wav|spk|en|Hello"; Demo.line "b.wav|spk|en|Hello";
     Demo.line "c.wav|spk|en|Bye"; Demo.line EmptyString].

(** The paths of the example are normal already. *)
Definition normpath (p : string) : string := p.

Definition the_plan : plan :=
  Plan [Demo.line "Happy/a.wav|spk|en|Hello"; Demo.line "c.wav|spk|en|Bye"]
    ["data/raw/b.wav"]
    [("data/raw/a.wav", "data/raw/Happy", "data/raw/Happy/a.wav")]
    1 1.

(** The preview of the manifest without a CSV: one tab, three items. *)
Definition item_of (name transcript : string) : item :=
  Item name transcript "-" "Keep (No CSV Entry)" ("data/raw/" +:+ name)
    (name +:+ "|spk|en|" +:+ transcript).

Definition the_tab : list item :=
  [item_of "a.wav" "Hello"; item_of "b.wav" "Hello"; item_of "c.wav" "Bye"].

End Demo2.
(** * Properties *)

(** ** Strings and paths *)

Module StrFacts.
Import PyStr OsPath.

Lemma app_cons c s t : String c s +:+ t = String c (s +:+ t).
Proof. reflexivity. Qed.

Lemma app_nil_l t : EmptyString +:+ t = t.
Proof. reflexivity. Qed.

Lemma app_nil_r s : s +:+ EmptyString = s.
Proof. induction s as [|c s IH]; [done|]. by rewrite app_cons, IH. Qed.

Lemma app_assoc s t u : (s +:+ t) +:+ u = s +:+ (t +:+ u).
Proof. induction s as [|c s IH]; [done|]. by rewrite !app_cons, IH. Qed.

Lemma is_sep_true c : is_sep c = true ↔ c = SEP.
Proof. unfold is_sep. apply Ascii.eqb_eq. Qed.

Lemma has_sep_app a b : has_sep (a +:+ b) = has_sep a || has_sep b.
Proof.
  induction a as [|c a IH]; [done|].
  rewrite app_cons. simpl. rewrite IH. by rewrite orb_assoc.
Qed.

Lemma basename_no_sep p : has_sep (basename p) = false.
Proof.
  induction p as [|c p IH]; [done|]. simpl.
  destruct (has_sep p) eqn:Hp; [done|].
  destruct (is_sep c) eqn:Hc; [done|]. simpl. by rewrite Hc, Hp.
Qed.

Lemma basename_id p : has_sep p = false → basename p = p.
Proof.
  destruct p as [|c p]; [done|]. simpl.
  intros [Hc Hp]%orb_false_iff. by rewrite Hp, Hc.
Qed.

Lemma basename_app_sep a b :
  has_sep b = false → basename (a +:+ String SEP b) = b.
Proof.
  intros Hb. induction a as [|c a IH].
  - rewrite app_nil_l. simpl. by rewrite Hb.
  - rewrite app_cons. simpl. rewrite has_sep_app. simpl.
    by rewrite orb_true_r.
Qed.

Lemma ends_with_sep_inv a :
  ends_with_sep a = true → ∃ a', a = a' +:+ String SEP EmptyString.
Proof.
  induction a as [|c a IH]; [done|]. simpl. destruct a as [|d a].
  - intros ->%is_sep_true. by exists EmptyString.
  - intros [a' Ha']%IH. exists (String c a'). by rewrite app_cons, <- Ha'.
Qed.

Lemma ends_with_sep_app_cons a c b :
  ends_with_sep (a +:+ String c b) = ends_with_sep (String c b).
Proof.
  induction a as [|d a IH]; [done|].
  rewrite app_cons. change (ends_with_sep (String d (a +:+ String c b)))
    with (match a +:+ String c b with
          | EmptyString => is_sep d | _ => ends_with_sep (a +:+ String c b) end).
  destruct (a +:+ String c b) eqn:E; [|done].
  destruct a; discriminate E.
Qed.

Lemma starts_with_sep_no_sep b : has_sep b = false → starts_with_sep b = false.
Proof. destruct b as [|c b]; [done|]. simpl. by intros [? ?]%orb_false_iff. Qed.

Lemma join_no_sep a b :
  has_sep b = false →
  join a b = if is_empty a || ends_with_sep a then a +:+ b else a +:+ String SEP b.
Proof. intros Hb. unfold join. by rewrite (starts_with_sep_no_sep _ Hb). Qed.

Lemma basename_join a b : has_sep b = false → basename (join a b) = b.
Proof.
  intros Hb. rewrite (join_no_sep _ _ Hb).
  destruct a as [|c a]; [by apply basename_id|].
  simpl is_empty. rewrite orb_false_l.
  destruct (ends_with_sep (String c a)) eqn:He.
  - apply ends_with_sep_inv in He as [a' ->].
    rewrite app_assoc, app_cons, app_nil_l. by apply basename_app_sep.
  - by apply basename_app_sep.
Qed.

Lemma join_inj a b b' :
  has_sep b = false → has_sep b' = false → join a b = join a b' → b = b'.
Proof.
  intros Hb Hb'. rewrite (join_no_sep _ _ Hb), (join_no_sep _ _ Hb').
  destruct (is_empty a || ends_with_sep a); intros E.
  - by apply (inj (String.app a)) in E.
  - apply (inj (String.app a)) in E. by injection E.
Qed.

End StrFacts.

(** ** Filters that keep everything or nothing *)

Lemma filter_all {A} (P : A → Prop) `{!∀ x, Decision (P x)} (l : list A) :
  (∀ x, x ∈ l → P x) → filter P l = l.
Proof.
  induction l as [|x l IH]; intros Hl; [done|].
  rewrite filter_cons_True by (apply Hl; left).
  f_equal. apply IH. intros y ?. apply Hl. by right.
Qed.

Lemma filter_none {A} (P : A → Prop) `{!∀ x, Decision (P x)} (l : list A) :
  (∀ x, x ∈ l → ¬ P x) → filter P l = [].
Proof.
  induction l as [|x l IH]; intros Hl; [done|].
  rewrite filter_cons_False by (apply Hl; left).
  apply IH. intros y ?. apply Hl. by right.
Qed.

(** Two tests that agree on the elements of a list select the same
    elements. *)
Lemma filter_agree {A} (P Q : A → Prop) `{!∀ x, Decision (P x)} `{!∀ x, Decision (Q x)}
    (l : list A) :
  (∀ x, x ∈ l → P x ↔ Q x) → filter P l = filter Q l.
Proof.
  induction l as [|x l IH]; intros Hl; [done|].
  assert (filter P l = filter Q l) as Hrest.
  { apply IH. intros y ?. apply Hl. by right. }
  destruct (decide (P x)) as [HP|HP].
  - rewrite !filter_cons_True; [by rewrite Hrest|by apply Hl; [left|]|done].
  - rewrite !filter_cons_False; [done| |done]. intros HQ. apply HP, Hl; [left|done].
Qed.

(** ** The grouping pass is a function of the resolved names *)

Section analysis_facts.
Context `{AudioLib}.
Variable os_walk : string → list (string * list string).
Variable fs : gmap string string.
Variables (raw_dir : string) (top_db hash_sr q_levels : Z).

Abbreviation res_of := (resolve os_walk raw_dir).
Abbreviation fingerprint := (entry_fingerprint fs top_db hash_sr q_levels).
Abbreviation first_hit := (first_with fs top_db hash_sr q_levels).
Abbreviation pairs := (keep_first_pairs fs top_db hash_sr q_levels).

Lemma walk_find_basename walk filename path :
  OsPath.has_sep filename = false →
  walk_find walk filename = Some path → OsPath.basename path = filename.
Proof.
  intros Hf. induction walk as [|[root names] walk IH]; [done|]. simpl.
  case_bool_decide; [|done]. intros [= <-]. by apply StrFacts.basename_join.
Qed.

Lemma find_audio_path_resolve filename cache :
  ∃ cache',
    find_audio_path os_walk raw_dir filename cache = (res_of cache filename, cache')
    ∧ (∀ f, res_of cache' f = res_of cache f)
    ∧ (OsPath.has_sep filename = false → cache_wf cache → cache_wf cache').
Proof.
  unfold find_audio_path, resolve.
  destruct (cache !! filename) as [path|] eqn:Hc; [by exists cache|].
  destruct (walk_find (os_walk raw_dir) filename) as [path|] eqn:Hw; [|by exists cache].
  exists (<[filename := path]> cache). split_and!; [done|..].
  - intros f. destruct (decide (f = filename)) as [->|Hne].
    + by rewrite lookup_insert_eq, Hc.
    + by rewrite lookup_insert_ne.
  - intros Hf Hwf f p. destruct (decide (f = filename)) as [->|Hne].
    + rewrite lookup_insert_eq. intros [= <-]. by eapply walk_find_basename.
    + rewrite lookup_insert_ne by done. apply Hwf.
Qed.

Lemma first_with_snoc res h earlier r :
  first_hit res h (earlier ++ [r]) =
  match first_hit res h earlier with
  | Some x => Some x
  | None => first_hit res h [r]
  end.
Proof.
  induction earlier as [|k earlier IH]; simpl.
  - by destruct (first_hit res h [r]).
  - destruct (fingerprint res k) as [[p h']|]; [|done].
    by destruct (String.eqb h' h).
Qed.

Lemma first_with_fingerprint res h entries k p :
  first_hit res h entries = Some (k, p) → fingerprint res k = Some (p, h) ∧ k ∈ entries.
Proof.
  induction entries as [|k' entries IH]; [done|]. simpl.
  destruct (fingerprint res k') as [[p' h']|] eqn:Hk'.
  - destruct (String.eqb h' h) eqn:Hh.
    + apply String.eqb_eq in Hh as ->. intros [= <- <-]. split; [done|]. left.
    + intros [? ?]%IH. split; [done|]. by right.
  - intros [? ?]%IH. split; [done|]. by right.
Qed.

Lemma scan_group_pairs res group : ∀ earlier hash_to_first dupes cache,
  (∀ f, res_of cache f = res f) →
  (∀ h, hash_to_first !! h = first_hit res h earlier) →
  ∃ cache',
    scan_group os_walk fs raw_dir top_db hash_sr q_levels group hash_to_first dupes cache
      = (dupes ++ pairs res earlier group, cache')
    ∧ (∀ f, res_of cache' f = res f)
    ∧ (cache_wf cache → cache_wf cache').
Proof.
  induction group as [|r group IH]; intros earlier hf dupes cache Hres Hinv.
  { exists cache. simpl. by rewrite app_nil_r. }
  simpl.
  destruct (find_audio_path_resolve (OsPath.basename (rec_file r)) cache)
    as (cache1 & -> & Hres1 & Hwf1).
  assert (∀ f, res_of cache1 f = res f) as Hres1' by (intros f; by rewrite Hres1).
  assert (cache_wf cache → cache_wf cache1) as Hwf1'
    by (apply Hwf1, StrFacts.basename_no_sep).
  unfold entry_fingerprint at 1. rewrite Hres.
  assert (∀ h, fingerprint res r = None → hf !! h = first_hit res h (earlier ++ [r])) as Hskip.
  { intros h Hr. rewrite first_with_snoc, <- Hinv. simpl. rewrite Hr. by destruct (hf !! h). }
  destruct (truthy (res (OsPath.basename (rec_file r)))) as [audio_path|] eqn:Hp.
  2:{ destruct (IH (earlier ++ [r]) hf dupes cache1 Hres1') as (cache' & -> & ? & ?).
      - intros h. apply Hskip. unfold entry_fingerprint. by rewrite Hp.
      - exists cache'. naive_solver. }
  destruct (audio_content_hash fs audio_path 16000 top_db hash_sr q_levels) as [h|] eqn:Hh.
  2:{ destruct (IH (earlier ++ [r]) hf dupes cache1 Hres1') as (cache' & -> & ? & ?).
      - intros h. apply Hskip. unfold entry_fingerprint. by rewrite Hp, Hh.
      - exists cache'. naive_solver. }
  assert (fingerprint res r = Some (audio_path, h)) as Hr.
  { unfold entry_fingerprint. by rewrite Hp, Hh. }
  rewrite <- Hinv. destruct (hf !! h) as [original|] eqn:Hhf.
  - destruct (IH (earlier ++ [r]) hf (dupes ++ [(original, r, audio_path)]) cache1 Hres1')
      as (cache' & -> & ? & ?).
    + intros h'. rewrite first_with_snoc, <- Hinv. simpl. rewrite Hr.
      destruct (hf !! h') eqn:Hh'; [done|].
      destruct (String.eqb h h') eqn:E; [|done].
      apply String.eqb_eq in E as ->. congruence.
    + exists cache'. rewrite <- (assoc_L (++)). naive_solver.
  - destruct (IH (earlier ++ [r]) (<[h := (r, audio_path)]> hf) dupes cache1 Hres1')
      as (cache' & -> & ? & ?).
    + intros h'. rewrite first_with_snoc, <- Hinv. simpl. rewrite Hr.
      destruct (decide (h = h')) as [<-|Hne].
      * by rewrite lookup_insert_eq, Hhf, String.eqb_refl.
      * rewrite lookup_insert_ne by done.
        destruct (hf !! h'); [done|].
        by apply String.eqb_neq in Hne as ->.
    + exists cache'. naive_solver.
Qed.

Lemma scan_groups_candidates res groups : ∀ acc cache,
  (∀ f, res_of cache f = res f) →
  ∃ cache',
    scan_groups os_walk fs raw_dir top_db hash_sr q_levels groups acc cache
      = (acc ++ flat_map (group_candidates fs top_db hash_sr q_levels res) groups, cache')
    ∧ (∀ f, res_of cache' f = res f)
    ∧ (cache_wf cache → cache_wf cache').
Proof.
  induction groups as [|[t group] groups IH]; intros acc cache Hres.
  { exists cache. simpl. by rewrite app_nil_r. }
  simpl. unfold group_candidates at 1. simpl.
  destruct (length group <? 2) eqn:Hlen.
  - by apply IH.
  - destruct (scan_group_pairs res group [] ∅ [] cache Hres) as (cache1 & -> & Hres1 & Hwf1).
    { intros h. by rewrite lookup_empty. }
    simpl.
    destruct (IH (acc ++ map (make_candidate t) (pairs res [] group)) cache1 Hres1)
      as (cache' & -> & ? & ?).
    exists cache'. rewrite <- (assoc_L (++)). naive_solver.
Qed.

(** The pass returns the candidates of the manifest, computed with the
    look-ups of the cache it started from; the cache it leaves resolves
    every name the same way. *)
Lemma run_dedup_analysis_candidates res esd_path content cache :
  fs !! esd_path = Some content →
  (∀ f, res_of cache f = res f) →
  ∃ cache',
    run_dedup_analysis os_walk fs raw_dir top_db hash_sr q_levels esd_path cache
      = (Some (manifest_candidates fs top_db hash_sr q_levels res
                 (PyStr.readlines content)), cache')
    ∧ (∀ f, res_of cache' f = res f)
    ∧ (cache_wf cache → cache_wf cache').
Proof.
  intros Hesd Hres. unfold run_dedup_analysis. rewrite Hesd.
  destruct (scan_groups_candidates res
              (text_groups (read_records (PyStr.readlines content))) [] cache)
    as (cache' & -> & ? & ?); [done|].
  by exists cache'.
Qed.

Lemma run_dedup_analysis_unreadable esd_path cache :
  fs !! esd_path = None →
  run_dedup_analysis os_walk fs raw_dir top_db hash_sr q_levels esd_path cache = (None, cache).
Proof. intros Hesd. unfold run_dedup_analysis. by rewrite Hesd. Qed.

(** Where a pair of the tie-break rule comes from. *)
Lemma keep_first_pairs_elem res group : ∀ earlier k kp d dp,
  ((k, kp), d, dp) ∈ pairs res earlier group →
  ∃ h pre post,
    group = pre ++ d :: post
    ∧ fingerprint res d = Some (dp, h)
    ∧ first_hit res h (earlier ++ pre) = Some (k, kp).
Proof.
  induction group as [|r group IH]; intros earlier k kp d dp; simpl.
  { by intros ?%elem_of_nil. }
  assert (((k, kp), d, dp) ∈ pairs res (earlier ++ [r]) group →
    ∃ h pre post, r :: group = pre ++ d :: post
      ∧ fingerprint res d = Some (dp, h)
      ∧ first_hit res h (earlier ++ pre) = Some (k, kp)) as Hrest.
  { intros (h & pre & post & -> & ? & Hf)%IH. exists h, (r :: pre), post.
    split_and!; [done..|]. by rewrite <- (assoc_L (++)) in Hf. }
  destruct (fingerprint res r) as [[p h]|] eqn:Hr; [|done].
  destruct (first_hit res h earlier) as [keep|] eqn:Hk; [|done].
  intros [[= <- <- <-]|?]%elem_of_cons; [|by apply Hrest].
  exists h, [], group. by rewrite app_nil_r.
Qed.

(** Conversely, an entry whose fingerprint was met earlier in the group
    is paired with the first entry of that fingerprint. *)
Lemma keep_first_pairs_complete res pre d post : ∀ earlier h dp keep,
  fingerprint res d = Some (dp, h) →
  first_hit res h (earlier ++ pre) = Some keep →
  (keep, d, dp) ∈ pairs res earlier (pre ++ d :: post).
Proof.
  induction pre as [|r pre IH]; intros earlier h dp keep Hd Hk; simpl.
  - rewrite app_nil_r in Hk. rewrite Hd, Hk. left.
  - assert ((keep, d, dp) ∈ pairs res (earlier ++ [r]) (pre ++ d :: post)) as Hrest.
    { eapply IH; [done|]. by rewrite <- (assoc_L (++)). }
    destruct (fingerprint res r) as [[p' h']|]; [|done].
    destruct (first_hit res h' earlier); [by right|done].
Qed.

(** The first entry of a list with a given fingerprint, spelled out. *)
Lemma first_with_split res h entries k kp :
  first_hit res h entries = Some (k, kp) ↔
  ∃ a b, entries = a ++ k :: b ∧ fingerprint res k = Some (kp, h)
         ∧ ∀ x p, x ∈ a → fingerprint res x ≠ Some (p, h).
Proof.
  induction entries as [|e entries IH]; simpl.
  { split; [done|]. intros (a & b & E & _). by destruct a. }
  assert ((∃ a b, entries = a ++ k :: b ∧ fingerprint res k = Some (kp, h)
                  ∧ ∀ x p, x ∈ a → fingerprint res x ≠ Some (p, h))
          → (∀ p, fingerprint res e ≠ Some (p, h))
          → ∃ a b, e :: entries = a ++ k :: b ∧ fingerprint res k = Some (kp, h)
                   ∧ ∀ x p, x ∈ a → fingerprint res x ≠ Some (p, h)) as Hlater.
  { intros (a & b & -> & Hk & Ha) He. exists (e :: a), b. split_and!; [done..|].
    intros x p [->|?]%elem_of_cons; [apply He|by apply Ha]. }
  assert ((∃ a b, e :: entries = a ++ k :: b ∧ fingerprint res k = Some (kp, h)
                  ∧ ∀ x p, x ∈ a → fingerprint res x ≠ Some (p, h))
          → (∀ p, fingerprint res e ≠ Some (p, h))
          → ∃ a b, entries = a ++ k :: b ∧ fingerprint res k = Some (kp, h)
                   ∧ ∀ x p, x ∈ a → fingerprint res x ≠ Some (p, h)) as Hskip.
  { intros (a & b & E & Hk & Ha) He. destruct a as [|x a]; simpl in E.
    - injection E as -> _. by destruct (He kp).
    - injection E as -> ->. exists a, b. split_and!; [done..|].
      intros y p ?. apply Ha. by right. }
  destruct (fingerprint res e) as [[p' h']|] eqn:He.
  - destruct (String.eqb h' h) eqn:Hh.
    + apply String.eqb_eq in Hh as ->. split.
      * intros [= <- <-]. exists [], entries. split_and!; [done..|].
        by intros x p ?%elem_of_nil.
      * intros (a & b & E & Hk & Ha). destruct a as [|x a]; simpl in E.
        -- injection E as -> _. congruence.
        -- injection E as -> _. destruct (Ha x p'); [left|done].
    + apply String.eqb_neq in Hh. rewrite IH.
      split; intros Hx; [apply Hlater|apply Hskip]; try done; congruence.
  - rewrite IH. split; intros Hx; [apply Hlater|apply Hskip]; done.
Qed.

Lemma group_candidates_text res tg c :
  c ∈ group_candidates fs top_db hash_sr q_levels res tg → text c = tg.1.
Proof.
  unfold group_candidates. destruct (length tg.2 <? 2); [by intros ?%elem_of_nil|].
  by intros ([[[k kp] d] dp] & -> & _)%list_elem_of_fmap.
Qed.

(** The candidates filed under a transcript are those of its group. *)
Lemma candidates_of_text res groups t g :
  NoDup groups.*1 → (t, g) ∈ groups →
  filter (λ c, text c = t) (flat_map (group_candidates fs top_db hash_sr q_levels res) groups)
  = group_candidates fs top_db hash_sr q_levels res (t, g).
Proof.
  assert (∀ gs, t ∉ gs.*1 →
    filter (λ c, text c = t)
      (flat_map (group_candidates fs top_db hash_sr q_levels res) gs) = []) as Hnone.
  { induction gs as [|tg gs IH]; [done|]. cbn [fmap list_fmap flat_map].
    intros [Hne Hgs]%not_elem_of_cons. rewrite filter_app, (IH Hgs), app_nil_r.
    apply filter_none. intros c Hc%group_candidates_text. congruence. }
  induction groups as [|tg groups IH]; [by intros _ ?%elem_of_nil|].
  cbn [fmap list_fmap flat_map]. intros [Hfresh Hnd]%NoDup_cons Hin.
  rewrite filter_app. apply elem_of_cons in Hin as [<-|Hin].
  - rewrite (Hnone groups Hfresh), app_nil_r.
    apply filter_all. by intros c Hc%group_candidates_text.
  - rewrite (IH Hnd Hin).
    assert (tg.1 ≠ t) as Hne.
    { intros E. apply Hfresh. rewrite E. apply list_elem_of_fmap. by exists (t, g). }
    assert (filter (λ c, text c = t)
              (group_candidates fs top_db hash_sr q_levels res tg) = []) as ->; [|done].
    apply filter_none. intros c Hc%group_candidates_text. congruence.
Qed.

Lemma manifest_candidates_elem res lines c :
  c ∈ manifest_candidates fs top_db hash_sr q_levels res lines →
  ∃ t g k kp d dp h pre post,
    (t, g) ∈ text_groups (read_records lines)
    ∧ g = pre ++ d :: post
    ∧ fingerprint res d = Some (dp, h)
    ∧ first_hit res h pre = Some (k, kp)
    ∧ c = make_candidate t ((k, kp), d, dp).
Proof.
  unfold manifest_candidates. rewrite list_elem_of_In, in_flat_map.
  intros ([t g] & Hin & Hc). apply list_elem_of_In in Hin, Hc. unfold group_candidates in Hc. simpl in Hc.
  destruct (length g <? 2); [by apply elem_of_nil in Hc|].
  apply list_elem_of_fmap in Hc as ([[[k kp] d] dp] & -> & Hp).
  apply keep_first_pairs_elem in Hp as (h & pre & post & -> & ? & ?).
  by exists t, (pre ++ d :: post), k, kp, d, dp, h, pre, post.
Qed.

End analysis_facts.

(** ** Manifest lines and records *)

Lemma rstrip_by_idemp f s : PyStr.rstrip_by f (PyStr.rstrip_by f s) = PyStr.rstrip_by f s.
Proof.
  induction s as [|c s IH]; [done|]. simpl.
  destruct (f c && PyStr.is_empty (PyStr.rstrip_by f s)) eqn:E; [done|].
  simpl. by rewrite IH, E.
Qed.

Lemma parse_line_Some line r :
  parse_line line = Some r →
  raw_line r = PyStr.rstrip_lf line
  ∧ raw_line r ≠ EmptyString
  ∧ PyStr.split_max PyStr.PIPE 3 (raw_line r) = [rec_file r; rec_actor r; rec_lang r; rec_text r].
Proof.
  unfold parse_line. destruct (PyStr.is_empty (PyStr.rstrip_lf line)) eqn:He; [done|].
  destruct (PyStr.split_max PyStr.PIPE 3 (PyStr.rstrip_lf line))
    as [|p0 [|p1 [|p2 [|p3 [|? ?]]]]] eqn:Hs; try done.
  intros [= <-]. simpl. split_and!; [done| |done].
  intros E. by rewrite E in He.
Qed.

Lemma parse_line_raw_line line r : parse_line line = Some r → parse_line (raw_line r) = Some r.
Proof.
  intros Hp. destruct (parse_line_Some _ _ Hp) as (Hraw & Hne & Hs).
  unfold parse_line. unfold PyStr.rstrip_lf in *.
  rewrite Hraw, rstrip_by_idemp, <- Hraw.
  destruct (raw_line r) eqn:E; [done|]. simpl PyStr.is_empty. cbv iota.
  rewrite Hs. by destruct r; simplify_eq/=.
Qed.

Lemma read_records_elem lines r :
  r ∈ read_records lines ↔ ∃ line, line ∈ lines ∧ parse_line line = Some r.
Proof.
  induction lines as [|line lines IH]; simpl.
  { split; [by intros ?%elem_of_nil|]. by intros (? & ?%elem_of_nil & _). }
  destruct (parse_line line) as [r'|] eqn:Hp.
  - rewrite elem_of_cons, IH. split.
    + intros [->|(l & ? & ?)]; [exists line|exists l]; split; try done; by constructor.
    + intros (l & [->|?]%elem_of_cons & Hl); [left; congruence|right; eauto].
  - rewrite IH. split.
    + intros (l & ? & ?). exists l. split; [by constructor|done].
    + intros (l & [->|?]%elem_of_cons & Hl); [congruence|eauto].
Qed.

(** ** Transcript groups *)

Ltac case_eqb t t' :=
  let E := fresh "E" in
  destruct (String.eqb t t') eqn:E;
  [apply String.eqb_eq in E; try subst|apply String.eqb_neq in E].

Lemma group_append_keys t r groups :
  (group_append t r groups).*1 = if decide (t ∈ groups.*1) then groups.*1 else groups.*1 ++ [t].
Proof.
  induction groups as [|[t' g] groups IH]; [done|].
  cbn [group_append]. case_eqb t' t; rewrite !fmap_cons; cbn [fst].
  - rewrite decide_True; [done|left].
  - rewrite IH. destruct (decide (t ∈ groups.*1)) as [Hin|Hin].
    + rewrite decide_True; [done|by right].
    + rewrite decide_False; [done|]. intros [?|?]%elem_of_cons; congruence.
Qed.

Lemma group_append_elem t r groups t' g' :
  NoDup groups.*1 →
  (t', g') ∈ group_append t r groups →
  (t' ≠ t ∧ (t', g') ∈ groups)
  ∨ (t' = t ∧ ((∃ g, (t, g) ∈ groups ∧ g' = g ++ [r]) ∨ ((t ∉ groups.*1) ∧ g' = [r]))).
Proof.
  induction groups as [|[t0 g0] groups IH]; simpl.
  { intros _ [= -> ->]%list_elem_of_singleton. right. split; [done|right].
    split; [apply not_elem_of_nil|done]. }
  intros [Hnotin Hnd]%NoDup_cons. case_eqb t0 t.
  - intros [[= -> ->]|Hin]%elem_of_cons.
    + right. split; [done|left]. exists g0. split; [left|done].
    + left. split; [|by right]. intros ->. apply Hnotin.
      apply list_elem_of_fmap. by exists (t, g').
  - intros [[= -> ->]|Hin]%elem_of_cons.
    + left. split; [done|left].
    + destruct (IH Hnd Hin) as [[? ?]|[-> [(g & ? & ->)|[? ->]]]].
      * left. split; [done|by right].
      * right. split; [done|left]. exists g. split; [by right|done].
      * right. split; [done|right]. split; [|done].
        intros [?|?]%elem_of_cons; simpl in *; [congruence|done].
Qed.

Lemma group_append_groups_of records groups r :
  groups_of records groups →
  groups_of (records ++ [r]) (group_append (rec_text r) r groups).
Proof.
  intros (Hnd & Hg & Hk). split_and!.
  - rewrite group_append_keys. case_decide; [done|].
    apply NoDup_app. split_and!; [done| |apply NoDup_singleton].
    intros t ? ->%list_elem_of_singleton. done.
  - intros t g Hin. rewrite filter_app.
    destruct (group_append_elem _ _ _ _ _ Hnd Hin)
      as [[Hne Hold]|[-> [(g0 & Hold & ->)|[Hnew ->]]]].
    + destruct (Hg _ _ Hold) as [-> ?]. rewrite filter_cons_False by (simpl; congruence).
      rewrite filter_nil, app_nil_r. done.
    + destruct (Hg _ _ Hold) as [-> ?]. rewrite filter_cons_True by done.
      rewrite filter_nil. split; [done|]. by intros [? ?]%app_eq_nil.
    + rewrite filter_cons_True by done. rewrite filter_nil.
      destruct (filter (λ r0, rec_text r0 = rec_text r) records) as [|x l] eqn:E; [done|].
      assert (x ∈ filter (λ r0, rec_text r0 = rec_text r) records) as Hx by (rewrite E; left).
      apply list_elem_of_filter in Hx as [Hx1 Hx2]. apply Hk in Hx2.
      rewrite Hx1 in Hx2. done.
  - intros r' Hr'. rewrite group_append_keys.
    apply elem_of_app in Hr' as [Hr' | ->%list_elem_of_singleton].
    + case_decide; [by apply Hk|]. apply elem_of_app. left. by apply Hk.
    + case_decide; [done|]. apply elem_of_app. right. left.
Qed.

Lemma text_groups_groups_of records : groups_of records (text_groups records).
Proof.
  unfold text_groups.
  assert (∀ rs prefix groups, groups_of prefix groups →
    groups_of (prefix ++ rs)
      (fold_left (λ groups r, group_append (rec_text r) r groups) rs groups)) as Hgen.
  { induction rs as [|r rs IH]; intros prefix groups Hinv; simpl.
    - by rewrite app_nil_r.
    - replace (prefix ++ r :: rs) with ((prefix ++ [r]) ++ rs)
        by (by rewrite <- (assoc_L (++))).
      apply IH. by apply group_append_groups_of. }
  apply (Hgen records [] []). split_and!.
  - apply NoDup_nil_2.
  - by intros t g ?%elem_of_nil.
  - by intros r ?%elem_of_nil.
Qed.

(** An entry of a group is a record of the manifest with the group's
    transcript. *)
Lemma text_groups_elem records t g r :
  (t, g) ∈ text_groups records → r ∈ g → r ∈ records ∧ rec_text r = t.
Proof.
  intros Hin Hr. destruct (text_groups_groups_of records) as (_ & Hg & _).
  destruct (Hg _ _ Hin) as [-> _]. by apply list_elem_of_filter in Hr as [? ?].
Qed.

(** ** Fields of a manifest line *)

Lemma cut_count sep s :
  match PyStr.cut sep s with
  | Some (a, b) => PyStr.count_char sep s = S (PyStr.count_char sep b)
  | None => PyStr.count_char sep s = 0
  end.
Proof.
  induction s as [|c s IH]; [done|]. simpl.
  destruct (Ascii.eqb c sep); [done|].
  by destruct (PyStr.cut sep s) as [[a b]|].
Qed.

Lemma split_max_length sep n : ∀ s,
  length (PyStr.split_max sep n s) = S (n `min` PyStr.count_char sep s).
Proof.
  induction n as [|n IH]; intros s; [done|]. simpl.
  pose proof (cut_count sep s) as Hc.
  destruct (PyStr.cut sep s) as [[a b]|]; simpl.
  - rewrite IH, Hc. done.
  - rewrite Hc. done.
Qed.

(** A line has four fields for the pass exactly when it holds at least
    three separators; what follows the third one is the transcript. *)
Lemma four_fields_iff l :
  length (PyStr.split_max PyStr.PIPE 3 l) = 4 ↔ 3 ≤ PyStr.count_char PyStr.PIPE l.
Proof. rewrite split_max_length. lia. Qed.

Lemma parse_line_None line :
  parse_line line = None ↔
  PyStr.rstrip_lf line = EmptyString ∨ length (PyStr.split_max PyStr.PIPE 3 (PyStr.rstrip_lf line)) ≠ 4.
Proof.
  unfold parse_line. destruct (PyStr.rstrip_lf line) as [|c l] eqn:E; simpl PyStr.is_empty.
  { split; [by left|done]. }
  cbv iota.
  destruct (PyStr.split_max PyStr.PIPE 3 (String c l)) as [|p0 [|p1 [|p2 [|p3 [|? ?]]]]];
    simpl; split; try done; try (intros _; right; lia); intros [?|?]; done.
Qed.

(** ** Claims on the grouping pass *)

Section grouping_claims.
Context `{AudioLib}.
Variable os_walk : string → list (string * list string).
Variable fs : gmap string string.
Variables (raw_dir : string) (top_db hash_sr q_levels : Z).

Abbreviation run := (run_dedup_analysis os_walk fs raw_dir top_db hash_sr q_levels).
Abbreviation scan := (scan_group os_walk fs raw_dir top_db hash_sr q_levels).
Abbreviation fp_of cache :=
  (entry_fingerprint fs top_db hash_sr q_levels (resolve os_walk raw_dir cache)).
Abbreviation first_of cache :=
  (first_with fs top_db hash_sr q_levels (resolve os_walk raw_dir cache)).

(** The entries behind a candidate: two records of the manifest, in the
    same transcript group, the keep entry before the delete entry. *)
Lemma candidate_records esd_path content cache cands cache' c :
  fs !! esd_path = Some content →
  run esd_path cache = (Some cands, cache') →
  c ∈ cands →
  ∃ k d kp dp h,
    k ∈ read_records (PyStr.readlines content)
    ∧ d ∈ read_records (PyStr.readlines content)
    ∧ rec_text k = text c ∧ rec_text d = text c
    ∧ fp_of cache k = Some (kp, h) ∧ fp_of cache d = Some (dp, h)
    ∧ c = make_candidate (text c) ((k, kp), d, dp).
Proof.
  intros Hesd Hrun Hc.
  destruct (run_dedup_analysis_candidates os_walk fs raw_dir top_db hash_sr q_levels
              (resolve os_walk raw_dir cache) esd_path content cache Hesd)
    as (cache1 & Hrun1 & _); [done|].
  rewrite Hrun1 in Hrun. injection Hrun as <- <-.
  apply manifest_candidates_elem in Hc
    as (t & g & k & kp & d & dp & h & pre & post & Hg & -> & Hd & Hk & ->).
  apply first_with_fingerprint in Hk as [Hk Hkin].
  assert (k ∈ pre ++ d :: post) as Hk' by (apply elem_of_app; by left).
  assert (d ∈ pre ++ d :: post) as Hd' by (apply elem_of_app; right; left).
  destruct (text_groups_elem _ _ _ _ Hg Hk') as [? ?].
  destruct (text_groups_elem _ _ _ _ Hg Hd') as [? ?].
  exists k, d, kp, dp, h. simpl. by split_and!.
Qed.

(** C5: every candidate pairs two manifest entries whose transcript texts
    are the same string: the lines stored in the candidate are the lines
    of two records of the manifest, and both records carry the transcript
    the candidate is filed under. *)
Theorem candidates_share_transcript esd_path content cache cands cache' c :
  fs !! esd_path = Some content →
  run esd_path cache = (Some cands, cache') →
  c ∈ cands →
  ∃ k d,
    k ∈ read_records (PyStr.readlines content)
    ∧ d ∈ read_records (PyStr.readlines content)
    ∧ parse_line (keep_line c) = Some k
    ∧ parse_line (delete_line c) = Some d
    ∧ rec_text k = rec_text d
    ∧ rec_text k = text c.
Proof.
  intros Hesd Hrun Hc.
  destruct (candidate_records _ _ _ _ _ _ Hesd Hrun Hc)
    as (k & d & kp & dp & h & Hk & Hd & Hkt & Hdt & _ & _ & ->).
  exists k, d. simpl.
  apply read_records_elem in Hk as Hk'. destruct Hk' as (lk & _ & Hlk).
  apply read_records_elem in Hd as Hd'. destruct Hd' as (ld & _ & Hld).
  split_and!; try done.
  - by eapply parse_line_raw_line.
  - by eapply parse_line_raw_line.
  - congruence.
Qed.

(** C10: the lines of a candidate are manifest lines that are not blank
    and that [split("|", 3)] cuts into exactly four fields (three
    separators at least); a manifest line that is blank or has fewer
    fields is neither the keep line nor the delete line of any
    candidate. *)
Theorem candidates_are_four_field_lines esd_path content cache cands cache' c :
  fs !! esd_path = Some content →
  run esd_path cache = (Some cands, cache') →
  c ∈ cands →
  (∀ l, l = keep_line c ∨ l = delete_line c →
     l ≠ EmptyString
     ∧ length (PyStr.split_max PyStr.PIPE 3 l) = 4
     ∧ 3 ≤ PyStr.count_char PyStr.PIPE l
     ∧ ∃ line, line ∈ PyStr.readlines content ∧ PyStr.rstrip_lf line = l)
  ∧ (∀ line, line ∈ PyStr.readlines content →
       PyStr.rstrip_lf line = EmptyString ∨ PyStr.count_char PyStr.PIPE (PyStr.rstrip_lf line) < 3 →
       parse_line line = None
       ∧ keep_line c ≠ PyStr.rstrip_lf line ∧ delete_line c ≠ PyStr.rstrip_lf line).
Proof.
  intros Hesd Hrun Hc.
  destruct (candidate_records _ _ _ _ _ _ Hesd Hrun Hc)
    as (k & d & kp & dp & h & Hk & Hd & _ & _ & _ & _ & ->).
  simpl.
  assert (∀ r, r ∈ read_records (PyStr.readlines content) →
    raw_line r ≠ EmptyString
    ∧ length (PyStr.split_max PyStr.PIPE 3 (raw_line r)) = 4
    ∧ 3 ≤ PyStr.count_char PyStr.PIPE (raw_line r)
    ∧ ∃ line, line ∈ PyStr.readlines content ∧ PyStr.rstrip_lf line = raw_line r) as Hrec.
  { intros r (line & Hline & Hp)%read_records_elem.
    destruct (parse_line_Some _ _ Hp) as (Hraw & Hne & Hs).
    assert (length (PyStr.split_max PyStr.PIPE 3 (raw_line r)) = 4) as Hlen by by rewrite Hs.
    split_and!; [done|done|by apply four_fields_iff|by exists line]. }
  split.
  - intros l [-> | ->]; by apply Hrec.
  - intros line Hline Hbad.
    assert (PyStr.rstrip_lf line = EmptyString
            ∨ length (PyStr.split_max PyStr.PIPE 3 (PyStr.rstrip_lf line)) ≠ 4) as Hbad'.
    { destruct Hbad as [?|?]; [by left|right]. rewrite four_fields_iff. lia. }
    split; [by apply parse_line_None|].
    destruct (Hrec k Hk) as (Hk1 & Hk2 & _). destruct (Hrec d Hd) as (Hd1 & Hd2 & _).
    split; intros E; rewrite E in *; by destruct Hbad' as [?|?].
Qed.

(** The loop over one transcript group computes the pairs of the
    tie-break rule; the mapping from fingerprints to entries is only
    looked up, never iterated. *)
Lemma scan_group_keeps_first group cache dupes cache' :
  scan group ∅ [] cache = (dupes, cache') →
  dupes = keep_first_pairs fs top_db hash_sr q_levels (resolve os_walk raw_dir cache) [] group.
Proof.
  intros Hscan.
  destruct (scan_group_pairs os_walk fs raw_dir top_db hash_sr q_levels
              (resolve os_walk raw_dir cache) group [] ∅ [] cache)
    as (cache1 & Hscan1 & _); [done|by intros h; rewrite lookup_empty|].
  rewrite Hscan1 in Hscan. simpl in Hscan. by injection Hscan as <- <-.
Qed.

(** C4: in every candidate the pass returns, the keep fields are those
    of the first entry of the transcript group that has the candidate's
    fingerprint, and the delete fields are those of a later entry of the
    group with that fingerprint; the group holds the manifest records of
    its transcript in manifest order.  Conversely, every entry that
    follows the first entry of its fingerprint in its group is the delete
    entry of a candidate that keeps that first entry.  For a group
    [A; B; C] where A and B share a fingerprint that C does not have, the
    only candidate of the group keeps A and deletes B. *)
Theorem tie_break_first_is_keep esd_path content cache cands cache' :
  fs !! esd_path = Some content →
  run esd_path cache = (Some cands, cache') →
  (∀ c, c ∈ cands →
     ∃ a k b d post kp dp h,
       (text c, a ++ k :: b ++ d :: post)
         ∈ text_groups (read_records (PyStr.readlines content))
       ∧ a ++ k :: b ++ d :: post
         = filter (λ r, rec_text r = text c) (read_records (PyStr.readlines content))
       ∧ fp_of cache k = Some (kp, h)
       ∧ fp_of cache d = Some (dp, h)
       ∧ (∀ x p, x ∈ a → fp_of cache x ≠ Some (p, h))
       ∧ c = {| text := text c;
                keep_file := OsPath.basename (rec_file k); keep_path := kp;
                delete_file := OsPath.basename (rec_file d); delete_path := dp;
                delete_line := raw_line d; keep_line := raw_line k;
                selected := true |})
  ∧ (∀ t a k b d post kp dp h,
       (t, a ++ k :: b ++ d :: post)
         ∈ text_groups (read_records (PyStr.readlines content)) →
       fp_of cache k = Some (kp, h) →
       fp_of cache d = Some (dp, h) →
       (∀ x p, x ∈ a → fp_of cache x ≠ Some (p, h)) →
       {| text := t;
          keep_file := OsPath.basename (rec_file k); keep_path := kp;
          delete_file := OsPath.basename (rec_file d); delete_path := dp;
          delete_line := raw_line d; keep_line := raw_line k;
          selected := true |} ∈ cands)
  ∧ (∀ t A B C pa pb h,
       (t, [A; B; C]) ∈ text_groups (read_records (PyStr.readlines content)) →
       fp_of cache A = Some (pa, h) →
       fp_of cache B = Some (pb, h) →
       (∀ pc, fp_of cache C ≠ Some (pc, h)) →
       filter (λ c, text c = t) cands
       = [{| text := t;
             keep_file := OsPath.basename (rec_file A); keep_path := pa;
             delete_file := OsPath.basename (rec_file B); delete_path := pb;
             delete_line := raw_line B; keep_line := raw_line A;
             selected := true |}]).
Proof.
  intros Hesd Hrun.
  destruct (run_dedup_analysis_candidates os_walk fs raw_dir top_db hash_sr q_levels
              (resolve os_walk raw_dir cache) esd_path content cache Hesd)
    as (cache1 & Hrun1 & _); [done|].
  rewrite Hrun1 in Hrun. injection Hrun as <- <-.
  destruct (text_groups_groups_of (read_records (PyStr.readlines content)))
    as (Hnd & Hgroup & _).
  split_and!.
  - intros c Hc.
    apply manifest_candidates_elem in Hc
      as (t & g & k & kp & d & dp & h & pre & post & Hg & -> & Hd & Hk & ->).
    apply first_with_split in Hk as (a & b & -> & Hk & Ha).
    rewrite <- (assoc_L (++)) in Hg. cbn [app] in Hg.
    exists a, k, b, d, post, kp, dp, h. simpl.
    split_and!; [done|by destruct (Hgroup _ _ Hg) as [<- _]|done..].
  - intros t a k b d post kp dp h Hg Hk Hd Ha.
    unfold manifest_candidates. apply list_elem_of_In, in_flat_map.
    exists (t, a ++ k :: b ++ d :: post). split; [by apply list_elem_of_In|].
    apply list_elem_of_In. unfold group_candidates. cbn [fst snd].
    assert ((length (a ++ k :: b ++ d :: post) <? 2) = false) as ->.
    { apply Nat.ltb_ge. rewrite length_app. cbn [length]. rewrite length_app. cbn [length]. lia. }
    apply list_elem_of_fmap. exists ((k, kp), d, dp). split; [done|].
    replace (a ++ k :: b ++ d :: post) with ((a ++ k :: b) ++ d :: post)
      by by rewrite <- (assoc_L (++)).
    eapply keep_first_pairs_complete; [exact Hd|].
    apply first_with_split. by exists a, b.
  - intros t A B C pa pb h Hg HA HB HC.
    unfold manifest_candidates. rewrite (candidates_of_text _ _ _ _ _ _ t [A; B; C]) by done.
    unfold group_candidates. cbn [fst snd length Nat.ltb Nat.leb].
    cbn [keep_first_pairs first_with app]. rewrite HA.
    cbn [keep_first_pairs first_with app]. rewrite HB.
    cbn [keep_first_pairs first_with app]. rewrite String.eqb_refl.
    destruct (fp_of cache C) as [[pc hc]|] eqn:HCfp; [|done].
    destruct (String.eqb h hc) eqn:E; [|done].
    apply String.eqb_eq in E as <-. by destruct (HC pc).
Qed.


(** A pass started from a cache of first matches returns what a pass
    started from the empty cache returns. *)
Lemma detection_from_first_match_cache esd_path cache :
  first_match_cache os_walk raw_dir cache →
  (run_dedup_analysis os_walk fs raw_dir top_db hash_sr q_levels esd_path cache).1
  = (run_dedup_analysis os_walk fs raw_dir top_db hash_sr q_levels esd_path ∅).1.
Proof.
  intros Hfirst. destruct (fs !! esd_path) as [content|] eqn:Hesd.
  - destruct (run_dedup_analysis_candidates os_walk fs raw_dir top_db hash_sr q_levels
                (resolve os_walk raw_dir ∅) esd_path content cache Hesd)
      as (c1 & -> & _).
    { intros f. unfold resolve. rewrite lookup_empty.
      destruct (cache !! f) as [p|] eqn:Hc; [|done]. symmetry. by apply Hfirst. }
    destruct (run_dedup_analysis_candidates os_walk fs raw_dir top_db hash_sr q_levels
                (resolve os_walk raw_dir ∅) esd_path content ∅ Hesd)
      as (c2 & -> & _); done.
  - by rewrite !run_dedup_analysis_unreadable.
Qed.

End grouping_claims.

(** ** The fingerprinter *)

Section fingerprint_claims.
Context `{AudioLib}.

Lemma at_hash_rate_eq (y : signal) sr hash_sr :
  (if bool_decide (sr ≠ hash_sr) then librosa_resample y sr hash_sr else mret y)
  = at_hash_rate y sr hash_sr.
Proof.
  unfold at_hash_rate. by repeat case_bool_decide.
Qed.

(** What each way through the fingerprinter returns. *)
Lemma audio_content_hash_cases files path sr top_db hash_sr q_levels :
  match audio_content_hash files path sr top_db hash_sr q_levels with
  | Some digest =>
      HAS_LIBROSA = true
      ∧ ∃ y_q, quantised_samples files path sr top_db hash_sr q_levels y_q
               ∧ digest = sha1_hexdigest y_q
  | None =>
      HAS_LIBROSA = false
      ∨ load_fails files path sr
      ∨ trim_fails files path sr top_db
      ∨ empty_after_trim files path sr top_db
      ∨ zero_peak files path sr top_db
      ∨ numeric_step_fails files path sr top_db hash_sr q_levels
  end.
Proof.
  unfold audio_content_hash, hash_body, load_fails, trim_fails, empty_after_trim,
    zero_peak, numeric_step_fails, trimmed, open_audio.
  destruct HAS_LIBROSA; simpl; [|by left].
  destruct (files !! path) as [bytes|] eqn:Hf; simpl; [|right; left; by eexists].
  destruct (librosa_load bytes sr) as [y|e1] eqn:Hl; simpl; [|right; left; by eexists].
  destruct (librosa_trim y top_db) as [y_t|e2] eqn:Ht; simpl.
  2:{ right; right; left. by exists bytes, y, e2. }
  destruct (signal_len y_t =? 0) eqn:Hlen; simpl.
  { apply Nat.eqb_eq in Hlen. right; right; right; left. by exists y_t. }
  apply Nat.eqb_neq in Hlen.
  destruct (np_max_abs y_t) as [m|e3] eqn:Hm; simpl.
  2:{ do 5 right. exists y_t. split_and!; [done..|]. left. by exists e3. }
  destruct (amplitude_is_zero m) eqn:Hz; simpl.
  { right; right; right; right; left. by exists y_t, m. }
  destruct (np_divide y_t m) as [y_n|e4] eqn:Hd; simpl.
  2:{ do 5 right. exists y_t. split_and!; [done..|]. right. exists m.
      split_and!; [done..|]. left. by exists e4. }
  rewrite at_hash_rate_eq.
  destruct (at_hash_rate y_n sr hash_sr) as [y_r|e5] eqn:Hr; simpl.
  2:{ do 5 right. exists y_t. split_and!; [done..|]. right. exists m.
      split_and!; [done..|]. right. exists y_n. split; [done|]. left. by exists e5. }
  destruct (np_quantize y_r q_levels) as [y_q|e6] eqn:Hq; simpl.
  2:{ do 5 right. exists y_t. split_and!; [done..|]. right. exists m.
      split_and!; [done..|]. right. exists y_n. split; [done|]. right. by exists y_r, e6. }
  split; [done|]. exists y_q. split; [|done]. by econstructor.
Qed.

(** When every step succeeds the fingerprinter returns the digest of the
    quantised samples. *)
Lemma audio_content_hash_digest files path sr top_db hash_sr q_levels y_q :
  HAS_LIBROSA = true →
  quantised_samples files path sr top_db hash_sr q_levels y_q →
  audio_content_hash files path sr top_db hash_sr q_levels = Some (sha1_hexdigest y_q).
Proof.
  intros Hlib [bytes y y_t m y_n y_r Hf Hl Ht Hlen Hm Hz Hd Hr Hq].
  unfold audio_content_hash, hash_body, open_audio. rewrite Hlib, Hf. simpl.
  rewrite Hl. simpl. rewrite Ht. simpl.
  apply Nat.eqb_neq in Hlen. rewrite Hlen, Hm. simpl. rewrite Hz, Hd. simpl.
  rewrite at_hash_rate_eq, Hr. simpl. by rewrite Hq.
Qed.

(** C6 (as amended): the fingerprinter returns no digest exactly when the
    audio library is missing, when opening or decoding the file raises,
    when trimming raises, when the trimmed signal is empty, when its peak
    is zero, or when a later numeric step raises (peak, division by the
    peak, resampling, quantisation).  It returns a digest exactly when
    the library is there and every step succeeds, and the digest is then
    the SHA-1 digest of the quantised samples: the trimmed signal divided
    by its peak, resampled when the comparison rate differs from the
    loading rate.  The result is a value in both cases: no exception
    leaves the function. *)
Theorem audio_content_hash_unavailable_iff files path sr top_db hash_sr q_levels :
  (audio_content_hash files path sr top_db hash_sr q_levels = None ↔
     HAS_LIBROSA = false
     ∨ load_fails files path sr
     ∨ trim_fails files path sr top_db
     ∨ empty_after_trim files path sr top_db
     ∨ zero_peak files path sr top_db
     ∨ numeric_step_fails files path sr top_db hash_sr q_levels)
  ∧ (∀ digest,
       audio_content_hash files path sr top_db hash_sr q_levels = Some digest ↔
       HAS_LIBROSA = true
       ∧ ∃ y_q, quantised_samples files path sr top_db hash_sr q_levels y_q
                ∧ digest = sha1_hexdigest y_q).
Proof.
  pose proof (audio_content_hash_cases files path sr top_db hash_sr q_levels) as Hc.
  split; [split|intros digest; split].
  - intros E. by rewrite E in Hc.
  - intros Hbad.
    destruct (audio_content_hash files path sr top_db hash_sr q_levels) as [digest|];
      [exfalso|done].
    destruct Hc as [Hlib (y_q & [bytes y y_t m y_n y_r Hf Hl Ht Hlen Hm Hz Hd Hr Hq] & _)].
    assert (trimmed files path sr top_db = Ok y_t) as Htr.
    { unfold trimmed, open_audio. rewrite Hf. simpl. rewrite Hl. done. }
    destruct Hbad as [?|[[e He]|[(b' & y' & e & Hf' & Hl' & Ht')|[(y' & Hy' & Hlen')
      |[(y' & m' & Hy' & _ & Hm' & Hz')|(y' & Hy' & _ & Hnum)]]]]].
    + congruence.
    + unfold open_audio in He. rewrite Hf in He. simpl in He. congruence.
    + congruence.
    + congruence.
    + rewrite Htr in Hy'. injection Hy' as <-. congruence.
    + rewrite Htr in Hy'. injection Hy' as <-.
      destruct Hnum as [[e He]|(m' & Hm' & _ & Hnum)]; [congruence|].
      rewrite Hm in Hm'. injection Hm' as <-.
      destruct Hnum as [[e He]|(y_n' & Hd' & Hnum)]; [congruence|].
      rewrite Hd in Hd'. injection Hd' as <-.
      destruct Hnum as [[e He]|(y_r' & e & Hr' & Hq')]; [congruence|].
      rewrite Hr in Hr'. injection Hr' as <-. congruence.
  - intros E. by rewrite E in Hc.
  - intros [Hlib (y_q & Hq & ->)]. by apply audio_content_hash_digest.
Qed.

End fingerprint_claims.

(** ** The layout of the backup directory *)

Module BackupPaths.
Import PyStr OsPath StrFacts.

Lemma digit_not_sep n : is_sep (digit n) = false.
Proof.
  unfold digit. pose proof (Nat.mod_upper_bound n 10) as Hlt.
  destruct (n mod 10) as [|[|[|[|[|[|[|[|[|[|k]]]]]]]]]]; try done. lia.
Qed.

Lemma strftime_ends now : ends_with_sep (strftime now) = false.
Proof.
  unfold strftime. rewrite <- !app_assoc. unfold two_digits at 5.
  rewrite ends_with_sep_app_cons. cbn [ends_with_sep]. apply digit_not_sep.
Qed.

Lemma ends_with_sep_app_nonempty a b :
  is_empty b = false → ends_with_sep (a +:+ b) = ends_with_sep b.
Proof. destruct b as [|c b]; [done|]. intros _. apply ends_with_sep_app_cons. Qed.

Lemma strftime_nonempty now : is_empty (strftime now) = false.
Proof. done. Qed.

Lemma backup_root_ends esd_path now : ends_with_sep (backup_root_of esd_path now) = false.
Proof.
  unfold backup_root_of.
  rewrite ends_with_sep_app_nonempty by done.
  rewrite ends_with_sep_app_nonempty by apply strftime_nonempty.
  apply strftime_ends.
Qed.

Lemma is_empty_app_r a b : is_empty b = false → is_empty (a +:+ b) = false.
Proof. destruct a; [done|]. by rewrite app_cons. Qed.

Lemma backup_root_nonempty esd_path now : is_empty (backup_root_of esd_path now) = false.
Proof. unfold backup_root_of. by apply is_empty_app_r. Qed.

Lemma join_backup_root esd_path now name :
  has_sep name = false →
  join (backup_root_of esd_path now) name = backup_root_of esd_path now +:+ String SEP name.
Proof.
  intros Hn. rewrite join_no_sep by done.
  by rewrite backup_root_nonempty, backup_root_ends.
Qed.

(** The copy of the manifest lies at
    [<dataset_root>/backup_dedup_<YYYYMMDD_HHMMSS>/esd.list]. *)
Lemma backup_esd_layout esd_path now :
  backup_esd_of esd_path now
  = dirname esd_path +:+ "/backup_dedup_" +:+ strftime now +:+ "/esd.list".
Proof.
  unfold backup_esd_of. rewrite join_backup_root by done.
  unfold backup_root_of. by rewrite !app_assoc.
Qed.

Lemma backup_files_dir_layout esd_path now :
  backup_files_dir_of esd_path now
  = dirname esd_path +:+ "/backup_dedup_" +:+ strftime now +:+ "/deleted_files".
Proof.
  unfold backup_files_dir_of. rewrite join_backup_root by done.
  unfold backup_root_of. by rewrite !app_assoc.
Qed.

(** A moved file lies at [<the same>/deleted_files/<filename>]. *)
Lemma deleted_file_layout esd_path now name :
  has_sep name = false →
  join (backup_files_dir_of esd_path now) name
  = dirname esd_path +:+ "/backup_dedup_" +:+ strftime now +:+ "/deleted_files/" +:+ name.
Proof.
  intros Hn. rewrite join_no_sep by done. rewrite backup_files_dir_layout.
  rewrite !is_empty_app_r by done. rewrite <- !app_assoc.
  rewrite ends_with_sep_app_cons. simpl. by rewrite !app_assoc.
Qed.

Lemma strftime_length now : String.length (strftime now) = 15.
Proof. done. Qed.

Lemma head_basename p : head_of p +:+ basename p = p.
Proof.
  induction p as [|c p IH]; [done|]. simpl.
  destruct (has_sep p); [by rewrite app_cons, IH|].
  by destruct (is_sep c).
Qed.

Lemma rstrip_sep_split s :
  ∃ t, s = rstrip_by is_sep s +:+ t ∧ all_sep t = true.
Proof.
  induction s as [|c s (t & Hs & Ht)]; [by exists EmptyString|]. simpl.
  destruct (is_sep c && is_empty (rstrip_by is_sep s)) eqn:E.
  - apply andb_true_iff in E as [Hc He].
    destruct (rstrip_by is_sep s); [|done]. rewrite app_nil_l in Hs. subst t.
    exists (String c s). split; [done|]. simpl. by rewrite Hc, Ht.
  - exists t. split; [|done]. by rewrite app_cons, <- Hs.
Qed.

(** A path is its directory name, then separators, then a last component
    without separator. *)
Lemma dirname_split p :
  ∃ t base, p = dirname p +:+ t +:+ base ∧ all_sep t = true ∧ has_sep base = false.
Proof.
  unfold dirname.
  destruct (negb (is_empty (head_of p)) && negb (all_sep (head_of p))).
  - destruct (rstrip_sep_split (head_of p)) as (t & Ht & Hall).
    exists t, (basename p). split_and!; [|done|apply basename_no_sep].
    by rewrite <- app_assoc, <- Ht, head_basename.
  - exists EmptyString, (basename p). split_and!; [|done|apply basename_no_sep].
    by rewrite app_nil_l, head_basename.
Qed.

(** Nothing below the backup directory is the manifest itself. *)
Lemma under_backup_ne esd_path now z :
  has_sep z = true → backup_root_of esd_path now +:+ z ≠ esd_path.
Proof.
  intros Hz E. destruct (dirname_split esd_path) as (t & base & Hp & Ht & Hb).
  unfold backup_root_of in E. pose proof (eq_trans E Hp) as E'. clear E Hp.
  rename E' into E. rewrite !app_assoc in E. apply (inj (String.append _)) in E.
  destruct t as [|c [|c' t]].
  - rewrite app_nil_l in E. subst base. done.
  - rewrite !app_cons, !app_nil_l in E. injection E as _ E. subst base.
    cbn [has_sep] in Hb. rewrite has_sep_app, Hz, !orb_true_r in Hb. done.
  - rewrite !app_cons in E. injection E as _ E _. subst c'.
    simpl in Ht. by rewrite andb_false_r in Ht.
Qed.

Lemma backup_esd_ne esd_path now : backup_esd_of esd_path now ≠ esd_path.
Proof.
  unfold backup_esd_of. rewrite join_backup_root by done. by apply under_backup_ne.
Qed.

Lemma deleted_file_ne esd_path now name :
  has_sep name = false → join (backup_files_dir_of esd_path now) name ≠ esd_path.
Proof.
  intros Hn. rewrite deleted_file_layout by done.
  pose proof (under_backup_ne esd_path now ("/deleted_files/" +:+ name)) as Hne.
  unfold backup_root_of in Hne. rewrite !app_assoc in Hne. by apply Hne.
Qed.

Lemma deleted_file_ne_backup_esd esd_path now name :
  has_sep name = false →
  join (backup_files_dir_of esd_path now) name ≠ backup_esd_of esd_path now.
Proof.
  intros Hn. rewrite deleted_file_layout, backup_esd_layout by done.
  intros E. do 3 apply (inj (String.append _)) in E. done.
Qed.

End BackupPaths.

(** ** Running the executor *)

Lemma bind_run {A B} (m : M A) (f : A → M B) w :
  (m ≫= f) w = match m w with
               | (Ok a, w') => f a w'
               | (Raise e, w') => (Raise e, w')
               end.
Proof. reflexivity. Qed.

Lemma emit_run e w : emit e w = (Ok (), World (files w) (trace w ++ [e]) (faults w)).
Proof. reflexivity. Qed.

Lemma makedirs_run path w :
  makedirs path w =
  if fault w then (Raise (Exception "OSError"), tick w)
  else (Ok (), World (files w) (trace w ++ [EvMakedirs path]) (tail (faults w))).
Proof. unfold makedirs, syscall. rewrite bind_run. by destruct (fault w). Qed.

Lemma copy2_run src dst w :
  copy2 src dst w =
  if fault w then (Raise (Exception "OSError"), tick w)
  else match files w !! src with
       | None => (Raise (Exception "No such file or directory"), tick w)
       | Some data =>
           (Ok (), World (<[dst := data]> (files w)) (trace w ++ [EvCopy src dst])
                     (tail (faults w)))
       end.
Proof.
  unfold copy2, syscall. rewrite bind_run. destruct (fault w); [done|].
  rewrite bind_run. unfold get_file, tick. simpl. by destruct (files w !! src).
Qed.

Lemma read_lines_run path w :
  read_lines path w =
  if fault w then (Raise (Exception "OSError"), tick w)
  else match files w !! path with
       | None => (Raise (Exception "No such file or directory"), tick w)
       | Some data =>
           (Ok (PyStr.readlines data),
            World (files w) (trace w ++ [EvRead path]) (tail (faults w)))
       end.
Proof.
  unfold read_lines, syscall. rewrite bind_run. destruct (fault w); [done|].
  rewrite bind_run. unfold get_file, tick. simpl. by destruct (files w !! path).
Qed.

Lemma open_w_run path w :
  open_w path w =
  if fault w then (Raise (Exception "OSError"), tick w)
  else (Ok (), World (<[path := EmptyString]> (files w)) (trace w ++ [EvTruncate path])
                 (tail (faults w))).
Proof. unfold open_w, syscall. rewrite bind_run. by destruct (fault w). Qed.

Lemma write_lines_run path lines w :
  write_lines path lines w =
  if fault w then (Raise (Exception "OSError"), tick w)
  else (Ok (), World (<[path := PyStr.writelines lines]> (files w))
                 (trace w ++ [EvWrite path (PyStr.writelines lines)]) (tail (faults w))).
Proof. unfold write_lines, syscall. rewrite bind_run. by destruct (fault w). Qed.

Lemma shutil_move_run src dst w :
  shutil_move src dst w =
  if fault w then (Raise (Exception "OSError"), tick w)
  else match files w !! src with
       | None => (Raise (Exception "No such file or directory"), tick w)
       | Some data =>
           (Ok (), World (<[dst := data]> (delete src (files w)))
                     (trace w ++ [EvMove src dst]) (tail (faults w)))
       end.
Proof.
  unfold shutil_move, syscall. rewrite bind_run. destruct (fault w); [done|].
  rewrite bind_run. unfold get_file, tick. simpl. by destruct (files w !! src).
Qed.

Lemma fault_no_faults w : no_faults w → fault w = false.
Proof.
  unfold no_faults, fault. destruct (faults w) as [|b l]; [done|].
  intros Hf. apply Forall_cons in Hf as [-> _]. done.
Qed.

Lemma no_faults_tail fs tr w : no_faults w → no_faults (World fs tr (tail (faults w))).
Proof.
  unfold no_faults. simpl. destruct (faults w); [done|]. by intros [_ ?]%Forall_cons.
Qed.

Lemma no_faults_same fs tr w : no_faults w → no_faults (World fs tr (faults w)).
Proof. done. Qed.

Lemma harmless_log msg : harmless (EvLog msg).
Proof. intros p []. Qed.
Lemma harmless_makedirs path : harmless (EvMakedirs path).
Proof. intros p []. Qed.
Lemma harmless_read path : harmless (EvRead path).
Proof. intros p []. Qed.
Lemma harmless_showinfo t m : harmless (EvShowInfo t m).
Proof. intros p []. Qed.
Lemma harmless_showerror t m : harmless (EvShowError t m).
Proof. intros p []. Qed.

Create HintDb harmless.
#[local] Hint Resolve harmless_log harmless_makedirs harmless_read
  harmless_showinfo harmless_showerror : harmless.

(** The rebuilt manifest is the filtered manifest. *)
Lemma rebuild_filter (s : gset string) lines : ∀ acc,
  rebuild s lines acc = acc ++ filter (λ line, PyStr.strip line ∉ s) lines.
Proof.
  induction lines as [|line lines IH]; intros acc; simpl.
  { by rewrite app_nil_r. }
  case_bool_decide as Hin.
  - rewrite IH. by rewrite filter_cons_False by (by intros ?).
  - rewrite IH. rewrite filter_cons_True by done. by rewrite <- (assoc_L (++)).
Qed.

Lemma rebuild_kept_lines duplicates lines :
  rebuild (list_to_set (map delete_line duplicates)) lines [] = kept_lines duplicates lines.
Proof.
  rewrite rebuild_filter. simpl. unfold kept_lines.
  apply list_filter_iff. intros line. by rewrite elem_of_list_to_set.
Qed.

(** *** The loop that moves the files *)

Lemma move_files_trace backup_files_dir paths : ∀ n w r w',
  move_files paths backup_files_dir n w = (r, w') →
  ∃ evs, trace w' = trace w ++ evs.
Proof.
  induction paths as [|p paths IH]; intros n w r w' Hrun; simpl in Hrun.
  { injection Hrun as <- <-. exists []. by rewrite app_nil_r. }
  rewrite bind_run in Hrun. unfold path_exists, get_file in Hrun. simpl in Hrun.
  case_bool_decide as Hex; [|by eapply IH].
  rewrite bind_run, shutil_move_run in Hrun.
  destruct (fault w); [injection Hrun as <- <-; exists []; by rewrite app_nil_r|].
  destruct (files w !! p) as [data|];
    [|injection Hrun as <- <-; exists []; by rewrite app_nil_r].
  apply IH in Hrun as [evs Hevs]. simpl in Hevs.
  exists (EvMove p (OsPath.join backup_files_dir (OsPath.basename p)) :: evs).
  by rewrite Hevs, <- (assoc_L (++)).
Qed.

(** A path that is neither moved nor a target of a move keeps its
    content. *)
Lemma move_files_other backup_files_dir paths : ∀ n w r w' x,
  move_files paths backup_files_dir n w = (r, w') →
  x ∉ paths →
  (∀ p, p ∈ paths → OsPath.join backup_files_dir (OsPath.basename p) ≠ x) →
  files w' !! x = files w !! x.
Proof.
  induction paths as [|p paths IH]; intros n w r w' x Hrun Hx Hdst; simpl in Hrun.
  { by injection Hrun as <- <-. }
  apply not_elem_of_cons in Hx as [Hxp Hx].
  assert (∀ q, q ∈ paths → OsPath.join backup_files_dir (OsPath.basename q) ≠ x) as Hdst'.
  { intros q Hq. apply Hdst. by right. }
  rewrite bind_run in Hrun. unfold path_exists, get_file in Hrun. simpl in Hrun.
  case_bool_decide as Hex; [|by eapply IH].
  rewrite bind_run, shutil_move_run in Hrun.
  destruct (fault w); [by injection Hrun as <- <-|].
  destruct (files w !! p) as [data|] eqn:Hp; [|by injection Hrun as <- <-].
  rewrite (IH _ _ _ _ x Hrun Hx Hdst'). simpl.
  rewrite lookup_insert_ne by (apply Hdst; left).
  by rewrite lookup_delete_ne.
Qed.

(** A file the loop removed lies, with its content, in the folder of the
    deleted files. *)
Lemma move_files_kept backup_files_dir paths : ∀ n w r w' p data,
  NoDup paths → basename_inj paths →
  move_files paths backup_files_dir n w = (r, w') →
  files w !! p = Some data →
  files w' !! p = None →
  files w' !! OsPath.join backup_files_dir (OsPath.basename p) = Some data.
Proof.
  induction paths as [|q paths IH]; intros n w r w' p data Hnd Hinj Hrun Hp Hgone;
    simpl in Hrun.
  { injection Hrun as <- <-. congruence. }
  apply NoDup_cons in Hnd as [Hq Hnd].
  assert (basename_inj paths) as Hinj'.
  { intros a b Ha Hb. apply Hinj; by right. }
  assert (∀ x, x ∈ paths →
    OsPath.join backup_files_dir (OsPath.basename x)
    ≠ OsPath.join backup_files_dir (OsPath.basename q)) as Hdst.
  { intros x Hx E. apply StrFacts.join_inj in E; try apply StrFacts.basename_no_sep.
    apply Hinj in E; [|by right|left]. congruence. }
  assert (OsPath.join backup_files_dir (OsPath.basename q) ∉ paths) as Hsrc.
  { intros Hin.
    assert (OsPath.join backup_files_dir (OsPath.basename q) = q) as E.
    { apply Hinj; [by right|left|].
      apply StrFacts.basename_join, StrFacts.basename_no_sep. }
    congruence. }
  rewrite bind_run in Hrun. unfold path_exists, get_file in Hrun. simpl in Hrun.
  case_bool_decide as Hex; [|by eapply IH].
  rewrite bind_run, shutil_move_run in Hrun.
  destruct (fault w); [injection Hrun as <- <-; simpl in Hgone; congruence|].
  destruct (files w !! q) as [dq|] eqn:Hfq;
    [|injection Hrun as <- <-; simpl in Hgone; congruence].
  destruct (decide (p = q)) as [->|Hpq].
  - rewrite (move_files_other _ _ _ _ _ _ _ Hrun Hsrc Hdst). simpl.
    rewrite lookup_insert_eq. congruence.
  - destruct (decide (p = OsPath.join backup_files_dir (OsPath.basename q))) as [->|Hpd].
    + rewrite (move_files_other _ _ _ _ _ _ _ Hrun Hsrc Hdst) in Hgone. simpl in Hgone.
      by rewrite lookup_insert_eq in Hgone.
    + eapply IH; [done|done|exact Hrun| |done]. simpl.
      rewrite lookup_insert_ne by done. by rewrite lookup_delete_ne.
Qed.

(** *** The stages of a run *)

Lemma fault_true_inv fs tr l : fault (World fs tr l) = true → ¬ Forall (λ b, b = false) l.
Proof.
  unfold fault. simpl. destruct l as [|[] l]; try done.
  by intros _ [? _]%Forall_cons.
Qed.

Lemma Forall_false_tail (l : list bool) :
  Forall (λ b, b = false) l → Forall (λ b, b = false) (tail l).
Proof. destruct l; [done|]. by intros [_ ?]%Forall_cons. Qed.

Ltac faulty :=
  let Hnf := fresh "Hnf" in
  intros Hnf;
  match goal with
  | F : fault _ = true |- _ =>
      first [ apply fault_true_inv in F
            | unfold fault in F; unfold no_faults in Hnf;
              destruct (faults _) as [|[] ?];
              [done|done|by apply Forall_cons in Hnf as [? _]] ];
      apply F; cbn [faults tick]; repeat apply Forall_false_tail; exact Hnf
  end.

Ltac handler_run H :=
  cbv beta iota in H; unfold showerror, showinfo, log in H;
  rewrite ?bind_run, ?emit_run in H; cbv beta iota in H;
  rewrite ?bind_run, ?emit_run in H; cbv beta iota in H;
  injection H as <- <-; cbn [files trace faults tick].

Ltac norm_trace :=
  cbn [files trace faults tick]; rewrite <- ?(assoc_L (++)); cbn [app]; try done.

Ltac all_harmless := repeat constructor; auto with harmless.

Lemma execute_stage duplicates esd_path raw_dir now w r w' :
  execute_dedup_deletion duplicates esd_path raw_dir now w = (r, w') →
  exec_stage duplicates esd_path now w w'.
Proof.
  intros Hrun. unfold execute_dedup_deletion, try_except, execute_body in Hrun.
  cbv zeta in Hrun.
  fold (backup_root_of esd_path now) in Hrun.
  fold (backup_esd_of esd_path now) in Hrun.
  fold (backup_files_dir_of esd_path now) in Hrun.
  rewrite bind_run in Hrun. unfold log at 1 in Hrun. rewrite emit_run in Hrun.
  cbv beta iota in Hrun. rewrite bind_run, makedirs_run in Hrun.
  cbn [files trace faults] in Hrun.
  destruct (fault _) eqn:F1 in Hrun.
  { handler_run Hrun.
    eapply (stage_nothing _ _ _ _ _ [_; _; _]); [done|norm_trace|all_harmless|left; faulty]. }
  cbv beta iota in Hrun. rewrite bind_run, copy2_run in Hrun.
  cbn [files trace faults] in Hrun.
  destruct (fault _) eqn:F2 in Hrun.
  { handler_run Hrun.
    eapply (stage_nothing _ _ _ _ _ [_; _; _; _]);
      [done|norm_trace|all_harmless|left; faulty]. }
  destruct (files w !! esd_path) as [data|] eqn:Hesd.
  2:{ handler_run Hrun.
      eapply (stage_nothing _ _ _ _ _ [_; _; _; _]);
        [done|norm_trace|all_harmless|by right]. }
  cbv beta iota in Hrun. rewrite bind_run, makedirs_run in Hrun.
  cbn [files trace faults] in Hrun.
  destruct (fault _) eqn:F3 in Hrun.
  { handler_run Hrun.
    eapply (stage_copied _ _ _ _ _ data _ [_; _]);
      [done|done|norm_trace|all_harmless|faulty]. }
  cbv beta iota in Hrun. rewrite bind_run in Hrun. unfold log at 1 in Hrun.
  rewrite emit_run in Hrun. cbv beta iota in Hrun.
  rewrite bind_run, read_lines_run in Hrun. cbn [files trace faults] in Hrun.
  destruct (fault _) eqn:F4 in Hrun.
  { handler_run Hrun.
    eapply (stage_copied _ _ _ _ _ data _ [_; _; _; _]);
      [done|done|norm_trace|all_harmless|faulty]. }
  assert (<[backup_esd_of esd_path now := data]> (files w) !! esd_path = Some data) as Hread.
  { rewrite lookup_insert_ne; [done|apply BackupPaths.backup_esd_ne]. }
  rewrite Hread in Hrun. cbv beta iota in Hrun.
  rewrite bind_run, open_w_run in Hrun. cbn [files trace faults] in Hrun.
  destruct (fault _) eqn:F5 in Hrun.
  { handler_run Hrun.
    eapply (stage_copied _ _ _ _ _ data _ [_; _; _; _; _]);
      [done|done|norm_trace|all_harmless|faulty]. }
  cbv beta iota in Hrun. rewrite bind_run, write_lines_run in Hrun.
  cbn [files trace faults] in Hrun.
  destruct (fault _) eqn:F6 in Hrun.
  { handler_run Hrun.
    eapply (stage_truncated _ _ _ _ _ data _ [_; _; _] [_; _]);
      [done|done|norm_trace|all_harmless|all_harmless|faulty]. }
  cbv beta iota in Hrun. rewrite bind_run in Hrun.
  match type of Hrun with
  | context [move_files ?ps ?d 0 ?w1] =>
      destruct (move_files ps d 0 w1) as [[n|e] w2] eqn:Hmove
  end.
  - handler_run Hrun.
    eapply (stage_rewritten _ _ _ _ _ data _ [_; _; _] [_; _]); [exact Hesd|..].
    4: exact Hmove. all: norm_trace. all: all_harmless.
  - handler_run Hrun.
    eapply (stage_rewritten _ _ _ _ _ data _ [_; _; _] [_; _]); [exact Hesd|..].
    4: exact Hmove. all: norm_trace. all: all_harmless.
Qed.

(** ** Lines survive a write and a read *)

Module Lines.
Import PyStr StrFacts.

Lemma readlines_partial l : partial_line l → readlines l = [l].
Proof.
  intros [Hne Hl]. induction l as [|c l IH]; [done|]. simpl in *.
  apply andb_true_iff in Hl as [Hc Hl]. apply negb_true_iff in Hc. rewrite Hc.
  destruct l as [|d l]; [done|]. by rewrite IH.
Qed.

Lemma readlines_complete body rest :
  no_lf body = true →
  readlines (body +:+ String LF rest) = (body +:+ String LF EmptyString) :: readlines rest.
Proof.
  induction body as [|c body IH]; intros Hb.
  - by rewrite !app_nil_l.
  - simpl in Hb. apply andb_true_iff in Hb as [Hc Hb]. apply negb_true_iff in Hc.
    rewrite !app_cons. simpl. rewrite Hc, IH by done. done.
Qed.

Lemma readlines_ok s : lines_ok (readlines s).
Proof.
  induction s as [|c s IH]; simpl; [constructor|].
  destruct (is_lf c) eqn:Hc.
  - apply lines_ok_cons; [|done]. exists EmptyString. split; [|done].
    unfold is_lf in Hc. by apply Ascii.eqb_eq in Hc as ->.
  - destruct (readlines s) as [|l ls].
    + apply lines_ok_last. split; [done|]. simpl. by rewrite Hc.
    + inversion IH as [|l' [Hne Hl]|l' ls' (body & -> & Hb) Hls]; subst.
      * apply lines_ok_last. split; [done|]. simpl. by rewrite Hc, Hl.
      * apply lines_ok_cons; [|done]. exists (String c body). split; [done|].
        simpl. by rewrite Hc, Hb.
Qed.

Lemma lines_ok_sublist ls' ls : ls' `sublist_of` ls → lines_ok ls → lines_ok ls'.
Proof.
  induction 1 as [|x l1 l2 Hsub IH|x l1 l2 Hsub IH]; intros Hok; [done|..].
  - inversion Hok as [|l' Hp|l' ls0 Hc Hls]; subst.
    + apply sublist_nil_r in Hsub as ->. by apply lines_ok_last.
    + apply lines_ok_cons; [done|by apply IH].
  - apply IH. inversion Hok; subst; [constructor|done].
Qed.

Lemma readlines_writelines ls : lines_ok ls → readlines (writelines ls) = ls.
Proof.
  induction 1 as [|l Hp|l ls (body & -> & Hb) Hls IH]; simpl.
  - done.
  - rewrite app_nil_r. by apply readlines_partial.
  - rewrite app_assoc, app_cons, app_nil_l. by rewrite readlines_complete, IH.
Qed.

(** Reading a file and writing its lines back leaves the file as it was. *)
Lemma writelines_readlines s : writelines (readlines s) = s.
Proof.
  induction s as [|c s IH]; [done|]. simpl.
  destruct (is_lf c).
  - simpl. by rewrite app_cons, app_nil_l, IH.
  - destruct (readlines s) as [|l ls]; simpl in *.
    + by rewrite <- IH.
    + by rewrite app_cons, IH.
Qed.

End Lines.

(** ** Claims on the executor and the commit handler *)

Lemma delete_paths_elements (duplicates : list candidate) p :
  p ∈ elements (list_to_set (map delete_path duplicates) : gset string)
  ↔ p ∈ map delete_path duplicates.
Proof. by rewrite elem_of_elements, elem_of_list_to_set. Qed.

(** After a run that nothing refused, the manifest holds the kept lines. *)
Lemma executed_manifest duplicates esd_path raw_dir now w r w' content :
  no_faults w →
  files w !! esd_path = Some content →
  esd_path ∉ map delete_path duplicates →
  execute_dedup_deletion duplicates esd_path raw_dir now w = (r, w') →
  files w' !! esd_path
  = Some (PyStr.writelines (kept_lines duplicates (PyStr.readlines content))).
Proof.
  intros Hnf Hesd Hnot Hrun.
  destruct (execute_stage _ _ _ _ _ _ _ Hrun)
    as [evs _ _ _ [?|?]|data msg evs _ _ _ _ ?|data msg evs evs' _ _ _ _ _ ?
       |data msg evs evs' w1 r1 w2 Hd new_lines Hf1 _ _ Hmove Hf' _ _];
    try done; try congruence.
  rewrite Hf'. rewrite (move_files_other _ _ _ _ _ _ esd_path Hmove).
  - rewrite Hf1, lookup_insert_eq. unfold new_lines.
    rewrite rebuild_kept_lines. congruence.
  - by rewrite delete_paths_elements.
  - intros p _. apply BackupPaths.deleted_file_ne, StrFacts.basename_no_sep.
Qed.

(** C7: the rewrite leaves in the manifest exactly the lines whose
    trimmed text is not a delete line of the confirmed candidates: the
    same lines, unaltered, in their original order. *)
Theorem manifest_rewrite_is_filter duplicates esd_path raw_dir now w r w' content :
  no_faults w →
  files w !! esd_path = Some content →
  esd_path ∉ map delete_path duplicates →
  execute_dedup_deletion duplicates esd_path raw_dir now w = (r, w') →
  ∃ content',
    files w' !! esd_path = Some content'
    ∧ PyStr.readlines content'
      = filter (λ line, PyStr.strip line ∉ map delete_line duplicates)
          (PyStr.readlines content)
    ∧ PyStr.readlines content' `sublist_of` PyStr.readlines content
    ∧ (∀ line, line ∈ PyStr.readlines content' ↔
         line ∈ PyStr.readlines content
         ∧ PyStr.strip line ∉ map delete_line duplicates).
Proof.
  intros Hnf Hesd Hnot Hrun.
  exists (PyStr.writelines (kept_lines duplicates (PyStr.readlines content))).
  assert (PyStr.readlines
            (PyStr.writelines (kept_lines duplicates (PyStr.readlines content)))
          = kept_lines duplicates (PyStr.readlines content)) as Hlines.
  { apply Lines.readlines_writelines.
    eapply Lines.lines_ok_sublist; [apply sublist_filter; apply _|apply Lines.readlines_ok]. }
  split_and!.
  - by eapply executed_manifest.
  - done.
  - rewrite Hlines. apply sublist_filter; apply _.
  - intros line. rewrite Hlines. unfold kept_lines.
    rewrite list_elem_of_filter. tauto.
Qed.

(** On lines without white space around their text, the trimmed text is
    the text of the line: the rewrite drops the verbatim copies of the
    delete lines. *)
Lemma dropped_lines_verbatim duplicates lines :
  unpadded lines → dropped_lines duplicates lines = verbatim_copies duplicates lines.
Proof.
  intros Hlines. unfold dropped_lines, verbatim_copies. apply filter_agree.
  intros line Hin. by rewrite (proj1 (Forall_forall _ _) Hlines line Hin).
Qed.

(** C2 (as amended): for a manifest whose lines carry no white space
    around their text, after the run the manifest has as many lines as
    before, minus the manifest lines whose text is, verbatim, the delete
    line of a confirmed candidate; every copy of such a line counts. *)
Theorem manifest_line_count duplicates esd_path raw_dir now w r w' content :
  no_faults w →
  files w !! esd_path = Some content →
  esd_path ∉ map delete_path duplicates →
  unpadded (PyStr.readlines content) →
  execute_dedup_deletion duplicates esd_path raw_dir now w = (r, w') →
  ∃ content',
    files w' !! esd_path = Some content'
    ∧ length (PyStr.readlines content')
      = length (PyStr.readlines content)
        - length (verbatim_copies duplicates (PyStr.readlines content)).
Proof.
  intros Hnf Hesd Hnot Hlines Hrun.
  exists (PyStr.writelines (kept_lines duplicates (PyStr.readlines content))).
  split; [by eapply executed_manifest|].
  rewrite Lines.readlines_writelines.
  2:{ eapply Lines.lines_ok_sublist; [apply sublist_filter; apply _|apply Lines.readlines_ok]. }
  pose proof (filter_app_complement
                (λ line, PyStr.strip line ∈ map delete_line duplicates)
                (PyStr.readlines content)) as Hperm.
  apply Permutation_length in Hperm. rewrite length_app in Hperm.
  rewrite <- dropped_lines_verbatim by done.
  unfold kept_lines, dropped_lines. lia.
Qed.

(** C8: when no candidate is confirmed, the commit shows one information
    box and returns: no error, no question, no call of the executor, no
    file-system call, and the files are what they were. *)
Theorem empty_commit_is_noop duplicates esd_path raw_dir answer now w :
  Forall (λ d, selected d = false) duplicates →
  do_delete duplicates esd_path raw_dir answer now w
  = (Ok (), World (files w)
              (trace w ++ [EvShowInfo "info" "nothing is selected for deletion"])
              (faults w)).
Proof.
  intros Hnone. unfold do_delete.
  assert (filter (λ d, selected d = true) duplicates = []) as ->; [|done].
  induction Hnone as [|d ds Hd _ IH]; [done|].
  rewrite filter_cons_False by congruence. done.
Qed.

Lemma harmless_not_mutates path e : harmless e → ¬ mutates path e.
Proof. intros He. apply He. Qed.

(** An event that changes a file is not among harmless events. *)
Lemma mutating_not_harmless path evs pre e post :
  Forall harmless evs → evs = pre ++ e :: post → ¬ mutates path e.
Proof.
  intros Hall ->. apply Forall_app in Hall as [_ Hall].
  apply Forall_cons in Hall as [He _]. apply He.
Qed.

(** Passing over an event that does not change [path]. *)
Lemma split_after path x l pre e post :
  x :: l = pre ++ e :: post → ¬ mutates path x → mutates path e →
  ∃ pre', pre = x :: pre' ∧ l = pre' ++ e :: post.
Proof.
  intros E Hx He. destruct pre as [|y pre]; simpl in E.
  - injection E as -> _. done.
  - injection E as -> ->. by exists pre.
Qed.

(** *** The trace records what happens to the files *)

Lemma replay_app evs1 evs2 fs : replay (evs1 ++ evs2) fs = replay evs2 (replay evs1 fs).
Proof. apply fold_left_app. Qed.

Lemma apply_harmless e fs : harmless e → apply_event e fs = fs.
Proof.
  intros He. destruct e as [| | | | | |src dst| |p|p d|src dst]; try done.
  - by destruct (He dst).
  - by destruct (He p).
  - by destruct (He p).
  - destruct (He dst). by right.
Qed.

Lemma replay_harmless evs fs : Forall harmless evs → replay evs fs = fs.
Proof.
  intros Hall. induction Hall as [|e evs He _ IH]; [done|].
  unfold replay in *. simpl. by rewrite apply_harmless.
Qed.

Lemma move_files_replay backup_files_dir paths : ∀ n w r w',
  move_files paths backup_files_dir n w = (r, w') →
  ∃ evs, trace w' = trace w ++ evs ∧ files w' = replay evs (files w).
Proof.
  induction paths as [|p paths IH]; intros n w r w' Hrun; simpl in Hrun.
  { injection Hrun as <- <-. exists []. by rewrite app_nil_r. }
  rewrite bind_run in Hrun. unfold path_exists, get_file in Hrun. simpl in Hrun.
  case_bool_decide as Hex; [|by eapply IH].
  rewrite bind_run, shutil_move_run in Hrun.
  destruct (fault w); [injection Hrun as <- <-; exists []; by rewrite app_nil_r|].
  destruct (files w !! p) as [data|] eqn:Hp;
    [|injection Hrun as <- <-; exists []; by rewrite app_nil_r].
  apply IH in Hrun as (evs & Ht & Hf). simpl in Ht, Hf.
  exists (EvMove p (OsPath.join backup_files_dir (OsPath.basename p)) :: evs).
  split; [by rewrite Ht, <- (assoc_L (++))|].
  rewrite Hf. unfold replay. simpl. by rewrite Hp.
Qed.

Lemma esd_ne_backup esd_path now : esd_path ≠ backup_esd_of esd_path now.
Proof. intros E. by apply (BackupPaths.backup_esd_ne esd_path now). Qed.

(** The events of a run, and the files they leave: either nothing but
    messages, or the log line, the creation of the backup directory and
    the copy of the manifest, then the rest. *)
Lemma executor_events duplicates esd_path raw_dir now w r w' :
  execute_dedup_deletion duplicates esd_path raw_dir now w = (r, w') →
  ∃ evs,
    trace w' = trace w ++ evs
    ∧ files w' = replay evs (files w)
    ∧ ((Forall harmless evs ∧ (¬ no_faults w ∨ files w !! esd_path = None))
       ∨ ∃ msg data rest,
           files w !! esd_path = Some data
           ∧ evs = [EvLog msg; EvMakedirs (backup_root_of esd_path now);
                    EvCopy esd_path (backup_esd_of esd_path now)] ++ rest
           ∧ (backup_esd_of esd_path now ∉ map delete_path duplicates →
                files w' !! backup_esd_of esd_path now = Some data)).
Proof.
  intros Hrun.
  assert (∀ msg data evs,
    files w !! esd_path = Some data → Forall harmless evs →
    replay ([EvLog msg; EvMakedirs (backup_root_of esd_path now);
             EvCopy esd_path (backup_esd_of esd_path now)] ++ evs) (files w)
    = <[backup_esd_of esd_path now := data]> (files w)) as Hcopy.
  { intros msg data evs Hd Hh. rewrite replay_app, replay_harmless by done.
    unfold replay. simpl. by rewrite Hd. }
  destruct (execute_stage _ _ _ _ _ _ _ Hrun)
    as [evs Hf Ht Hh Hwhy|data msg evs Hd Hf Ht Hh _|data msg evs evs' Hd Hf Ht Hh Hh' _
       |data msg evs evs' w1 r1 w2 Hd new_lines Hf1 Ht1 Hh Hmove Hf' Ht' Hh'].
  - exists evs. split_and!; [done|by rewrite replay_harmless|by left].
  - eexists. split_and!; [exact Ht|by rewrite (Hcopy _ data _ Hd Hh)|].
    right. exists msg, data, evs. split_and!; [done..|].
    intros _. by rewrite Hf, lookup_insert_eq.
  - eexists. split_and!; [exact Ht| |].
    + rewrite (assoc_L (++)), replay_app, replay_app, (Hcopy _ data _ Hd Hh).
      by rewrite replay_harmless.
    + right. exists msg, data, (evs ++ [EvTruncate esd_path] ++ evs').
      split_and!; [done..|]. intros _.
      rewrite Hf, lookup_insert_ne by apply esd_ne_backup. by rewrite lookup_insert_eq.
  - destruct (move_files_replay _ _ _ _ _ _ Hmove) as (moves & Hm & Hfm).
    exists (([EvLog msg; EvMakedirs (backup_root_of esd_path now);
              EvCopy esd_path (backup_esd_of esd_path now)] ++ evs)
            ++ [EvTruncate esd_path; EvWrite esd_path (PyStr.writelines new_lines)]
            ++ moves ++ evs').
    split_and!.
    + rewrite Ht', Hm, Ht1. rewrite <- !(assoc_L (++)). done.
    + rewrite replay_app, (Hcopy _ data _ Hd Hh).
      rewrite replay_app, replay_app, replay_harmless by done.
      rewrite Hf', Hfm, Hf1. done.
    + right. eexists msg, data, _. split_and!; [done|by rewrite <- !(assoc_L (++))|].
      intros Hnot.
      rewrite Hf'. rewrite (move_files_other _ _ _ _ _ _ (backup_esd_of esd_path now) Hmove).
      * rewrite Hf1, !lookup_insert_ne by apply esd_ne_backup. by rewrite lookup_insert_eq.
      * by rewrite delete_paths_elements.
      * intros p _. apply BackupPaths.deleted_file_ne_backup_esd, StrFacts.basename_no_sep.
Qed.

(** C3 (as amended): in every run, whatever interrupts it, the trace
    records what happened to the files, and an event that changes the
    manifest comes after the copy of the manifest into the backup
    directory, which itself comes after the [makedirs] of that directory
    (an existing directory is accepted); no earlier event touched the
    manifest, so the copy holds the content the manifest had before the
    run, and the manifest is still in place after the copy (it was
    copied, not moved).  When the run ends, if it changed the manifest,
    or if nothing refused a call and the manifest was readable, the copy
    holds that content.  The copy lies at
    [<dataset_root>/backup_dedup_<YYYYMMDD_HHMMSS>/esd.list] and is made
    whatever the candidates are. *)
Theorem backup_precedes_mutation duplicates esd_path raw_dir now w r w' :
  execute_dedup_deletion duplicates esd_path raw_dir now w = (r, w') →
  ∃ evs,
    trace w' = trace w ++ evs
    ∧ files w' = replay evs (files w)
    ∧ (∀ pre e post,
         evs = pre ++ e :: post → mutates esd_path e →
         ∃ a b data,
           pre = a ++ EvCopy esd_path (backup_esd_of esd_path now) :: b
           ∧ EvMakedirs (backup_root_of esd_path now) ∈ a
           ∧ Forall (λ e', ¬ mutates esd_path e') a
           ∧ files w !! esd_path = Some data
           ∧ replay (a ++ [EvCopy esd_path (backup_esd_of esd_path now)]) (files w)
               !! backup_esd_of esd_path now = Some data
           ∧ replay (a ++ [EvCopy esd_path (backup_esd_of esd_path now)]) (files w)
               !! esd_path = Some data)
    ∧ ((∃ e, e ∈ evs ∧ mutates esd_path e) →
         backup_esd_of esd_path now ∉ map delete_path duplicates →
         ∃ data, files w !! esd_path = Some data
                 ∧ files w' !! backup_esd_of esd_path now = Some data)
    ∧ (no_faults w →
         backup_esd_of esd_path now ∉ map delete_path duplicates →
         ∀ data, files w !! esd_path = Some data →
                 files w' !! backup_esd_of esd_path now = Some data)
    ∧ backup_esd_of esd_path now
      = OsPath.dirname esd_path +:+ "/backup_dedup_" +:+ strftime now +:+ "/esd.list"
    ∧ String.length (strftime now) = 15.
Proof.
  intros Hrun.
  destruct (executor_events _ _ _ _ _ _ _ Hrun)
    as (evs & Ht & Hf & [[Hh Hwhy]|(msg & data & rest & Hd & -> & Hkept)]);
    exists evs || eexists; (split; [exact Ht|]); (split; [exact Hf|]).
  - split_and!.
    + intros pre e post E He. by destruct (mutating_not_harmless esd_path _ _ _ _ Hh E).
    + intros (e & Hin & He) _. apply (proj1 (Forall_forall _ _) Hh) in Hin. by destruct (Hin esd_path).
    + intros Hnf _ data Hd. destruct Hwhy; [done|congruence].
    + apply BackupPaths.backup_esd_layout.
    + done.
  - split_and!.
    + intros pre e post E He. simpl in E.
      destruct (split_after esd_path _ _ _ _ _ E) as (pre1 & -> & E1); [by intros []|done|].
      destruct (split_after esd_path _ _ _ _ _ E1) as (pre2 & -> & E2); [by intros []|done|].
      destruct (split_after esd_path _ _ _ _ _ E2) as (pre3 & -> & E3);
        [apply BackupPaths.backup_esd_ne|done|].
      exists [EvLog msg; EvMakedirs (backup_root_of esd_path now)], pre3, data.
      split_and!; try done.
      * right. left.
      * repeat constructor; by intros [].
      * unfold replay. simpl. rewrite Hd. by rewrite lookup_insert_eq.
      * unfold replay. simpl. rewrite Hd.
        rewrite lookup_insert_ne; [done|apply BackupPaths.backup_esd_ne].
    + intros _ Hnot. exists data. by split; [|apply Hkept].
    + intros _ Hnot data' Hd'. rewrite Hd in Hd'. injection Hd' as <-. by apply Hkept.
    + apply BackupPaths.backup_esd_layout.
    + done.
Qed.

(** Whatever the run of the executor does, a file it removed lies, with
    its content, in the folder of the deleted files, provided distinct
    delete paths differ in their last component. *)
Lemma executor_keeps_removed duplicates esd_path raw_dir now w r w' p data :
  basename_inj (map delete_path duplicates) →
  execute_dedup_deletion duplicates esd_path raw_dir now w = (r, w') →
  p ≠ esd_path → p ≠ backup_esd_of esd_path now →
  files w !! p = Some data →
  files w' !! p = None →
  files w' !! OsPath.join (backup_files_dir_of esd_path now) (OsPath.basename p) = Some data.
Proof.
  intros Hinj Hrun Hp1 Hp2 Hp Hgone.
  destruct (execute_stage _ _ _ _ _ _ _ Hrun)
    as [evs Hf _ _ _|d0 msg evs _ Hf _ _ _|d0 msg evs evs' _ Hf _ _ _ _
       |d0 msg evs evs' w1 r1 w2 _ new_lines Hf1 _ _ Hmove Hf' _ _].
  - rewrite Hf in Hgone. congruence.
  - rewrite Hf, lookup_insert_ne in Hgone by done. congruence.
  - rewrite Hf, !lookup_insert_ne in Hgone by done. congruence.
  - rewrite Hf' in *.
    pose proof (NoDup_elements (list_to_set (map delete_path duplicates) : gset string))
      as Hnd.
    eapply move_files_kept; [exact Hnd| |exact Hmove| |done].
    + intros a b Ha Hb. apply Hinj; by apply delete_paths_elements.
    + rewrite Hf1, !lookup_insert_ne by done. done.
Qed.

Section no_loss.
Context `{AudioLib}.
Variable os_walk : string → list (string * list string).
Variable fs0 : gmap string string.
Variables (raw_dir : string) (top_db hash_sr q_levels : Z).

Lemma resolve_basename cache filename path :
  cache_wf cache → OsPath.has_sep filename = false →
  resolve os_walk raw_dir cache filename = Some path → OsPath.basename path = filename.
Proof.
  intros Hwf Hf. unfold resolve. destruct (cache !! filename) as [p|] eqn:Hc.
  - intros [= <-]. by apply Hwf.
  - by apply walk_find_basename.
Qed.

(** The delete paths the pass proposes differ in their last component. *)
Lemma candidates_basename_inj esd_path cache cands cache' :
  cache_wf cache →
  run_dedup_analysis os_walk fs0 raw_dir top_db hash_sr q_levels esd_path cache
    = (Some cands, cache') →
  basename_inj (map delete_path cands).
Proof.
  intros Hwf Hrun.
  destruct (fs0 !! esd_path) as [content|] eqn:Hesd.
  2:{ by rewrite run_dedup_analysis_unreadable in Hrun. }
  assert (∀ p, p ∈ map delete_path cands →
    resolve os_walk raw_dir cache (OsPath.basename p) = Some p) as Hres.
  { intros p (c & -> & Hc)%list_elem_of_fmap.
    destruct (candidate_records _ _ _ _ _ _ _ _ _ _ _ _ Hesd Hrun Hc)
      as (k & d & kp & dp & h & _ & _ & _ & _ & _ & Hd & ->).
    simpl. unfold entry_fingerprint in Hd.
    destruct (resolve os_walk raw_dir cache (OsPath.basename (rec_file d)))
      as [path|] eqn:Hr; simpl in Hd; [|done].
    destruct (PyStr.is_empty path); [done|].
    destruct (audio_content_hash fs0 path 16000 top_db hash_sr q_levels); [|done].
    injection Hd as <- _.
    by rewrite (resolve_basename _ _ _ Hwf (StrFacts.basename_no_sep _) Hr). }
  intros a b Ha Hb E. apply Hres in Ha, Hb. congruence.
Qed.

(** C1: every file that a run of the executor over confirmed candidates
    removes from its place lies afterwards, with its content, in the
    [deleted_files] folder of the backup directory, under its own name;
    this holds for runs that an error interrupts as well.  (The manifest
    and its backup copy are not audio files: they are rewritten and
    written by the run.) *)
Theorem removed_audio_is_in_backup esd_path cache cands cache' confirmed now w r w' p data :
  cache_wf cache →
  run_dedup_analysis os_walk fs0 raw_dir top_db hash_sr q_levels esd_path cache
    = (Some cands, cache') →
  confirmed ⊆ cands →
  execute_dedup_deletion confirmed esd_path raw_dir now w = (r, w') →
  p ≠ esd_path → p ≠ backup_esd_of esd_path now →
  files w !! p = Some data →
  files w' !! p = None →
  files w' !! OsPath.join (backup_files_dir_of esd_path now) (OsPath.basename p) = Some data
  ∧ OsPath.join (backup_files_dir_of esd_path now) (OsPath.basename p)
    = OsPath.dirname esd_path +:+ "/backup_dedup_" +:+ strftime now
      +:+ "/deleted_files/" +:+ OsPath.basename p.
Proof.
  intros Hwf Hrun Hsub Hexec Hp1 Hp2 Hp Hgone. split.
  - eapply executor_keeps_removed; try done.
    pose proof (candidates_basename_inj _ _ _ _ Hwf Hrun) as Hinj.
    intros a b Ha Hb. apply Hinj.
    + apply list_elem_of_fmap in Ha as (c & -> & Hc). apply list_elem_of_fmap.
      exists c. split; [done|by apply Hsub].
    + apply list_elem_of_fmap in Hb as (c & -> & Hc). apply list_elem_of_fmap.
      exists c. split; [done|by apply Hsub].
  - apply BackupPaths.deleted_file_layout, StrFacts.basename_no_sep.
Qed.

End no_loss.

(** The cache is well formed when the program starts, after
    [load_preview], and after every look-up. *)
Lemma cache_wf_empty : cache_wf ∅.
Proof. by intros f p. Qed.

Lemma preview_add_wf root names : ∀ m,
  (∀ name, name ∈ names → OsPath.has_sep name = false) →
  cache_wf m → cache_wf (preview_add root names m).
Proof.
  induction names as [|name names IH]; intros m Hn Hm; [done|]. simpl.
  apply IH; [intros n ?; apply Hn; by right|].
  destruct (is_audio_name name); [|done].
  intros f p. destruct (decide (f = name)) as [->|Hne].
  - rewrite lookup_insert_eq. intros [= <-]. apply StrFacts.basename_join, Hn. left.
  - rewrite lookup_insert_ne by done. apply Hm.
Qed.

Lemma load_preview_map_wf walk : walk_wf walk → cache_wf (load_preview_map walk).
Proof.
  unfold load_preview_map.
  assert (∀ m, cache_wf m → walk_wf walk → cache_wf (preview_map walk m)) as Hgen.
  { induction walk as [|[root names] walk IH]; intros m Hm Hw; [done|]. simpl.
    apply IH.
    - apply preview_add_wf; [|done]. intros name Hn. eapply Hw; [left|done].
    - intros r ns n Hin Hn. eapply Hw; [by right|done]. }
  intros Hw. apply Hgen; [apply cache_wf_empty|done].
Qed.

(** ** The claims on the example data set *)

Example demo_records :
  read_records (PyStr.readlines Demo.manifest) = [Demo.rec_a; Demo.rec_b; Demo.rec_c].
Proof. reflexivity. Qed.

Example demo_candidates : Demo.analysis.1 = Some [Demo.the_candidate].
Proof. vm_compute. reflexivity. Qed.

(** [load_preview] takes a line of two fields that the pass skips. *)
Example two_fields_accepted_elsewhere :
  preview_accepts (Demo.line "d.wav|spk") = true ∧ parse_line (Demo.line "d.wav|spk") = None.
Proof. split; reflexivity. Qed.

(** A line with more than three separators has four fields for the pass:
    the rest of the line is the transcript. *)
Example five_fields_parsed :
  parse_line (Demo.line "a.wav|spk|en|Hello|there")
  = Some (Rec "a.wav|spk|en|Hello|there" "a.wav" "spk" "en" "Hello|there").
Proof. reflexivity. Qed.

Lemma run_pair {A B} (x : A * B) : x = (x.1, x.2).
Proof. by destruct x. Qed.

(** Witness of C5 on the example data set. *)
Lemma candidates_share_transcript_witness :
  ∃ k d,
    k ∈ read_records (PyStr.readlines Demo.manifest)
    ∧ d ∈ read_records (PyStr.readlines Demo.manifest)
    ∧ parse_line (keep_line Demo.the_candidate) = Some k
    ∧ parse_line (delete_line Demo.the_candidate) = Some d
    ∧ rec_text k = rec_text d
    ∧ rec_text k = text Demo.the_candidate.
Proof.
  apply (@candidates_share_transcript Demo.librosa Demo.os_walk Demo.disk Demo.raw_dir
           40 2000 15 Demo.esd_path Demo.manifest ∅ [Demo.the_candidate] Demo.analysis.2
           Demo.the_candidate).
  - vm_compute. reflexivity.
  - vm_compute. reflexivity.
  - left.
Defined.

(** Witness of C10 on the example data set: the manifest holds a line of
    two fields and a blank line, and neither is a line of the candidate. *)
Lemma candidates_are_four_field_lines_witness :
  (∀ l, l = keep_line Demo.the_candidate ∨ l = delete_line Demo.the_candidate →
     l ≠ EmptyString
     ∧ length (PyStr.split_max PyStr.PIPE 3 l) = 4
     ∧ 3 ≤ PyStr.count_char PyStr.PIPE l
     ∧ ∃ line, line ∈ PyStr.readlines Demo.manifest ∧ PyStr.rstrip_lf line = l)
  ∧ (∀ line, line ∈ PyStr.readlines Demo.manifest →
       PyStr.rstrip_lf line = EmptyString ∨ PyStr.count_char PyStr.PIPE (PyStr.rstrip_lf line) < 3 →
       parse_line line = None
       ∧ keep_line Demo.the_candidate ≠ PyStr.rstrip_lf line
       ∧ delete_line Demo.the_candidate ≠ PyStr.rstrip_lf line).
Proof.
  apply (@candidates_are_four_field_lines Demo.librosa Demo.os_walk Demo.disk Demo.raw_dir
           40 2000 15 Demo.esd_path Demo.manifest ∅ [Demo.the_candidate] Demo.analysis.2
           Demo.the_candidate).
  - vm_compute. reflexivity.
  - vm_compute. reflexivity.
  - left.
Defined.

(** Witness of C4: in the group [a; b; c] of the example, [a] and [b]
    have one fingerprint and [c] another; the only candidate of the pass
    keeps [a] and deletes [b]. *)
Lemma tie_break_first_is_keep_witness :
  filter (λ c, text c = "Hello") Demo.cands
  = [{| text := "Hello";
        keep_file := "a.wav"; keep_path := "data/raw/a.wav";
        delete_file := "b.wav"; delete_path := "data/raw/b.wav";
        delete_line := "b.wav|spk|en|Hello"; keep_line := "a.wav|spk|en|Hello";
        selected := true |}].
Proof.
  assert (Demo.disk !! Demo.esd_path = Some Demo.manifest) as Hesd
    by (vm_compute; reflexivity).
  assert (@run_dedup_analysis Demo.librosa Demo.os_walk Demo.disk Demo.raw_dir 40 2000 15
            Demo.esd_path ∅ = (Some Demo.cands, Demo.analysis.2)) as Hrun
    by (vm_compute; reflexivity).
  pose proof (@tie_break_first_is_keep Demo.librosa Demo.os_walk Demo.disk Demo.raw_dir
                40 2000 15 Demo.esd_path Demo.manifest ∅ Demo.cands Demo.analysis.2
                Hesd Hrun) as (_ & _ & Habc).
  apply (Habc "Hello" Demo.rec_a Demo.rec_b Demo.rec_c "data/raw/a.wav" "data/raw/b.wav"
           "sha1:37").
  - vm_compute. left.
  - vm_compute. reflexivity.
  - vm_compute. reflexivity.
  - intros pc. vm_compute. discriminate.
Defined.


(** The file [a.wav] of the example has a digest. *)
Example digest_with_library :
  @audio_content_hash Demo.librosa Demo.disk "data/raw/a.wav" 16000 40 2000 15
  = Some "sha1:37".
Proof. vm_compute. reflexivity. Qed.

(** Counterexample to C6 as worded: with a comparison rate of zero the
    resampling step raises and the fingerprinter returns nothing, for a
    file that can be read and decoded and whose trimmed signal is neither
    empty nor flat. *)
Lemma unavailable_when_resampling_fails :
  ¬ @unavailable_as_specified Demo.librosa Demo.disk "data/raw/a.wav" 16000 40 0 15.
Proof.
  intros [Hnone _].
  destruct (Hnone eq_refl) as [(y & Hy & Hlen)|[(y & m & Hy & _ & Hm & Hz)|[e He]]].
  - vm_compute in Hy. injection Hy as <-. discriminate Hlen.
  - vm_compute in Hy. injection Hy as <-. vm_compute in Hm. injection Hm as <-.
    discriminate Hz.
  - vm_compute in He. discriminate He.
Qed.

(** The step that raises in that run is the resampling. *)
Example resampling_is_the_failing_step :
  @audio_content_hash Demo.librosa Demo.disk "data/raw/a.wav" 16000 40 0 15 = None
  ∧ @trimmed Demo.librosa Demo.disk "data/raw/a.wav" 16000 40 = Ok [1; 2]
  ∧ @at_hash_rate Demo.librosa [50; 100] 16000 0 = Raise (Exception "invalid sample rate").
Proof. split_and!; vm_compute; reflexivity. Qed.

(** Witness of C8: the operator unticks the only row and commits. *)
Lemma empty_commit_is_noop_witness :
  do_delete (on_dedup_tree_click 0 [Demo.the_candidate]) Demo.esd_path Demo.raw_dir true
    Demo.now Demo.w0
  = (Ok (), World (files Demo.w0)
              (trace Demo.w0 ++ [EvShowInfo "info" "nothing is selected for deletion"])
              (faults Demo.w0)).
Proof.
  apply (empty_commit_is_noop (on_dedup_tree_click 0 [Demo.the_candidate])).
  repeat constructor.
Defined.

(** Witness of C7 on the example data set. *)
Lemma manifest_rewrite_is_filter_witness :
  ∃ content',
    files Demo.w0' !! Demo.esd_path = Some content'
    ∧ PyStr.readlines content'
      = filter (λ line, PyStr.strip line ∉ map delete_line Demo.cands)
          (PyStr.readlines Demo.manifest)
    ∧ PyStr.readlines content' `sublist_of` PyStr.readlines Demo.manifest
    ∧ (∀ line, line ∈ PyStr.readlines content' ↔
         line ∈ PyStr.readlines Demo.manifest
         ∧ PyStr.strip line ∉ map delete_line Demo.cands).
Proof.
  eapply (manifest_rewrite_is_filter Demo.cands Demo.esd_path Demo.raw_dir Demo.now Demo.w0
           _ Demo.w0' Demo.manifest).
  - constructor.
  - vm_compute. reflexivity.
  - apply (bool_decide_unpack _). vm_compute. exact I.
  - unfold Demo.w0'. apply run_pair.
Defined.

(** Witness of C2 as amended, where the line of [b.wav] stands twice in
    the manifest and one of the two candidates is confirmed: both copies
    go. *)
Lemma manifest_line_count_witness :
  ∃ content',
    files Demo.w2' !! Demo.esd_path = Some content'
    ∧ length (PyStr.readlines content')
      = length (PyStr.readlines Demo.manifest2)
        - length (verbatim_copies Demo.confirmed2 (PyStr.readlines Demo.manifest2)).
Proof.
  apply (manifest_line_count Demo.confirmed2 Demo.esd_path Demo.raw_dir Demo.now
           (World Demo.disk2
              [EvAskYesNo "warning" "delete the 1 checked files?" true; EvDestroy] [])
           (Ok ()) Demo.w2' Demo.manifest2).
  - constructor.
  - vm_compute. reflexivity.
  - apply (bool_decide_unpack _). vm_compute. exact I.
  - repeat constructor.
  - vm_compute. reflexivity.
Defined.

(** Counterexample to C2 as worded: the manifest holds the line of
    [b.wav] twice, the pass proposes two candidates with that delete
    line, the operator confirms one of them; the manifest goes from three
    lines to one, not to two. *)
Lemma line_count_counterexample :
  ¬ count_as_specified Demo.confirmed2 Demo.esd_path Demo.w2 Demo.w2'.
Proof.
  intros Hcount.
  specialize (Hcount Demo.manifest2 (Demo.line "a.wav|spk|en|Hello")).
  assert (files Demo.w2 !! Demo.esd_path = Some Demo.manifest2) as H1
    by (vm_compute; reflexivity).
  assert (files Demo.w2' !! Demo.esd_path = Some (Demo.line "a.wav|spk|en|Hello")) as H2
    by (vm_compute; reflexivity).
  specialize (Hcount H1 H2). vm_compute in Hcount. discriminate Hcount.
Qed.

(** The numbers of that run. *)
Example line_count_numbers :
  length (PyStr.readlines Demo.manifest2) = 3
  ∧ length Demo.cands2 = 2
  ∧ confirmed_present Demo.confirmed2 (PyStr.readlines Demo.manifest2) = 1
  ∧ length (verbatim_copies Demo.confirmed2 (PyStr.readlines Demo.manifest2)) = 2
  ∧ (∃ after, files Demo.w2' !! Demo.esd_path = Some after
              ∧ length (PyStr.readlines after) = 1).
Proof.
  split_and!; [reflexivity|vm_compute; reflexivity..|].
  exists (Demo.line "a.wav|spk|en|Hello"). split; vm_compute; reflexivity.
Qed.

(** Witness of C3: the run on the example. *)
Lemma backup_precedes_mutation_witness :
  ∃ evs,
    trace Demo.w0' = trace Demo.w0 ++ evs
    ∧ files Demo.w0' = replay evs (files Demo.w0)
    ∧ (∀ pre e post,
         evs = pre ++ e :: post → mutates Demo.esd_path e →
         ∃ a b data,
           pre = a ++ EvCopy Demo.esd_path (backup_esd_of Demo.esd_path Demo.now) :: b
           ∧ EvMakedirs (backup_root_of Demo.esd_path Demo.now) ∈ a
           ∧ Forall (λ e', ¬ mutates Demo.esd_path e') a
           ∧ files Demo.w0 !! Demo.esd_path = Some data
           ∧ replay (a ++ [EvCopy Demo.esd_path (backup_esd_of Demo.esd_path Demo.now)])
               (files Demo.w0) !! backup_esd_of Demo.esd_path Demo.now = Some data
           ∧ replay (a ++ [EvCopy Demo.esd_path (backup_esd_of Demo.esd_path Demo.now)])
               (files Demo.w0) !! Demo.esd_path = Some data)
    ∧ ((∃ e, e ∈ evs ∧ mutates Demo.esd_path e) →
         backup_esd_of Demo.esd_path Demo.now ∉ map delete_path Demo.cands →
         ∃ data, files Demo.w0 !! Demo.esd_path = Some data
                 ∧ files Demo.w0' !! backup_esd_of Demo.esd_path Demo.now = Some data)
    ∧ (no_faults Demo.w0 →
         backup_esd_of Demo.esd_path Demo.now ∉ map delete_path Demo.cands →
         ∀ data, files Demo.w0 !! Demo.esd_path = Some data →
                 files Demo.w0' !! backup_esd_of Demo.esd_path Demo.now = Some data)
    ∧ backup_esd_of Demo.esd_path Demo.now
      = OsPath.dirname Demo.esd_path +:+ "/backup_dedup_" +:+ strftime Demo.now
        +:+ "/esd.list"
    ∧ String.length (strftime Demo.now) = 15.
Proof.
  apply (backup_precedes_mutation Demo.cands Demo.esd_path Demo.raw_dir Demo.now Demo.w0
           (execute_dedup_deletion Demo.cands Demo.esd_path Demo.raw_dir Demo.now Demo.w0).1
           Demo.w0').
  unfold Demo.w0'. apply run_pair.
Defined.

(** The events of that run and the files it leaves: the copy holds the
    manifest as it was, the manifest has lost the line of [b.wav]. *)
Example demo_run :
  trace Demo.w0'
  = [EvLog "=== dedup deletion start ===";
     EvMakedirs "data/backup_dedup_20250102_030405";
     EvCopy "data/esd.list" "data/backup_dedup_20250102_030405/esd.list";
     EvMakedirs "data/backup_dedup_20250102_030405/deleted_files";
     EvLog "backup created: data/backup_dedup_20250102_030405";
     EvRead "data/esd.list";
     EvTruncate "data/esd.list";
     EvWrite "data/esd.list"
       (PyStr.writelines
          [Demo.line "a.wav|spk|en|Hello"; Demo.line "c.wav|spk|en|Hello";
           Demo.line "d.wav|spk"; Demo.line EmptyString]);
     EvMove "data/raw/b.wav" "data/backup_dedup_20250102_030405/deleted_files/b.wav";
     EvLog "done. esd lines: 4 files moved: 1";
     EvShowInfo "done"
       "deleted files were moved to: data/backup_dedup_20250102_030405/deleted_files"]
  ∧ files Demo.w0' !! "data/backup_dedup_20250102_030405/esd.list" = Some Demo.manifest.
Proof. split; vm_compute; reflexivity. Qed.

(** Counterexample to C3 as worded: the backup directory of this second
    exists already (it holds the manifest copy of an earlier commit);
    [makedirs] accepts it, the run goes on and changes the manifest. *)
Lemma backup_dir_not_new :
  ¬ backup_dir_as_specified Demo.esd_path Demo.now Demo.w5 Demo.w5'.
Proof.
  intros Hnew. apply Hnew.
  - vm_compute. discriminate.
  - exists "data/backup_dedup_20250102_030405/esd.list", "earlier".
    split; vm_compute; reflexivity.
Qed.

(** In that run the earlier copy is overwritten by the present one. *)
Example earlier_backup_is_overwritten :
  files Demo.w5 !! backup_esd_of Demo.esd_path Demo.now = Some "earlier"
  ∧ files Demo.w5' !! backup_esd_of Demo.esd_path Demo.now = Some Demo.manifest
  ∧ trace Demo.w5' !! 1 = Some (EvMakedirs (backup_root_of Demo.esd_path Demo.now)).
Proof. split_and!; vm_compute; reflexivity. Qed.

(** Witness of C1: the run on the example removes [b.wav] from the audio
    tree and the file lies in the backup. *)
Lemma removed_audio_is_in_backup_witness :
  files Demo.w0' !! OsPath.join (backup_files_dir_of Demo.esd_path Demo.now)
                      (OsPath.basename "data/raw/b.wav") = Some "12"
  ∧ OsPath.join (backup_files_dir_of Demo.esd_path Demo.now)
      (OsPath.basename "data/raw/b.wav")
    = OsPath.dirname Demo.esd_path +:+ "/backup_dedup_" +:+ strftime Demo.now
      +:+ "/deleted_files/" +:+ OsPath.basename "data/raw/b.wav".
Proof.
  eapply (@removed_audio_is_in_backup Demo.librosa Demo.os_walk Demo.disk Demo.raw_dir
           40 2000 15 Demo.esd_path ∅ Demo.cands Demo.analysis.2 Demo.cands Demo.now
           Demo.w0 _ Demo.w0' "data/raw/b.wav" "12").
  - apply cache_wf_empty.
  - vm_compute. reflexivity.
  - done.
  - unfold Demo.w0'. apply run_pair.
  - discriminate.
  - vm_compute. discriminate.
  - vm_compute. reflexivity.
  - vm_compute. reflexivity.
Defined.

Example demo_layout :
  backup_esd_of Demo.esd_path Demo.now = "data/backup_dedup_20250102_030405/esd.list"
  ∧ OsPath.join (backup_files_dir_of Demo.esd_path Demo.now) "b.wav"
    = "data/backup_dedup_20250102_030405/deleted_files/b.wav".
Proof. split; reflexivity. Qed.

(** The result of a pass depends on the cache it starts from: where a
    name occurs in two folders, [find_audio_path] takes the first match
    and the cache of [load_preview] holds the last one. *)
Example detection_depends_on_cache :
  (@run_dedup_analysis Demo.librosa Demo.os_walk3 Demo.disk3 Demo.raw_dir 40 2000 15
     Demo.esd_path ∅).1
  = Some [make_candidate "Hi"
            ((Rec "a.wav|spk|en|Hi" "a.wav" "spk" "en" "Hi", "data/raw/x/a.wav"),
             Rec "b.wav|spk|en|Hi" "b.wav" "spk" "en" "Hi", "data/raw/b.wav")]
  ∧ (@run_dedup_analysis Demo.librosa Demo.os_walk3 Demo.disk3 Demo.raw_dir 40 2000 15
       Demo.esd_path (load_preview_map (Demo.os_walk3 Demo.raw_dir))).1
    = Some [].
Proof. split; vm_compute; reflexivity. Qed.

(** The pass keeps the spaces around a line ([rstrip] of the newline
    only), the rewrite compares the trimmed line: a confirmed delete line
    that ends with a space stays in the manifest while its audio file is
    moved away. *)
Example trailing_space_line_survives :
  delete_line <$> Demo.cands4 = ["b.wav|spk|en|Hello "]
  ∧ confirmed_present Demo.cands4 (PyStr.readlines Demo.manifest4) = 1
  ∧ files Demo.w4' !! Demo.esd_path = Some Demo.manifest4
  ∧ files Demo.w4' !! "data/raw/b.wav" = None
  ∧ files Demo.w4' !! "data/backup_dedup_20250102_030405/deleted_files/b.wav" = Some "12".
Proof. split_and!; vm_compute; reflexivity. Qed.

(** * Further properties *)

(** ** What a computation adds to the trace *)

Lemma emits_ret {A} (P : event → Prop) (a : A) : emits P (mret a : M A).
Proof. intros w r w' [= <- <-]. exists []. by rewrite app_nil_r. Qed.

Lemma emits_raise {A} (P : event → Prop) e : emits P (raise e : M A).
Proof. intros w r w' [= <- <-]. exists []. by rewrite app_nil_r. Qed.

Lemma emits_bind {A B} (P : event → Prop) (m : M A) (f : A → M B) :
  emits P m → (∀ a, emits P (f a)) → emits P (m ≫= f).
Proof.
  intros Hm Hf w r w' Hrun. rewrite bind_run in Hrun.
  destruct (m w) as [[a|e] w1] eqn:E; apply Hm in E as (evs1 & E1 & H1).
  - apply Hf in Hrun as (evs2 & E2 & H2). exists (evs1 ++ evs2).
    split; [by rewrite E2, E1, <- (assoc_L (++))|by apply Forall_app].
  - injection Hrun as <- <-. by exists evs1.
Qed.

Lemma emits_emit (P : event → Prop) e : P e → emits P (emit e).
Proof. intros He w r w' [= <- <-]. exists [e]. split; [done|by constructor]. Qed.

Lemma emits_syscall (P : event → Prop) : emits P syscall.
Proof.
  intros w r w' Hrun. unfold syscall in Hrun. exists [].
  rewrite app_nil_r. split; [|done]. by destruct (fault w); injection Hrun as <- <-.
Qed.

Lemma emits_get_file (P : event → Prop) path : emits P (get_file path).
Proof. intros w r w' [= <- <-]. exists []. by rewrite app_nil_r. Qed.

Lemma emits_set_files (P : event → Prop) f : emits P (set_files f).
Proof. intros w r w' [= <- <-]. exists []. by rewrite app_nil_r. Qed.

Lemma closes_bind {A B} (P Q : event → Prop) (m : M A) (f : A → M B) :
  emits P m → (∀ a, closes P Q (f a)) → closes P Q (m ≫= f).
Proof.
  intros Hm Hf w r w' Hrun. rewrite bind_run in Hrun.
  destruct (m w) as [[a|e] w1] eqn:E; apply Hm in E as (evs1 & E1 & H1).
  - apply Hf in Hrun as (evs2 & E2 & H2). exists (evs1 ++ evs2).
    split; [by rewrite E2, E1, <- (assoc_L (++))|].
    destruct r as [b|e].
    + destruct H2 as (pre & e & -> & Hpre & He). exists (evs1 ++ pre), e.
      split_and!; [by rewrite <- (assoc_L (++))|by apply Forall_app|done].
    + by apply Forall_app.
  - injection Hrun as <- <-. by exists evs1.
Qed.

Lemma closes_emit (P Q : event → Prop) e : Q e → closes P Q (emit e).
Proof. intros He w r w' [= <- <-]. exists [e]. split; [done|]. by exists [], e. Qed.

Ltac emits_step :=
  first
    [ apply emits_ret | apply emits_raise | apply emits_syscall
    | apply emits_get_file | apply emits_set_files
    | apply emits_emit; done
    | apply emits_bind; [|intros ?] ].

Ltac emits_prim :=
  repeat (emits_step || match goal with |- emits _ (match ?c with _ => _ end) => destruct c end).

Lemma emits_move_files (P : event → Prop) backup_files_dir paths : ∀ n,
  (∀ src dst, P (EvMove src dst)) → emits P (move_files paths backup_files_dir n).
Proof.
  induction paths as [|p paths IH]; intros n HP; simpl; [apply emits_ret|].
  apply emits_bind; [unfold path_exists; emits_prim|].
  intros [|]; [|by apply IH].
  apply emits_bind; [|intros _; by apply IH].
  unfold shutil_move. emits_prim.
Qed.

Lemma execute_body_closes duplicates esd_path raw_dir now :
  closes quiet (λ e, ∃ t m, e = EvShowInfo t m)
    (execute_body duplicates esd_path raw_dir now).
Proof.
  unfold execute_body. cbv zeta.
  repeat (apply closes_bind; [|intros ?]).
  all: try (by apply closes_emit; eauto).
  all: try (by apply emits_move_files).
  all: unfold log, makedirs, copy2, read_lines, open_w, write_lines; emits_prim.
Qed.

Lemma filter_quiet evs : Forall quiet evs → filter (λ e, is_dialog e = true) evs = [].
Proof.
  induction 1 as [|e evs He _ IH]; [done|].
  rewrite filter_cons_False; [done|]. unfold quiet in He. congruence.
Qed.

(** ** More on the executor *)

Lemma stage_other_files duplicates esd_path now w w' x :
  exec_stage duplicates esd_path now w w' →
  x ≠ esd_path → x ≠ backup_esd_of esd_path now →
  x ∉ map delete_path duplicates →
  x ∉ map (λ d, backup_place esd_path now (delete_path d)) duplicates →
  files w' !! x = files w !! x.
Proof.
  intros [evs Hf _ _ _|d0 msg evs _ Hf _ _ _|d0 msg evs evs' _ Hf _ _ _ _
         |d0 msg evs evs' w1 r1 w2 _ new_lines Hf1 _ _ Hmove Hf' _ _] H1 H2 H3 H4.
  - by rewrite Hf.
  - by rewrite Hf, lookup_insert_ne.
  - by rewrite Hf, !lookup_insert_ne.
  - rewrite Hf', (move_files_other _ _ _ _ _ _ x Hmove).
    + by rewrite Hf1, !lookup_insert_ne.
    + by rewrite delete_paths_elements.
    + intros p Hp E. apply H4. apply delete_paths_elements in Hp.
      apply list_elem_of_fmap in Hp as (d & -> & Hd).
      apply list_elem_of_fmap. by exists d.
Qed.

(** The two ways a run of the executor ends. *)
Lemma execute_outcome duplicates esd_path raw_dir now w r w' :
  execute_dedup_deletion duplicates esd_path raw_dir now w = (r, w') →
  r = Ok ()
  ∧ ((∃ pre t m,
        execute_body duplicates esd_path raw_dir now w = (Ok (), w')
        ∧ trace w' = trace w ++ pre ++ [EvShowInfo t m] ∧ Forall quiet pre)
     ∨ (∃ e w1 pre,
          execute_body duplicates esd_path raw_dir now w = (Raise e, w1)
          ∧ files w' = files w1
          ∧ trace w' = trace w ++ pre
              ++ [EvShowError "error" ("error during deletion: " +:+ exn_msg e);
                  EvLog ("error: " +:+ exn_msg e)]
          ∧ Forall quiet pre)).
Proof.
  intros Hrun. unfold execute_dedup_deletion, try_except in Hrun.
  destruct (execute_body duplicates esd_path raw_dir now w) as [[[]|e] w1] eqn:Hbody.
  - injection Hrun as <- <-. split; [done|]. left.
    apply execute_body_closes in Hbody as (evs & Ht & pre & ev & -> & Hpre & t & m & ->).
    by exists pre, t, m.
  - pose proof (execute_body_closes _ _ _ _ _ _ _ Hbody) as (evs & Ht & Hpre).
    handler_run Hrun. split; [done|]. right. exists e, w1, evs.
    split_and!; [done|done| |done]. by rewrite Ht, <- !(assoc_L (++)).
Qed.

(** A run that returns normally from the [try] block found the manifest. *)
Lemma execute_body_ok duplicates esd_path raw_dir now w w1 :
  execute_body duplicates esd_path raw_dir now w = (Ok (), w1) →
  is_Some (files w !! esd_path).
Proof.
  intros Hrun. unfold execute_body in Hrun. cbv zeta in Hrun.
  rewrite bind_run in Hrun. unfold log at 1 in Hrun. rewrite emit_run in Hrun.
  cbv beta iota in Hrun. rewrite bind_run, makedirs_run in Hrun.
  cbn [files trace faults] in Hrun.
  destruct (fault _) in Hrun; [done|].
  cbv beta iota in Hrun. rewrite bind_run, copy2_run in Hrun.
  cbn [files trace faults] in Hrun.
  destruct (fault _) in Hrun; [done|].
  by destruct (files w !! esd_path).
Qed.

Ltac no_fault H :=
  match goal with
  | |- context [fault ?w0] =>
      rewrite (fault_no_faults w0)
        by (unfold no_faults; cbn [faults]; repeat apply Forall_false_tail; exact H)
  end.

(** With no refusal the loop over the files runs to its end. *)
Lemma move_files_no_faults backup_files_dir paths : ∀ k w,
  no_faults w →
  ∃ n w2, move_files paths backup_files_dir k w = (Ok n, w2) ∧ no_faults w2.
Proof.
  induction paths as [|p paths IH]; intros k w Hnf; simpl.
  { by exists k, w. }
  rewrite bind_run. unfold path_exists, get_file. simpl.
  case_bool_decide as Hex; [|by apply IH].
  rewrite bind_run, shutil_move_run. no_fault Hnf.
  destruct (files w !! p) as [data|] eqn:Hp; [|by destruct Hex].
  apply IH. unfold no_faults. cbn [faults]. by apply Forall_false_tail.
Qed.

(** The steps of a run that nothing refuses. *)
Lemma execute_body_complete duplicates esd_path raw_dir now w data :
  no_faults w →
  files w !! esd_path = Some data →
  ∃ w1 n w2 msg t m,
    no_faults w1
    ∧ files w1
      = <[esd_path := PyStr.writelines (kept_lines duplicates (PyStr.readlines data))]>
          (<[esd_path := EmptyString]> (<[backup_esd_of esd_path now := data]> (files w)))
    ∧ move_files (elements (list_to_set (map delete_path duplicates) : gset string))
        (backup_files_dir_of esd_path now) 0 w1 = (Ok n, w2)
    ∧ no_faults w2
    ∧ execute_body duplicates esd_path raw_dir now w
      = (Ok (), World (files w2) (trace w2 ++ [EvLog msg; EvShowInfo t m]) (faults w2)).
Proof.
  intros Hnf Hesd.
  unfold execute_body.
  cbv zeta.
  fold (backup_root_of esd_path now).
  fold (backup_esd_of esd_path now).
  fold (backup_files_dir_of esd_path now).
  rewrite bind_run. unfold log at 1. rewrite emit_run.
  cbv beta iota. rewrite bind_run, makedirs_run.
  cbn [files trace faults]. no_fault Hnf.
  cbv beta iota. rewrite bind_run, copy2_run.
  cbn [files trace faults]. no_fault Hnf. rewrite Hesd.
  cbv beta iota. rewrite bind_run, makedirs_run.
  cbn [files trace faults]. no_fault Hnf.
  cbv beta iota. rewrite bind_run. unfold log at 1.
  rewrite emit_run. cbv beta iota.
  rewrite bind_run, read_lines_run. cbn [files trace faults].
  no_fault Hnf.
  rewrite lookup_insert_ne by apply BackupPaths.backup_esd_ne. rewrite Hesd.
  cbv beta iota. rewrite bind_run, open_w_run.
  cbn [files trace faults]. no_fault Hnf.
  cbv beta iota. rewrite bind_run, write_lines_run.
  cbn [files trace faults]. no_fault Hnf.
  cbv beta iota. rewrite bind_run.
  rewrite rebuild_kept_lines.
  match goal with
  | |- context [move_files ?ps ?d 0 ?w1] =>
      destruct (move_files_no_faults d ps 0 w1) as (n & w2 & Hmove & Hnf2);
        [unfold no_faults; cbn [faults]; repeat apply Forall_false_tail; exact Hnf|];
      exists w1, n, w2
  end.
  rewrite Hmove. cbv beta iota. unfold showinfo, log.
  rewrite ?bind_run, ?emit_run. cbv beta iota.
  rewrite ?bind_run, ?emit_run. cbv beta iota.
  cbn [files trace faults].
  eexists _, _, _. split_and!; [|done|done|done|].
  - unfold no_faults. cbn [faults]. by repeat apply Forall_false_tail.
  - by rewrite <- (assoc_L (++)).
Qed.

(** A path the loop went through is free afterwards, unless a file was
    moved onto it. *)
Lemma move_files_gone backup_files_dir paths : ∀ k w n w2 p,
  NoDup paths →
  move_files paths backup_files_dir k w = (Ok n, w2) →
  p ∈ paths →
  (∀ q, q ∈ paths → OsPath.join backup_files_dir (OsPath.basename q) ≠ p) →
  files w2 !! p = None.
Proof.
  induction paths as [|q paths IH]; intros k w n w2 p Hnd Hrun Hp Hdst.
  { by apply elem_of_nil in Hp. }
  apply NoDup_cons in Hnd as [Hq Hnd].
  assert (∀ x, x ∈ paths → OsPath.join backup_files_dir (OsPath.basename x) ≠ p) as Hdst'.
  { intros x Hx. apply Hdst. by right. }
  simpl in Hrun. rewrite bind_run in Hrun. unfold path_exists, get_file in Hrun.
  simpl in Hrun. case_bool_decide as Hex.
  - rewrite bind_run, shutil_move_run in Hrun.
    destruct (fault w); [done|].
    destruct (files w !! q) as [data|] eqn:Hfq; [|done].
    apply elem_of_cons in Hp as [->|Hp]; [|by eapply IH].
    rewrite (move_files_other _ _ _ _ _ _ q Hrun Hq Hdst'). simpl.
    rewrite lookup_insert_ne by (apply Hdst; left). by rewrite lookup_delete_eq.
  - apply elem_of_cons in Hp as [->|Hp]; [|by eapply IH].
    rewrite (move_files_other _ _ _ _ _ _ q Hrun Hq Hdst').
    destruct (files w !! q) eqn:Hfq; [|done]. by destruct Hex.
Qed.

Section executor_extras.
Variables (duplicates : list candidate) (esd_path raw_dir : string) (now : datetime).

(** X1: the executor changes no file but the manifest, its backup copy,
    the delete paths of the candidates and the places in the backup
    folder the moved files go to; this holds for interrupted runs too. *)
Theorem executor_leaves_other_files w r w' x :
  execute_dedup_deletion duplicates esd_path raw_dir now w = (r, w') →
  x ≠ esd_path →
  x ≠ backup_esd_of esd_path now →
  x ∉ map delete_path duplicates →
  x ∉ map (λ d, backup_place esd_path now (delete_path d)) duplicates →
  files w' !! x = files w !! x.
Proof. intros Hrun. eapply stage_other_files, execute_stage, Hrun. Qed.

(** X2: the executor never lets an exception out and ends with exactly
    one message box, asking nothing: the completion box when every step
    succeeded, else the error box with the text of the exception, followed
    by a log entry. *)
Theorem executor_always_reports w :
  (execute_dedup_deletion duplicates esd_path raw_dir now w).1 = Ok ()
  ∧ ∃ evs,
      trace (execute_dedup_deletion duplicates esd_path raw_dir now w).2 = trace w ++ evs
      ∧ ((∃ w1 t m,
            execute_body duplicates esd_path raw_dir now w = (Ok (), w1)
            ∧ filter (λ e, is_dialog e = true) evs = [EvShowInfo t m]
            ∧ last evs = Some (EvShowInfo t m))
         ∨ (∃ e w1,
              execute_body duplicates esd_path raw_dir now w = (Raise e, w1)
              ∧ filter (λ e, is_dialog e = true) evs
                = [EvShowError "error" ("error during deletion: " +:+ exn_msg e)]
              ∧ last evs = Some (EvLog ("error: " +:+ exn_msg e)))).
Proof.
  destruct (execute_dedup_deletion duplicates esd_path raw_dir now w) as [r w'] eqn:Hrun.
  destruct (execute_outcome _ _ _ _ _ _ _ Hrun)
    as [-> [(pre & t & m & Hb & Ht & Hpre)|(e & w1 & pre & Hb & _ & Ht & Hpre)]];
    (split; [done|]); simpl.
  - exists (pre ++ [EvShowInfo t m]). split; [done|]. left. exists w', t, m.
    split_and!; [done| |by rewrite last_snoc].
    by rewrite filter_app, filter_quiet.
  - eexists. split; [exact Ht|]. right. exists e, w1.
    split_and!; [done| |].
    + by rewrite filter_app, filter_quiet.
    + by rewrite last_app.
Qed.

(** X3: when the manifest is missing, the executor changes no file: it
    shows the error box and returns. *)
Theorem missing_manifest_changes_nothing w r w' :
  files w !! esd_path = None →
  execute_dedup_deletion duplicates esd_path raw_dir now w = (r, w') →
  r = Ok ()
  ∧ files w' = files w
  ∧ ∃ evs msg,
      trace w' = trace w ++ evs
      ∧ filter (λ e, is_dialog e = true) evs = [EvShowError "error" msg].
Proof.
  intros Hesd Hrun.
  destruct (execute_outcome _ _ _ _ _ _ _ Hrun)
    as [-> [(pre & t & m & Hb & _)|(e & w1 & pre & Hb & _ & Ht & Hpre)]].
  { apply execute_body_ok in Hb as [? ?]. congruence. }
  split; [done|]. split.
  - destruct (execute_stage _ _ _ _ _ _ _ Hrun)
      as [evs Hf _ _ _|d0 msg evs ? _ _ _ _|d0 msg evs evs' ? _ _ _ _ _
         |d0 msg evs evs' w1' r1 w2 ? _ _ _ _ _ _ _ _]; [done|congruence..].
  - eexists _, _. split; [exact Ht|]. by rewrite filter_app, filter_quiet.
Qed.


(** X5: after a run that nothing refuses, no confirmed delete path holds
    a file any more, provided no delete path is itself a place in the new
    backup folder. *)
Theorem confirmed_files_leave_their_place w r w' d :
  no_faults w →
  is_Some (files w !! esd_path) →
  (∀ c, c ∈ duplicates →
     backup_place esd_path now (delete_path c) ∉ map delete_path duplicates) →
  execute_dedup_deletion duplicates esd_path raw_dir now w = (r, w') →
  d ∈ duplicates →
  files w' !! delete_path d = None.
Proof.
  intros Hnf [data Hesd] Hplace Hrun Hd.
  destruct (execute_body_complete duplicates esd_path raw_dir now w data Hnf Hesd)
    as (w1 & n & w2 & msg & t & m & _ & _ & Hmove & _ & Hbody).
  unfold execute_dedup_deletion, try_except in Hrun. rewrite Hbody in Hrun.
  injection Hrun as <- <-. simpl.
  pose proof (NoDup_elements (list_to_set (map delete_path duplicates) : gset string))
    as Hnd.
  eapply move_files_gone; [exact Hnd|exact Hmove| |].
  - apply delete_paths_elements, list_elem_of_fmap. by exists d.
  - intros q Hq E. apply delete_paths_elements in Hq.
    apply list_elem_of_fmap in Hq as (c & -> & Hc).
    apply (Hplace c Hc). unfold backup_place. rewrite E.
    apply list_elem_of_fmap. by exists d.
Qed.

(** X6: when the operator answers no to the warning, the commit does
    nothing but ask: no file changes, no window closes, the executor is
    not called. *)
Theorem declined_commit_changes_nothing w d :
  d ∈ duplicates → selected d = true →
  ∃ title msg,
    do_delete duplicates esd_path raw_dir false now w
    = (Ok (), World (files w) (trace w ++ [EvAskYesNo title msg false]) (faults w)).
Proof.
  intros Hd Hsel. unfold do_delete. cbv zeta.
  destruct (length (filter (λ d0, selected d0 = true) duplicates) =? 0) eqn:Hcount.
  - apply Nat.eqb_eq, length_zero_iff_nil in Hcount.
    assert (d ∈ filter (λ d0, selected d0 = true) duplicates) as Hin
      by (by apply list_elem_of_filter).
    rewrite Hcount in Hin. by apply elem_of_nil in Hin.
  - by eexists _, _.
Qed.


End executor_extras.

(** ** The result window *)

Lemma toggle_toggle d : toggle_selected (toggle_selected d) = d.
Proof. destruct d. unfold toggle_selected. simpl. by rewrite negb_involutive. Qed.

Lemma click_lookup i j rows :
  on_dedup_tree_click i rows !! j
  = if decide (i = j) then toggle_selected <$> rows !! j else rows !! j.
Proof.
  unfold on_dedup_tree_click. rewrite list_lookup_alter. case_decide; by subst.
Qed.

Lemma clicks_on_lookup clicks : ∀ rows j r,
  rows !! j = Some r →
  clicks_on clicks rows !! j
  = Some (if Nat.even (count_occ Nat.eq_dec clicks j) then r else toggle_selected r).
Proof.
  induction clicks as [|i clicks IH]; intros rows j r Hr; [done|].
  unfold clicks_on. simpl. fold (clicks_on clicks (on_dedup_tree_click i rows)).
  destruct (Nat.eq_dec i j) as [->|Hne].
  - rewrite (IH _ j (toggle_selected r)).
    + rewrite Nat.even_succ, <- Nat.negb_even.
      destruct (Nat.even _); simpl; [done|by rewrite toggle_toggle].
    + rewrite click_lookup, decide_True by done. by rewrite Hr.
  - apply IH. by rewrite click_lookup, decide_False.
Qed.

(** X8: in the result window every row starts ticked, a click on the
    check column flips the row it hits and no other, and nothing but the
    tick changes: after any series of clicks a row is ticked exactly when
    it was clicked an even number of times. *)
Theorem row_ticked_iff_even_clicks duplicates clicks j d :
  duplicates !! j = Some d →
  ∃ row,
    clicks_on clicks (map tick_row duplicates) !! j = Some row
    ∧ selected row = Nat.even (count_occ Nat.eq_dec clicks j)
    ∧ (text row, keep_file row, keep_path row, keep_line row)
      = (text d, keep_file d, keep_path d, keep_line d)
    ∧ (delete_file row, delete_path row, delete_line row)
      = (delete_file d, delete_path d, delete_line d)
    ∧ length (clicks_on clicks (map tick_row duplicates)) = length duplicates.
Proof.
  intros Hd. eexists. split.
  { apply clicks_on_lookup. by rewrite list_lookup_fmap, Hd. }
  split_and!; try by destruct (Nat.even _).
  clear. revert duplicates. induction clicks as [|i clicks IH]; intros duplicates.
  { apply length_map. }
  unfold clicks_on. simpl.
  assert (∀ rows, length (clicks_on clicks rows) = length rows) as Hlen.
  { clear. induction clicks as [|i clicks IH]; intros rows; [done|].
    unfold clicks_on. simpl. fold (clicks_on clicks (on_dedup_tree_click i rows)).
    rewrite IH. unfold on_dedup_tree_click. apply length_alter. }
  fold (clicks_on clicks (on_dedup_tree_click i (map tick_row duplicates))).
  rewrite Hlen. unfold on_dedup_tree_click. by rewrite length_alter, length_map.
Qed.

(** ** The file-name cache *)

Section cache_extras.
Variable os_walk : string → list (string * list string).
Variable raw_dir : string.

(** X9: [find_audio_path] answers from the cache when it can, else with
    the first match of the walk, which it stores; it never changes or
    drops an entry; asked again, it gives the same answer and leaves the
    cache as it is; a miss changes nothing. *)
Theorem find_audio_path_memoises filename cache :
  let '(found, cache') := find_audio_path os_walk raw_dir filename cache in
  found = resolve os_walk raw_dir cache filename
  ∧ cache ⊆ cache'
  ∧ (∀ f, f ≠ filename → cache' !! f = cache !! f)
  ∧ find_audio_path os_walk raw_dir filename cache' = (found, cache')
  ∧ match found with
    | Some path => cache' !! filename = Some path
    | None =>
        cache' = cache
        ∧ ∀ root names, (root, names) ∈ os_walk raw_dir → filename ∉ names
    end.
Proof.
  unfold find_audio_path, resolve.
  destruct (cache !! filename) as [path|] eqn:Hc.
  { rewrite ?Hc. by split_and!. }
  destruct (walk_find (os_walk raw_dir) filename) as [path|] eqn:Hw.
  - rewrite ?lookup_insert_eq. split_and!; try done.
    + by apply insert_subseteq.
    + intros f Hf. by rewrite lookup_insert_ne.
  - rewrite ?Hc, ?Hw. split_and!; try done.
    clear Hc. induction (os_walk raw_dir) as [|[root' names'] walk IH]; intros root names.
    { by intros ?%elem_of_nil. }
    simpl in Hw. case_bool_decide as Hin; [done|].
    intros [[= -> ->]|?]%elem_of_cons; [done|by eapply IH].
Qed.

Lemma cache_extends_refl cache : cache_extends os_walk raw_dir cache cache.
Proof. split; [done|]. intros f p ?. by left. Qed.

Lemma cache_extends_trans c1 c2 c3 :
  cache_extends os_walk raw_dir c1 c2 → cache_extends os_walk raw_dir c2 c3 →
  cache_extends os_walk raw_dir c1 c3.
Proof.
  intros [Hs1 Hn1] [Hs2 Hn2]. split; [by etrans|].
  intros f p [Hp|[Hnone Hw]]%Hn2; [by apply Hn1|].
  right. split; [|done].
  destruct (c1 !! f) as [q|] eqn:Hq; [|done].
  eapply lookup_weaken in Hq; [|exact Hs1]. congruence.
Qed.

Lemma find_audio_path_extends filename cache found cache' :
  find_audio_path os_walk raw_dir filename cache = (found, cache') →
  cache_extends os_walk raw_dir cache cache'.
Proof.
  unfold find_audio_path.
  destruct (cache !! filename) as [path|] eqn:Hc.
  { intros [= <- <-]. apply cache_extends_refl. }
  destruct (walk_find (os_walk raw_dir) filename) as [path|] eqn:Hw.
  2:{ intros [= <- <-]. apply cache_extends_refl. }
  intros [= <- <-]. split; [by apply insert_subseteq|].
  intros f p. destruct (decide (f = filename)) as [->|Hne].
  - rewrite lookup_insert_eq. intros [= <-]. by right.
  - rewrite lookup_insert_ne by done. by left.
Qed.

End cache_extras.

(** ** More on the grouping pass *)

Lemma NoDup_fmap_elem_inj {A B} (f : A → B) (l : list A) x y :
  NoDup (f <$> l) → x ∈ l → y ∈ l → f x = f y → x = y.
Proof.
  induction l as [|a l IH]; [by intros _ ?%elem_of_nil|].
  rewrite fmap_cons. intros [Ha Hnd]%NoDup_cons Hx Hy E.
  apply elem_of_cons in Hx as [->|Hx]; apply elem_of_cons in Hy as [->|Hy].
  - done.
  - destruct Ha. rewrite E. apply list_elem_of_fmap. by exists y.
  - destruct Ha. rewrite <- E. apply list_elem_of_fmap. by exists x.
  - by apply IH.
Qed.

Lemma filter_NoDup_fmap_length {A B} `{EqDecision B} (f : A → B) (l : list A) t :
  NoDup (f <$> l) → length (filter (λ x, f x = t) l) ≤ 1.
Proof.
  induction l as [|a l IH]; [simpl; lia|].
  rewrite fmap_cons. intros [Ha Hnd]%NoDup_cons.
  destruct (decide (f a = t)) as [E|E].
  - rewrite filter_cons_True by done.
    destruct (filter (λ x, f x = t) l) as [|x xs] eqn:Hf; [simpl; lia|].
    assert (x ∈ filter (λ x, f x = t) l) as Hx by (rewrite Hf; left).
    apply list_elem_of_filter in Hx as [Hx1 Hx2]. destruct Ha.
    rewrite E, <- Hx1. apply list_elem_of_fmap. by exists x.
  - rewrite filter_cons_False by done. by apply IH.
Qed.

Lemma NoDup_split_unique {A} (a a' r r' : list A) k :
  NoDup (a ++ k :: r) → a ++ k :: r = a' ++ k :: r' → a = a'.
Proof.
  revert a'. induction a as [|x a IH]; intros a' Hnd E.
  - destruct a' as [|y a']; [done|]. simpl in E. injection E as <- E.
    simpl in Hnd. apply NoDup_cons in Hnd as [Hk _]. destruct Hk.
    rewrite E. apply elem_of_app. right. left.
  - simpl in Hnd. apply NoDup_cons in Hnd as [Hx Hnd].
    destruct a' as [|y a']; simpl in E.
    + injection E as -> E. destruct Hx. apply elem_of_app. right. left.
    + injection E as <- E. f_equal. by apply IH.
Qed.

Section analysis_extras.
Context `{AudioLib}.
Variable os_walk : string → list (string * list string).
Variable fs : gmap string string.
Variables (raw_dir : string) (top_db hash_sr q_levels : Z).

Lemma scan_group_extends group : ∀ hf dupes cache r cache',
  scan_group os_walk fs raw_dir top_db hash_sr q_levels group hf dupes cache = (r, cache') →
  cache_extends os_walk raw_dir cache cache'.
Proof.
  induction group as [|x group IH]; intros hf dupes cache r cache'; simpl.
  { intros [= <- <-]. apply cache_extends_refl. }
  destruct (find_audio_path os_walk raw_dir (OsPath.basename (rec_file x)) cache)
    as [found cache1] eqn:Hf.
  apply find_audio_path_extends in Hf.
  destruct (truthy found) as [audio_path|].
  2:{ intros ?%IH. by eapply cache_extends_trans. }
  destruct (audio_content_hash fs audio_path 16000 top_db hash_sr q_levels) as [h|].
  2:{ intros ?%IH. by eapply cache_extends_trans. }
  destruct (hf !! h); intros ?%IH; by eapply cache_extends_trans.
Qed.

Lemma scan_groups_extends groups : ∀ acc cache r cache',
  scan_groups os_walk fs raw_dir top_db hash_sr q_levels groups acc cache = (r, cache') →
  cache_extends os_walk raw_dir cache cache'.
Proof.
  induction groups as [|[t group] groups IH]; intros acc cache r cache'; simpl.
  { intros [= <- <-]. apply cache_extends_refl. }
  destruct (length group <? 2); [apply IH|].
  destruct (scan_group os_walk fs raw_dir top_db hash_sr q_levels group ∅ [] cache)
    as [dupes cache1] eqn:Hg.
  apply scan_group_extends in Hg. intros ?%IH. by eapply cache_extends_trans.
Qed.

(** X10: a pass only adds to the file-name cache: every entry it found
    stays, a new entry is the first match of the walk for a name the
    cache did not hold; names resolve after the pass as they did before,
    and a cache whose paths end in their key stays so. *)
Theorem analysis_extends_cache esd_path cache r cache' :
  run_dedup_analysis os_walk fs raw_dir top_db hash_sr q_levels esd_path cache = (r, cache') →
  cache_extends os_walk raw_dir cache cache'
  ∧ (∀ f, resolve os_walk raw_dir cache' f = resolve os_walk raw_dir cache f)
  ∧ (cache_wf cache → cache_wf cache')
  ∧ (first_match_cache os_walk raw_dir cache → first_match_cache os_walk raw_dir cache').
Proof.
  intros Hrun.
  assert (cache_extends os_walk raw_dir cache cache') as Hext.
  { unfold run_dedup_analysis in Hrun. destruct (fs !! esd_path) as [content|].
    - destruct (scan_groups os_walk fs raw_dir top_db hash_sr q_levels
                  (text_groups (read_records (PyStr.readlines content))) [] cache)
        as [dupes cache1] eqn:Hg.
      injection Hrun as _ <-. by eapply scan_groups_extends.
    - injection Hrun as _ <-. apply cache_extends_refl. }
  split; [done|].
  assert ((∀ f, resolve os_walk raw_dir cache' f = resolve os_walk raw_dir cache f)
          ∧ (cache_wf cache → cache_wf cache')) as [Hres Hwf].
  { destruct (fs !! esd_path) as [content|] eqn:Hesd.
    - destruct (run_dedup_analysis_candidates os_walk fs raw_dir top_db hash_sr q_levels
                  (resolve os_walk raw_dir cache) esd_path content cache Hesd)
        as (c1 & Hrun1 & ? & ?); [done|].
      rewrite Hrun1 in Hrun. by injection Hrun as _ <-.
    - rewrite run_dedup_analysis_unreadable in Hrun by done. by injection Hrun as _ <-. }
  split_and!; [done|done|].
  intros Hfirst f p Hp. destruct Hext as [_ Hnew].
  destruct (Hnew f p Hp) as [?|[_ ?]]; [by apply Hfirst|done].
Qed.

Lemma scan_groups_skip groups : ∀ acc cache,
  Forall (λ tg : string * list rec, length tg.2 < 2) groups →
  scan_groups os_walk fs raw_dir top_db hash_sr q_levels groups acc cache = (acc, cache).
Proof.
  induction groups as [|[t group] groups IH]; intros acc cache Hall; [done|].
  apply Forall_cons in Hall as [Hlen Hall]. simpl in *.
  apply Nat.ltb_lt in Hlen as ->. by apply IH.
Qed.

(** X11: when no two entries of the manifest have the same transcript,
    the pass proposes nothing and looks no file up: the cache is left as
    it was. *)
Theorem distinct_transcripts_yield_nothing esd_path content cache :
  fs !! esd_path = Some content →
  NoDup (rec_text <$> read_records (PyStr.readlines content)) →
  run_dedup_analysis os_walk fs raw_dir top_db hash_sr q_levels esd_path cache
  = (Some [], cache).
Proof.
  intros Hesd Hnd. unfold run_dedup_analysis. rewrite Hesd.
  rewrite scan_groups_skip; [done|].
  apply Forall_forall. intros [t g] Hin. simpl.
  destruct (text_groups_groups_of (read_records (PyStr.readlines content)))
    as (_ & Hg & _).
  destruct (Hg _ _ Hin) as [-> _].
  pose proof (filter_NoDup_fmap_length rec_text _ t Hnd). lia.
Qed.

Abbreviation fp_at cache :=
  (entry_fingerprint fs top_db hash_sr q_levels (resolve os_walk raw_dir cache)).
Abbreviation first_at cache :=
  (first_with fs top_db hash_sr q_levels (resolve os_walk raw_dir cache)).

(** The audio path of an entry ends in the entry's file name. *)
Lemma fingerprint_basename cache r p h :
  cache_wf cache → fp_at cache r = Some (p, h) →
  OsPath.basename p = OsPath.basename (rec_file r) ∧ p ≠ EmptyString.
Proof.
  intros Hwf. unfold entry_fingerprint.
  destruct (resolve os_walk raw_dir cache (OsPath.basename (rec_file r)))
    as [path|] eqn:Hr; simpl; [|done].
  destruct (PyStr.is_empty path) eqn:He; [done|].
  destruct (audio_content_hash fs path 16000 top_db hash_sr q_levels); [|done].
  intros [= <- _]. split.
  - by apply (resolve_basename _ _ _ _ _ Hwf (StrFacts.basename_no_sep _) Hr).
  - by intros ->.
Qed.

Lemma first_with_in_prefix cache h a rest x p :
  x ∈ a → fp_at cache x = Some (p, h) →
  ∃ y q, first_at cache h (a ++ rest) = Some (y, q) ∧ y ∈ a.
Proof.
  induction a as [|x0 a IH]; [by intros ?%elem_of_nil|].
  intros Hx Hfp. simpl.
  destruct (fp_at cache x0) as [[p0 h0]|] eqn:H0.
  - destruct (String.eqb h0 h) eqn:E.
    + exists x0, p0. split; [done|left].
    + apply elem_of_cons in Hx as [->|Hx].
      * rewrite Hfp in H0. injection H0 as _ <-. by rewrite String.eqb_refl in E.
      * destruct (IH Hx Hfp) as (y & q & ? & ?). exists y, q. split; [done|by right].
  - apply elem_of_cons in Hx as [->|Hx]; [congruence|].
    destruct (IH Hx Hfp) as (y & q & ? & ?). exists y, q. split; [done|by right].
Qed.

(** X12: when every audio file is listed once in the manifest (the file
    names of the entries are pairwise distinct), the file a candidate
    keeps is never the file another candidate, or the same, deletes. *)
Theorem kept_audio_is_no_delete_path esd_path content cache cands cache' c c' :
  fs !! esd_path = Some content →
  cache_wf cache →
  NoDup ((λ r, OsPath.basename (rec_file r)) <$> read_records (PyStr.readlines content)) →
  run_dedup_analysis os_walk fs raw_dir top_db hash_sr q_levels esd_path cache
    = (Some cands, cache') →
  c ∈ cands → c' ∈ cands →
  keep_path c ≠ delete_path c'.
Proof.
  intros Hesd Hwf Hnd Hrun Hc Hc' E.
  destruct (run_dedup_analysis_candidates os_walk fs raw_dir top_db hash_sr q_levels
              (resolve os_walk raw_dir cache) esd_path content cache Hesd)
    as (cache1 & Hrun1 & _); [done|].
  rewrite Hrun1 in Hrun. injection Hrun as <- <-.
  apply manifest_candidates_elem in Hc
    as (t & g & k & kp & d & dp & h & pre & post & Hg & -> & Hd & Hk & ->).
  apply manifest_candidates_elem in Hc'
    as (t' & g' & k' & kp' & d' & dp' & h' & pre' & post' & Hg' & -> & Hd' & Hk' & ->).
  simpl in E. subst dp'.
  set (records := read_records (PyStr.readlines content)) in *.
  destruct (first_with_fingerprint _ _ _ _ _ _ _ _ _ Hk) as [Hfk Hkin].
  destruct (first_with_fingerprint _ _ _ _ _ _ _ _ _ Hk') as [Hfk' Hkin'].
  destruct (fingerprint_basename _ _ _ _ Hwf Hfk) as [Hbk _].
  destruct (fingerprint_basename _ _ _ _ Hwf Hd') as [Hbd' _].
  assert (k ∈ pre ++ d :: post) as Hkg by (apply elem_of_app; by left).
  assert (d' ∈ pre' ++ d' :: post') as Hdg' by (apply elem_of_app; right; left).
  destruct (text_groups_elem _ _ _ _ Hg Hkg) as [Hkr Hkt].
  destruct (text_groups_elem _ _ _ _ Hg' Hdg') as [Hdr Hdt].
  assert (k = d') as <-.
  { apply (NoDup_fmap_elem_inj (λ r, OsPath.basename (rec_file r)) records); try done.
    simpl. congruence. }
  rewrite Hfk in Hd'. injection Hd' as <-.
  assert (t' = t) as -> by congruence.
  destruct (text_groups_groups_of records) as (_ & Hgroups & _).
  destruct (Hgroups _ _ Hg) as [Eg _]. destruct (Hgroups _ _ Hg') as [Eg' _].
  assert (NoDup (pre ++ d :: post)) as Hndg.
  { rewrite Eg. apply NoDup_filter. by apply NoDup_fmap_1 in Hnd. }
  apply list_elem_of_split in Hkin as (a & b & ->).
  rewrite <- (assoc_L (++)) in Hndg, Eg. simpl in Hndg, Eg.
  assert (a = pre') as ->.
  { eapply NoDup_split_unique; [exact Hndg|]. by rewrite Eg, <- Eg'. }
  destruct (first_with_in_prefix cache h pre' (k :: b) k' kp' Hkin' Hfk')
    as (y & q & Hy & Hyin).
  rewrite Hk in Hy. injection Hy as <- <-.
  apply NoDup_app in Hndg as (_ & Hdisj & _). apply (Hdisj k Hyin). left.
Qed.

(** X13: every candidate of a pass is ticked, and the two file names it
    shows are the last components of the two paths it holds; neither
    path is empty. *)
Theorem candidate_names_match_paths esd_path cache cands cache' c :
  cache_wf cache →
  run_dedup_analysis os_walk fs raw_dir top_db hash_sr q_levels esd_path cache
    = (Some cands, cache') →
  c ∈ cands →
  selected c = true
  ∧ OsPath.basename (keep_path c) = keep_file c
  ∧ OsPath.basename (delete_path c) = delete_file c
  ∧ keep_path c ≠ EmptyString
  ∧ delete_path c ≠ EmptyString.
Proof.
  intros Hwf Hrun Hc.
  destruct (fs !! esd_path) as [content|] eqn:Hesd.
  2:{ by rewrite run_dedup_analysis_unreadable in Hrun. }
  destruct (candidate_records _ _ _ _ _ _ _ _ _ _ _ _ Hesd Hrun Hc)
    as (k & d & kp & dp & h & _ & _ & _ & _ & Hk & Hd & ->).
  destruct (fingerprint_basename _ _ _ _ Hwf Hk) as [? ?].
  destruct (fingerprint_basename _ _ _ _ Hwf Hd) as [? ?].
  by simpl.
Qed.

End analysis_extras.

(** ** The cache that [load_preview] builds *)

Lemma walk_find_app walk1 walk2 name :
  walk_find (walk1 ++ walk2) name
  = match walk_find walk1 name with
    | Some p => Some p
    | None => walk_find walk2 name
    end.
Proof.
  induction walk1 as [|[root names] walk1 IH]; [done|]. simpl.
  by case_bool_decide.
Qed.

Lemma preview_add_lookup root names : ∀ m name,
  preview_add root names m !! name
  = if is_audio_name name && bool_decide (name ∈ names)
    then Some (OsPath.join root name) else m !! name.
Proof.
  induction names as [|n names IH]; intros m name; simpl.
  { by rewrite andb_false_r. }
  rewrite IH. destruct (decide (name = n)) as [->|Hne].
  - rewrite (bool_decide_eq_true_2 (n ∈ n :: names)) by left.
    rewrite andb_true_r. destruct (is_audio_name n); simpl; [|done].
    case_bool_decide; [done|]. by rewrite lookup_insert_eq.
  - assert (bool_decide (name ∈ n :: names) = bool_decide (name ∈ names)) as ->.
    { apply bool_decide_ext. rewrite elem_of_cons. split; [by intros [?|?]|by right]. }
    destruct (is_audio_name name && bool_decide (name ∈ names)); [done|].
    destruct (is_audio_name n); [|done]. by rewrite lookup_insert_ne.
Qed.

Lemma preview_map_lookup walk : ∀ m name,
  preview_map walk m !! name
  = if is_audio_name name
    then match walk_find (reverse walk) name with
         | Some p => Some p
         | None => m !! name
         end
    else m !! name.
Proof.
  induction walk as [|[root names] walk IH]; intros m name; simpl.
  { by destruct (is_audio_name name). }
  rewrite IH, reverse_cons, walk_find_app, preview_add_lookup. simpl.
  destruct (is_audio_name name); simpl; [|done].
  destruct (walk_find (reverse walk) name); [done|]. by case_bool_decide.
Qed.

(** X14: the cache that [load_preview] rebuilds maps a name to the last
    folder of the walk that lists it, for the names that end in [.wav],
    [.ogg] or [.mp3], and holds no other name. *)
Theorem load_preview_map_is_last_match walk name :
  load_preview_map walk !! name
  = if is_audio_name name then walk_find (reverse walk) name else None.
Proof.
  unfold load_preview_map. rewrite preview_map_lookup, lookup_empty.
  destruct (is_audio_name name); [|done]. by destruct (walk_find (reverse walk) name).
Qed.

(** ** The button that starts the check *)

Lemma exists_path_run isdir path w :
  exists_path isdir path w
  = (Ok (bool_decide (is_Some (files w !! path)) || isdir path), w).
Proof. reflexivity. Qed.

(** X15: the check is started only when the dataset folder is named and
    exists, the manifest and the audio folder exist in it, the three
    parameters are numbers and the operator said yes; in every other
    case the button shows one box (an error, or the question answered
    no) and starts nothing.  No file changes, no exception escapes. *)
Theorem start_dedup_check_guards isdir dataset_root params answer w :
  let present path := is_Some (files w !! path) ∨ isdir path = true in
  let '(r, w') := start_dedup_check isdir dataset_root params answer w in
  files w' = files w
  ∧ match r with
    | Ok (Some (esd_path, raw_dir, p_top_db, p_hash_sr, p_q_levels)) =>
        dataset_root ≠ EmptyString
        ∧ present dataset_root ∧ present esd_path ∧ present raw_dir
        ∧ esd_path = OsPath.join dataset_root "esd.list"
        ∧ raw_dir = OsPath.join dataset_root "raw"
        ∧ params = Some (p_top_db, p_hash_sr, p_q_levels)
        ∧ answer = true
        ∧ ∃ t m l, trace w' = trace w ++ [EvAskYesNo t m true; EvLog l]
    | Ok None =>
        (∃ t m, trace w' = trace w ++ [EvShowError t m])
        ∨ (answer = false ∧ ∃ t m, trace w' = trace w ++ [EvAskYesNo t m false])
    | Raise _ => False
    end.
Proof.
  assert (∀ path, bool_decide (is_Some (files w !! path)) || isdir path = true →
                  is_Some (files w !! path) ∨ isdir path = true) as Hpresent.
  { intros path [?%bool_decide_eq_true|?]%orb_true_iff; [by left|by right]. }
  intros present. unfold start_dedup_check.
  rewrite bind_run, exists_path_run. cbv beta iota.
  destruct (PyStr.is_empty dataset_root) eqn:Hempty.
  { rewrite orb_true_l. split; [done|]. left. by eexists _, _. }
  rewrite orb_false_l.
  destruct (bool_decide _ || isdir dataset_root) eqn:Hroot; cbn [negb]; cbv iota.
  2:{ split; [done|]. left. by eexists _, _. }
  rewrite bind_run, exists_path_run. cbv beta iota.
  rewrite bind_run, exists_path_run. cbv beta iota.
  destruct (bool_decide _ || isdir (OsPath.join dataset_root "esd.list")) eqn:Hesd.
  2:{ simpl. split; [done|]. left. by eexists _, _. }
  destruct (bool_decide _ || isdir (OsPath.join dataset_root "raw")) eqn:Hraw.
  2:{ simpl. split; [done|]. left. by eexists _, _. }
  cbn [negb orb]. cbv iota.
  destruct params as [[[p1 p2] p3]|].
  2:{ split; [done|]. left. by eexists _, _. }
  destruct answer; simpl.
  - split; [done|]. split_and!; try done; try by apply Hpresent.
    + by intros ->.
    + eexists _, _, _. by rewrite <- (assoc_L (++)).
  - split; [done|]. right. split; [done|]. by eexists _, _.
Qed.

Lemma head_of_app_sep a b :
  OsPath.has_sep b = false →
  OsPath.head_of (a +:+ String OsPath.SEP b) = a +:+ String OsPath.SEP EmptyString.
Proof.
  intros Hb. induction a as [|c a IH].
  - rewrite !StrFacts.app_nil_l. simpl. by rewrite Hb.
  - rewrite !StrFacts.app_cons. simpl. rewrite StrFacts.has_sep_app. simpl.
    rewrite orb_true_r. by rewrite IH.
Qed.

Lemma all_sep_ends a :
  OsPath.all_sep a = true → a = EmptyString ∨ OsPath.ends_with_sep a = true.
Proof.
  induction a as [|c a IH]; [by left|]. simpl.
  intros [Hc [->|Ha]%IH]%andb_true_iff; right; [done|]. by destruct a.
Qed.

Lemma rstrip_sep_app a :
  a ≠ EmptyString → OsPath.ends_with_sep a = false →
  PyStr.rstrip_by OsPath.is_sep (a +:+ String OsPath.SEP EmptyString) = a.
Proof.
  induction a as [|c a IH]; [done|]. intros _ Hends.
  rewrite StrFacts.app_cons. simpl. destruct a as [|d a].
  - rewrite StrFacts.app_nil_l. simpl. simpl in Hends. by rewrite Hends.
  - rewrite IH; [by rewrite andb_false_r|done|done].
Qed.

(** X16: for a dataset folder named without a trailing separator, the
    manifest that the start button passes on lies directly in it, so the
    executor creates its backup folder directly in the dataset folder:
    [<dataset_root>/backup_dedup_<YYYYMMDD_HHMMSS>]. *)
Theorem backup_lies_in_dataset_root dataset_root now :
  dataset_root ≠ EmptyString →
  OsPath.ends_with_sep dataset_root = false →
  OsPath.dirname (OsPath.join dataset_root "esd.list") = dataset_root
  ∧ backup_root_of (OsPath.join dataset_root "esd.list") now
    = dataset_root +:+ "/backup_dedup_" +:+ strftime now
  ∧ backup_files_dir_of (OsPath.join dataset_root "esd.list") now
    = dataset_root +:+ "/backup_dedup_" +:+ strftime now +:+ "/deleted_files".
Proof.
  intros Hne Hends.
  assert (OsPath.dirname (OsPath.join dataset_root "esd.list") = dataset_root) as Hdir.
  { rewrite StrFacts.join_no_sep by done. rewrite Hends.
    destruct dataset_root as [|c root] eqn:E; [done|]. rewrite <- E in *.
    replace (PyStr.is_empty dataset_root) with false by (by rewrite E).
    simpl orb. cbv iota. unfold OsPath.dirname.
    rewrite head_of_app_sep by done.
    assert (OsPath.all_sep (dataset_root +:+ String OsPath.SEP EmptyString) = false) as ->.
    { destruct (OsPath.all_sep (dataset_root +:+ String OsPath.SEP EmptyString)) eqn:Hall;
        [|done].
      assert (OsPath.all_sep dataset_root = true) as Hall'.
      { clear -Hall. induction dataset_root as [|c a IH]; [done|].
        rewrite StrFacts.app_cons in Hall. simpl in *.
        apply andb_true_iff in Hall as [-> ?]. by apply IH. }
      apply all_sep_ends in Hall' as [?|?]; congruence. }
    assert (PyStr.is_empty (dataset_root +:+ String OsPath.SEP EmptyString) = false) as ->
      by (by rewrite E).
    simpl. by apply rstrip_sep_app. }
  split; [done|]. split.
  - unfold backup_root_of. by rewrite Hdir.
  - rewrite BackupPaths.backup_files_dir_layout, Hdir. done.
Qed.

(** ** The organizer *)

Module OrganizerFacts.
Import Organizer.

(** *** Strings *)

Lemma lstrip_by_idemp f s :
  PyStr.lstrip_by f (PyStr.lstrip_by f s) = PyStr.lstrip_by f s.
Proof.
  induction s as [|c s IH]; [done|]. simpl.
  destruct (f c) eqn:E; [done|]. simpl. by rewrite E.
Qed.

Lemma rstrip_lstrip_comm f s :
  PyStr.rstrip_by f (PyStr.lstrip_by f s) = PyStr.lstrip_by f (PyStr.rstrip_by f s).
Proof.
  induction s as [|c s IH]; [done|]. simpl.
  destruct (f c) eqn:E; simpl.
  - rewrite IH. destruct (PyStr.is_empty (PyStr.rstrip_by f s)) eqn:He.
    + destruct (PyStr.rstrip_by f s); [done|done].
    + simpl. by rewrite E.
  - by rewrite E.
Qed.

Lemma strip_idemp s : PyStr.strip (PyStr.strip s) = PyStr.strip s.
Proof.
  unfold PyStr.strip.
  by rewrite rstrip_lstrip_comm, rstrip_by_idemp, lstrip_by_idemp.
Qed.

Lemma rstrip_by_snoc f s c :
  f c = true →
  PyStr.rstrip_by f (s +:+ String c EmptyString) = PyStr.rstrip_by f s.
Proof.
  intros Hc. induction s as [|d s IH].
  - simpl. by rewrite Hc.
  - rewrite StrFacts.app_cons. simpl. by rewrite IH.
Qed.

Lemma strip_line s :
  PyStr.strip (s +:+ String PyStr.LF EmptyString) = PyStr.strip s.
Proof. unfold PyStr.strip. by rewrite rstrip_by_snoc. Qed.

Lemma all_chars_lstrip f g s :
  all_chars f s = true → all_chars f (PyStr.lstrip_by g s) = true.
Proof.
  induction s as [|c s IH]; [done|]. simpl.
  intros [Hc Hs]%andb_true_iff. destruct (g c); [by apply IH|].
  simpl. by rewrite Hc, Hs.
Qed.

Lemma all_chars_rstrip f g s :
  all_chars f s = true → all_chars f (PyStr.rstrip_by g s) = true.
Proof.
  induction s as [|c s IH]; [done|]. simpl.
  intros [Hc Hs]%andb_true_iff.
  destruct (g c && PyStr.is_empty (PyStr.rstrip_by g s)); [done|].
  simpl. by rewrite Hc, IH.
Qed.

Lemma all_chars_keep f s : all_chars f (keep_chars f s) = true.
Proof.
  induction s as [|c s IH]; [done|]. simpl.
  destruct (f c) eqn:E; [|done]. simpl. by rewrite E, IH.
Qed.

Lemma all_chars_impl (f g : ascii → bool) s :
  (∀ c, f c = true → g c = true) → all_chars f s = true → all_chars g s = true.
Proof.
  intros Hfg. induction s as [|c s IH]; [done|]. simpl.
  intros [Hc Hs]%andb_true_iff. by rewrite (Hfg _ Hc), IH.
Qed.

Lemma name_char_not c d : name_char d = false → name_char c = true → Ascii.eqb c d = false.
Proof.
  intros Hd Hc. destruct (Ascii.eqb c d) eqn:E; [|done].
  apply Ascii.eqb_eq in E as ->. congruence.
Qed.

Lemma all_chars_no_sep s :
  all_chars name_char s = true → OsPath.has_sep s = false.
Proof.
  induction s as [|c s IH]; [done|]. simpl.
  intros [Hc Hs]%andb_true_iff. rewrite (IH Hs), orb_false_r.
  by apply (name_char_not c OsPath.SEP).
Qed.

Lemma all_chars_no_pipe s :
  all_chars name_char s = true → PyStr.count_char PyStr.PIPE s = 0.
Proof.
  induction s as [|c s IH]; [done|]. simpl.
  intros [Hc Hs]%andb_true_iff. rewrite (IH Hs).
  by rewrite (name_char_not c PyStr.PIPE).
Qed.

Lemma all_chars_no_lf s : all_chars name_char s = true → no_lf s = true.
Proof.
  induction s as [|c s IH]; [done|]. simpl.
  intros [Hc Hs]%andb_true_iff. rewrite (IH Hs), andb_true_r.
  unfold PyStr.is_lf. by rewrite (name_char_not c PyStr.LF).
Qed.

Lemma all_chars_no_dot s :
  all_chars name_char s = true → PyStr.count_char "." s = 0.
Proof.
  induction s as [|c s IH]; [done|]. simpl.
  intros [Hc Hs]%andb_true_iff. rewrite (IH Hs).
  by rewrite (name_char_not c ".").
Qed.

Lemma sanitize_chars s : all_chars name_char (sanitize s) = true.
Proof.
  unfold sanitize, PyStr.strip.
  apply all_chars_lstrip, all_chars_rstrip, all_chars_keep.
Qed.

Lemma clean_emotion_chars s : all_chars name_char (clean_emotion s) = true.
Proof.
  unfold clean_emotion. destruct (PyStr.is_empty (sanitize s)); [done|].
  apply sanitize_chars.
Qed.

Lemma clean_emotion_nonempty s : clean_emotion s ≠ EmptyString.
Proof. unfold clean_emotion. by destruct (sanitize s) eqn:E. Qed.

Lemma clean_emotion_stripped s : PyStr.strip (clean_emotion s) = clean_emotion s.
Proof.
  unfold clean_emotion. destruct (PyStr.is_empty (sanitize s)); [done|].
  unfold sanitize. apply strip_idemp.
Qed.

(** X17: the name the organizer makes of an emotion (or of a category)
    is never empty and holds letters, digits, spaces, underscores and
    hyphens only, with no space at either end: no path separator, no
    dot, no field separator, no line break. *)
Theorem clean_emotion_is_plain_name s :
  clean_emotion s ≠ EmptyString
  ∧ all_chars name_char (clean_emotion s) = true
  ∧ OsPath.has_sep (clean_emotion s) = false
  ∧ PyStr.count_char "." (clean_emotion s) = 0
  ∧ PyStr.count_char PyStr.PIPE (clean_emotion s) = 0
  ∧ no_lf (clean_emotion s) = true
  ∧ PyStr.strip (clean_emotion s) = clean_emotion s.
Proof.
  pose proof (clean_emotion_chars s) as Hc.
  split_and!; [apply clean_emotion_nonempty|done|by apply all_chars_no_sep
              |by apply all_chars_no_dot|by apply all_chars_no_pipe
              |by apply all_chars_no_lf|apply clean_emotion_stripped].
Qed.

(** *** Dictionaries of lists *)

Lemma dict_append_keys {K V} `{EqDecision K} (k : K) (v : V) (d : list (K * list V)) :
  (dict_append k v d).*1 = if decide (k ∈ d.*1) then d.*1 else d.*1 ++ [k].
Proof.
  induction d as [|[k' vs] d IH]; [done|].
  cbn [dict_append]. destruct (decide (k' = k)) as [->|Hne]; rewrite !fmap_cons; cbn [fst].
  - rewrite decide_True; [done|left].
  - rewrite IH. destruct (decide (k ∈ d.*1)) as [Hin|Hin].
    + rewrite decide_True; [done|by right].
    + rewrite decide_False; [done|]. intros [?|?]%elem_of_cons; congruence.
Qed.

Lemma dict_append_elem {K V} `{EqDecision K} (k : K) (v : V) (d : list (K * list V)) k' vs' :
  NoDup d.*1 →
  (k', vs') ∈ dict_append k v d →
  (k' ≠ k ∧ (k', vs') ∈ d)
  ∨ (k' = k ∧ ((∃ vs, (k, vs) ∈ d ∧ vs' = vs ++ [v]) ∨ ((k ∉ d.*1) ∧ vs' = [v]))).
Proof.
  induction d as [|[k0 vs0] d IH]; simpl.
  { intros _ [= -> ->]%list_elem_of_singleton. right. split; [done|right].
    split; [apply not_elem_of_nil|done]. }
  intros [Hnotin Hnd]%NoDup_cons. destruct (decide (k0 = k)) as [->|Hne].
  - intros [[= -> ->]|Hin]%elem_of_cons.
    + right. split; [done|left]. exists vs0. split; [left|done].
    + left. split; [|by right]. intros ->. apply Hnotin.
      apply list_elem_of_fmap. by exists (k, vs').
  - intros [[= -> ->]|Hin]%elem_of_cons.
    + left. split; [done|left].
    + destruct (IH Hnd Hin) as [[? ?]|[-> [(vs & ? & ->)|[? ->]]]].
      * left. split; [done|by right].
      * right. split; [done|left]. exists vs. split; [by right|done].
      * right. split; [done|right]. split; [|done].
        intros [?|?]%elem_of_cons; simpl in *; [congruence|done].
Qed.

Lemma dict_append_grouped {K V} `{EqDecision K} (entries : list (K * V)) d k v :
  grouped entries d → grouped (entries ++ [(k, v)]) (dict_append k v d).
Proof.
  intros (Hnd & Hg & Hk). split_and!.
  - rewrite dict_append_keys. case_decide; [done|].
    apply NoDup_app. split_and!; [done| |apply NoDup_singleton].
    intros t ? ->%list_elem_of_singleton. done.
  - intros k' vs' Hin. rewrite filter_app, fmap_app.
    destruct (dict_append_elem _ _ _ _ _ Hnd Hin)
      as [[Hne Hold]|[-> [(vs0 & Hold & ->)|[Hnew ->]]]].
    + destruct (Hg _ _ Hold) as [-> ?]. rewrite filter_cons_False by (simpl; congruence).
      rewrite filter_nil. simpl. by rewrite app_nil_r.
    + destruct (Hg _ _ Hold) as [-> ?]. rewrite filter_cons_True by done.
      rewrite filter_nil. split; [done|]. by intros [? ?]%app_eq_nil.
    + rewrite filter_cons_True by done. rewrite filter_nil.
      destruct (filter (λ e, e.1 = k) entries) as [|x l] eqn:E; [done|].
      assert (x ∈ filter (λ e, e.1 = k) entries) as Hx by (rewrite E; left).
      apply list_elem_of_filter in Hx as [Hx1 Hx2]. apply Hk in Hx2.
      rewrite Hx1 in Hx2. done.
  - intros e He. rewrite dict_append_keys.
    apply elem_of_app in He as [He | ->%list_elem_of_singleton].
    + case_decide; [by apply Hk|]. apply elem_of_app. left. by apply Hk.
    + case_decide; [done|]. apply elem_of_app. right. left.
Qed.

Lemma grouped_nil {K V} `{EqDecision K} : grouped ([] : list (K * V)) [].
Proof.
  split_and!; [apply NoDup_nil_2|by intros k vs ?%elem_of_nil|by intros e ?%elem_of_nil].
Qed.

(** The number of values a dictionary of lists holds. *)
Lemma dict_append_total {K V} `{EqDecision K} (k : K) (v : V) (d : list (K * list V)) :
  sum_list (map (λ kv, length kv.2) (dict_append k v d))
  = S (sum_list (map (λ kv, length kv.2) d)).
Proof.
  induction d as [|[k' vs] d IH]; [done|]. simpl.
  destruct (decide (k' = k)); simpl.
  - rewrite length_app. simpl. lia.
  - rewrite IH. lia.
Qed.

(** *** The preview loop *)

Section preview_loop_facts.
Variable csv_data : gmap string row.
Variable raw_files_map : gmap string string.

Abbreviation entry := (preview_entry csv_data raw_files_map).
Abbreviation key_value := (λ e : category * bump * item, (e.1.1, e.2)).

Lemma preview_loop_spec lines : ∀ entries pd st,
  grouped entries pd →
  ∃ pd' st',
    preview_loop csv_data raw_files_map lines pd st
    = (pd', st', first_error csv_data raw_files_map lines)
    ∧ grouped (entries ++ map key_value (filed csv_data raw_files_map lines)) pd'
    ∧ moved st' = moved st + bump_count Moved (filed csv_data raw_files_map lines)
    ∧ deleted st' = deleted st + bump_count Deleted (filed csv_data raw_files_map lines)
    ∧ kept st' = kept st + bump_count Kept (filed csv_data raw_files_map lines)
    ∧ sum_list (map (λ kv, length kv.2) pd')
      = sum_list (map (λ kv, length kv.2) pd)
        + length (filed csv_data raw_files_map lines).
Proof.
  induction lines as [|line lines IH]; intros entries pd st Hg; simpl.
  { exists pd, st. rewrite app_nil_r. unfold bump_count. simpl.
    split_and!; try done; lia. }
  destruct (entry line) as [[[[c b] it]|e]|] eqn:He.
  - destruct (IH (entries ++ [(c, it)]) (dict_append c it pd) (count b st))
      as (pd' & st' & -> & Hg' & Hm & Hd & Hk & Hsum).
    { by apply dict_append_grouped. }
    exists pd', st'. rewrite <- (assoc_L (++)) in Hg'.
    rewrite dict_append_total in Hsum. unfold bump_count in *.
    split_and!; [done|done|..].
    4:{ simpl. lia. }
    all: rewrite filter_cons; destruct b; simpl in *; try case_decide; try done; simpl; lia.
  - exists pd, st. rewrite app_nil_r. unfold bump_count. simpl.
    split_and!; try done; lia.
  - by apply IH.
Qed.

Lemma filed_elem lines e :
  e ∈ filed csv_data raw_files_map lines →
  ∃ line, line ∈ lines ∧ entry line = Some (Ok e).
Proof.
  induction lines as [|line lines IH]; simpl; [by intros ?%elem_of_nil|].
  destruct (entry line) as [[e'|x]|] eqn:He.
  - intros [->|Hin]%elem_of_cons.
    + exists line. split; [left|done].
    + destruct (IH Hin) as (l & ? & ?). exists l. split; [by right|done].
  - by intros ?%elem_of_nil.
  - intros Hin. destruct (IH Hin) as (l & ? & ?). exists l. split; [by right|done].
Qed.

Lemma entry_accepts line : is_Some (entry line) ↔ preview_accepts line = true.
Proof.
  unfold preview_entry, preview_accepts.
  destruct (PyStr.split PyStr.PIPE (PyStr.strip line)) as [|p0 [|p1 ps]]; simpl.
  - split; [by intros [? ?]|done].
  - split; [by intros [? ?]|done].
  - split; [done|by eexists].
Qed.

Lemma filed_length lines :
  first_error csv_data raw_files_map lines = None →
  length (filed csv_data raw_files_map lines)
  = length (filter (λ line, preview_accepts line = true) lines).
Proof.
  induction lines as [|line lines IH]; [done|]. simpl.
  pose proof (entry_accepts line) as Hacc.
  destruct (entry line) as [[e|x]|] eqn:He.
  - intros Hno. rewrite filter_cons_True by (apply Hacc; by eexists).
    simpl. by rewrite IH.
  - done.
  - intros Hno. rewrite filter_cons_False; [by apply IH|].
    intros Ht. apply Hacc in Ht as [? ?]. done.
Qed.

Lemma bump_count_total (f : list (category * bump * item)) :
  bump_count Moved f + bump_count Deleted f + bump_count Kept f = length f.
Proof.
  unfold bump_count. induction f as [|[[c b] it] f IH]; [done|].
  rewrite !filter_cons. destruct b; simpl in *; repeat case_decide; try done; simpl; lia.
Qed.

(** An entry is counted as to delete exactly when it is filed under the
    tab of the excluded entries. *)
Lemma entry_deleted_iff line c b it :
  entry line = Some (Ok (c, b, it)) → b = Deleted ↔ c = Excluded.
Proof.
  unfold preview_entry.
  destruct (PyStr.split PyStr.PIPE (PyStr.strip line)) as [|p0 [|p1 ps]]; [done|done|].
  intros [= Hrun]. revert Hrun.
  destruct (csv_data !! OsPath.basename p0) as [r|]; simpl.
  - destruct (is_usable_of r) as [[|]|]; simpl; [| |done].
    + destruct (val_strip (row_get r "Emotion" "Neutral")); simpl; [|done].
      destruct (val_strip (row_get r "Reason" EmptyString)); simpl; [|done].
      repeat (case_match; simpl); intros [= <- <- <-]; by split.
    + destruct (val_strip (row_get r "Emotion" "Neutral")); simpl; [|done].
      destruct (val_strip (row_get r "Reason" EmptyString)); simpl; [|done].
      by intros [= <- <- <-].
  - intros [= <- <- <-]. by split.
Qed.


End preview_loop_facts.

Lemma grouped_elem {K V} `{EqDecision K} (entries : list (K * V)) d k vs v :
  grouped entries d → (k, vs) ∈ d → v ∈ vs → (k, v) ∈ entries.
Proof.
  intros (_ & Hg & _) Hin Hv. destruct (Hg _ _ Hin) as [-> _].
  apply list_elem_of_fmap in Hv as ([k' v'] & -> & [E ?]%list_elem_of_filter).
  simpl in *. by subst.
Qed.

Section no_csv.
Variable raw_files_map : gmap string string.

(** The tab of an entry that has no row in the CSV: its folder, or the
    tab of the entries that lie in no folder. *)
Lemma entry_no_csv line r :
  preview_entry ∅ raw_files_map line = Some r →
  ∃ first rest,
    PyStr.split PyStr.PIPE (PyStr.strip line) = first :: rest
    ∧ r = Ok (Named (if negb (String.eqb (current_emotion_of first) "Unclassified")
                     then current_emotion_of first else "Unclassified (Root)"),
              Kept,
              Item (OsPath.basename first)
                (default EmptyString ((first :: rest) !! 3)) "-" "Keep (No CSV Entry)"
                (default EmptyString (raw_files_map !! OsPath.basename first))
                (PyStr.strip line)).
Proof.
  unfold preview_entry.
  destruct (PyStr.split PyStr.PIPE (PyStr.strip line)) as [|p0 [|p1 ps]]; [done|done|].
  rewrite lookup_empty. intros [= <-]. by exists p0, (p1 :: ps).
Qed.

Lemma first_error_no_csv lines : first_error ∅ raw_files_map lines = None.
Proof.
  induction lines as [|line lines IH]; [done|]. simpl.
  destruct (preview_entry ∅ raw_files_map line) as [r|] eqn:He; [|done].
  apply entry_no_csv in He as (first & rest & _ & ->). done.
Qed.

Lemma filed_no_csv lines :
  Forall (λ e : category * bump * item, e.1.2 = Kept) (filed ∅ raw_files_map lines).
Proof.
  apply Forall_forall. intros [[c b] it] (line & _ & He)%filed_elem.
  apply entry_no_csv in He as (first & rest & _ & [= -> -> ->]). done.
Qed.


End no_csv.

(** *** [load_preview] as a whole *)

Section load_preview_facts.
Variable isdir : string → bool.
Variable os_walk : string → list (string * list string).
Variable read_csv : string → list (outcome row).

Lemma load_csv_run csv_file w :
  ∃ r, load_csv read_csv csv_file w = (r, tick w).
Proof.
  unfold load_csv, syscall. rewrite bind_run.
  destruct (fault w); [by eexists|].
  rewrite bind_run. unfold get_file. cbn [files tick].
  destruct (files w !! csv_file) as [data|]; [|by eexists].
  destruct (csv_index (read_csv data) ∅); by eexists.
Qed.

Lemma log_run msg w :
  log msg w = (Ok (), World (files w) (trace w ++ [EvLog msg]) (faults w)).
Proof. reflexivity. Qed.

Lemma showerror_run t m w :
  showerror t m w = (Ok (), World (files w) (trace w ++ [EvShowError t m]) (faults w)).
Proof. reflexivity. Qed.

Lemma showinfo_run t m w :
  showinfo t m w = (Ok (), World (files w) (trace w ++ [EvShowInfo t m]) (faults w)).
Proof. reflexivity. Qed.

Ltac preview_leaf :=
  cbn [files trace faults tick app_notebook app_preview_data app_raw_files_map];
  rewrite <- ?(assoc_L (++));
  split; [reflexivity|];
  eexists _, _; split; [reflexivity|]; split; [reflexivity|];
  split; [first [by left|by right]|];
  first [ left; split; reflexivity
        | right; eexists _, _; split; reflexivity ].


End load_preview_facts.

(** *** Fields of a line *)

Lemma cut_Some sep s a b :
  PyStr.cut sep s = Some (a, b) →
  s = a +:+ String sep b ∧ PyStr.count_char sep a = 0.
Proof.
  revert a b. induction s as [|c s IH]; intros a b; [done|]. simpl.
  destruct (Ascii.eqb c sep) eqn:E.
  - apply Ascii.eqb_eq in E as ->. by intros [= <- <-].
  - destruct (PyStr.cut sep s) as [[a' b']|]; [|done].
    intros [= <- <-]. destruct (IH a' b' eq_refl) as [-> Ha].
    split; [done|]. simpl. by rewrite E, Ha.
Qed.

Lemma cut_None sep s : PyStr.cut sep s = None → PyStr.count_char sep s = 0.
Proof. intros E. pose proof (cut_count sep s) as H. by rewrite E in H. Qed.

Lemma cut_app sep p rest :
  PyStr.count_char sep p = 0 → PyStr.cut sep (p +:+ String sep rest) = Some (p, rest).
Proof.
  induction p as [|c p IH]; simpl.
  - intros _. by rewrite Ascii.eqb_refl.
  - destruct (Ascii.eqb c sep); [done|]. simpl. intros Hp. by rewrite (IH Hp).
Qed.

Lemma split_max_nonempty sep n s : PyStr.split_max sep n s ≠ [].
Proof. destruct n; simpl; [done|]. by destruct (PyStr.cut sep s) as [[a b]|]. Qed.

Lemma join_with_cons sep p l :
  l ≠ [] → join_with sep (p :: l) = p +:+ String sep (join_with sep l).
Proof. by destruct l. Qed.

(** A line is its fields joined by the separator, and no field holds a
    separator. *)
Lemma split_max_join sep n : ∀ s,
  PyStr.count_char sep s ≤ n →
  Forall (λ p, PyStr.count_char sep p = 0) (PyStr.split_max sep n s)
  ∧ join_with sep (PyStr.split_max sep n s) = s.
Proof.
  induction n as [|n IH]; intros s Hn; simpl.
  { split; [|done]. constructor; [lia|done]. }
  pose proof (cut_count sep s) as Hc.
  destruct (PyStr.cut sep s) as [[a b]|] eqn:E.
  - destruct (cut_Some _ _ _ _ E) as [-> Ha].
    destruct (IH b) as [Hall Hjoin]; [lia|].
    split; [by constructor|].
    rewrite join_with_cons by apply split_max_nonempty. by rewrite Hjoin.
  - split; [|done]. constructor; [done|done].
Qed.

Lemma count_char_le_length c s : PyStr.count_char c s ≤ String.length s.
Proof. induction s as [|d s IH]; simpl; [done|]. destruct (Ascii.eqb d c); lia. Qed.

Lemma split_join_id sep s :
  Forall (λ p, PyStr.count_char sep p = 0) (PyStr.split sep s)
  ∧ join_with sep (PyStr.split sep s) = s.
Proof. apply split_max_join, count_char_le_length. Qed.

(** Conversely, joining fields that hold no separator and splitting
    again gives the fields back. *)
Lemma split_max_of_join sep parts : ∀ n,
  parts ≠ [] →
  Forall (λ p, PyStr.count_char sep p = 0) parts →
  length parts ≤ S n →
  PyStr.split_max sep n (join_with sep parts) = parts.
Proof.
  induction parts as [|p parts IH]; intros n Hne Hall Hlen; [done|].
  apply Forall_cons in Hall as [Hp Hall].
  destruct parts as [|q parts].
  - simpl. destruct n; simpl; [done|].
    pose proof (cut_count sep p) as Hc. rewrite Hp in Hc.
    by destruct (PyStr.cut sep p) as [[a b]|].
  - rewrite join_with_cons by done. destruct n as [|n]; [simpl in Hlen; lia|].
    simpl PyStr.split_max. rewrite cut_app by done.
    rewrite IH; [done|done|done|simpl in *; lia].
Qed.

Lemma app_length s t : String.length (s +:+ t) = String.length s + String.length t.
Proof. induction s as [|c s IH]; [done|]. simpl. by rewrite IH. Qed.

Lemma join_with_length sep parts :
  length parts ≤ S (String.length (join_with sep parts)).
Proof.
  induction parts as [|p parts IH]; [simpl; lia|].
  destruct parts as [|q parts]; [simpl; lia|].
  rewrite join_with_cons by done. rewrite app_length.
  change (String.length (String sep (join_with sep (q :: parts))))
    with (S (String.length (join_with sep (q :: parts)))).
  change (length (p :: q :: parts)) with (S (length (q :: parts))). lia.
Qed.

Lemma split_of_join sep parts :
  parts ≠ [] →
  Forall (λ p, PyStr.count_char sep p = 0) parts →
  PyStr.split sep (join_with sep parts) = parts.
Proof.
  intros Hne Hall. unfold PyStr.split.
  apply split_max_of_join; [done|done|apply join_with_length].
Qed.

Lemma count_char_app c s t :
  PyStr.count_char c (s +:+ t) = PyStr.count_char c s + PyStr.count_char c t.
Proof. induction s as [|d s IH]; [done|]. simpl. rewrite IH. lia. Qed.

Lemma count_char_basename c p :
  PyStr.count_char c p = 0 → PyStr.count_char c (OsPath.basename p) = 0.
Proof.
  intros Hp. rewrite <- (BackupPaths.head_basename p), count_char_app in Hp. lia.
Qed.

(** *** Line breaks *)

Lemma no_lf_app s t : no_lf (s +:+ t) = no_lf s && no_lf t.
Proof.
  induction s as [|c s IH]; [done|]. simpl. rewrite IH. by rewrite andb_assoc.
Qed.

Lemma no_lf_lstrip f s : no_lf s = true → no_lf (PyStr.lstrip_by f s) = true.
Proof.
  induction s as [|c s IH]; [done|]. simpl.
  intros [Hc Hs]%andb_true_iff. destruct (f c); [by apply IH|].
  simpl. by rewrite Hc, Hs.
Qed.

Lemma no_lf_rstrip f s : no_lf s = true → no_lf (PyStr.rstrip_by f s) = true.
Proof.
  induction s as [|c s IH]; [done|]. simpl.
  intros [Hc Hs]%andb_true_iff.
  destruct (f c && PyStr.is_empty (PyStr.rstrip_by f s)); [done|].
  simpl. by rewrite Hc, IH.
Qed.

Lemma no_lf_strip s : no_lf s = true → no_lf (PyStr.strip s) = true.
Proof. intros Hs. by apply no_lf_lstrip, no_lf_rstrip. Qed.

Lemma lines_ok_elem ls l : lines_ok ls → l ∈ ls → complete_line l ∨ partial_line l.
Proof.
  induction 1 as [|l0 Hl0|l0 ls Hl0 _ IH].
  - by intros ?%elem_of_nil.
  - intros ->%list_elem_of_singleton. by right.
  - intros [->|?]%elem_of_cons; [by left|by apply IH].
Qed.

(** The trimmed text of a line of a file holds no line break. *)
Lemma no_lf_strip_line content l :
  l ∈ PyStr.readlines content → no_lf (PyStr.strip l) = true.
Proof.
  intros Hl.
  destruct (lines_ok_elem _ _ (Lines.readlines_ok content) Hl)
    as [(body & -> & Hb)|[_ Hl']].
  - rewrite strip_line. by apply no_lf_strip.
  - by apply no_lf_strip.
Qed.

Lemma no_lf_count s : no_lf s = true ↔ PyStr.count_char PyStr.LF s = 0.
Proof.
  induction s as [|c s IH]; [done|]. simpl. unfold PyStr.is_lf.
  destruct (Ascii.eqb c PyStr.LF); simpl; [split; [done|lia]|]. apply IH.
Qed.

Lemma no_lf_basename p : no_lf p = true → no_lf (OsPath.basename p) = true.
Proof. rewrite !no_lf_count. apply count_char_basename. Qed.

Lemma no_lf_split s :
  no_lf s = true → Forall (λ p, no_lf p = true) (PyStr.split PyStr.PIPE s).
Proof.
  unfold PyStr.split. generalize (String.length s) as n. intros n. revert s.
  induction n as [|n IH]; intros s Hs; simpl; [by constructor|].
  destruct (PyStr.cut PyStr.PIPE s) as [[a b]|] eqn:E; [|by constructor].
  destruct (cut_Some _ _ _ _ E) as [-> _].
  rewrite no_lf_app in Hs. apply andb_true_iff in Hs as [Ha Hb]. simpl in Hb.
  constructor; [done|]. by apply IH.
Qed.

Lemma no_lf_join parts :
  Forall (λ p, no_lf p = true) parts → no_lf (join_with PyStr.PIPE parts) = true.
Proof.
  induction 1 as [|p parts Hp _ IH]; [done|].
  destruct parts as [|q parts]; [done|].
  rewrite join_with_cons by done. rewrite no_lf_app, Hp. simpl. exact IH.
Qed.

(** *** The plan of the organizer *)

Section plan_facts.
Variable normpath : string → string.
Variable raw_dir : string.
Variable csv_data : gmap string row.
Variable current_files : gmap string string.

Abbreviation LFs := (String PyStr.LF EmptyString).
Abbreviation step := (plan_entry normpath raw_dir csv_data current_files).
Abbreviation dest_dir_of e := (OsPath.join raw_dir (clean_emotion e)).

(** What one turn of the loop does. *)
Lemma plan_entry_cases line p p' :
  step line p = Ok p' →
  (preview_accepts line = false ∧ p' = p)
  ∨ ∃ first others,
      PyStr.split PyStr.PIPE (PyStr.strip line) = first :: others
      ∧ others ≠ []
      ∧ preview_accepts line = true
      ∧ ((csv_data !! OsPath.basename first = None
          ∧ p' = Plan (new_esd_lines p ++ [PyStr.strip line +:+ LFs])
                   (files_to_delete p) (files_to_move p)
                   (moved_count p) (deleted_count p))
         ∨ (∃ r e,
              csv_data !! OsPath.basename first = Some r
              ∧ is_usable_of r = Ok false
              ∧ val_strip (row_get r "Emotion" "Neutral") = Ok e
              ∧ new_esd_lines p' = new_esd_lines p
              ∧ files_to_move p' = files_to_move p
              ∧ moved_count p' = moved_count p
              ∧ deleted_count p' = S (deleted_count p)
              ∧ (files_to_delete p' = files_to_delete p
                 ∨ ∃ f, current_files !! OsPath.basename first = Some f
                        ∧ files_to_delete p' = files_to_delete p ++ [f]))
         ∨ (∃ r e,
              csv_data !! OsPath.basename first = Some r
              ∧ is_usable_of r = Ok true
              ∧ val_strip (row_get r "Emotion" "Neutral") = Ok e
              ∧ new_esd_lines p'
                = new_esd_lines p
                  ++ [join_with PyStr.PIPE
                        ((clean_emotion e +:+ "/" +:+ OsPath.basename first) :: others)
                      +:+ LFs]
              ∧ files_to_delete p' = files_to_delete p
              ∧ deleted_count p' = deleted_count p
              ∧ ((files_to_move p' = files_to_move p ∧ moved_count p' = moved_count p)
                 ∨ ∃ f, current_files !! OsPath.basename first = Some f
                        ∧ normpath f
                          ≠ normpath (OsPath.join (dest_dir_of e) (OsPath.basename first))
                        ∧ files_to_move p'
                          = files_to_move p
                            ++ [(f, dest_dir_of e,
                                 OsPath.join (dest_dir_of e) (OsPath.basename first))]
                        ∧ moved_count p' = S (moved_count p)))).
Proof.
  unfold plan_entry, preview_accepts.
  destruct (PyStr.strip line) as [|c0 s0] eqn:Hstrip; simpl PyStr.is_empty; cbv iota.
  { intros [= <-]. by left. }
  destruct (PyStr.split PyStr.PIPE (String c0 s0)) as [|first [|second others]] eqn:Hs.
  { intros [= <-]. by left. }
  { intros [= <-]. by left. }
  intros Hrun. right. exists first, (second :: others).
  split; [done|]. split; [done|]. split; [done|]. revert Hrun.
  destruct (csv_data !! OsPath.basename first) as [r|]; [|intros [= <-]; by left].
  destruct (is_usable_of r) as [[|]|] eqn:Hu; simpl; [| |done].
  - destruct (val_strip (row_get r "Emotion" "Neutral")) as [e|] eqn:He; simpl; [|done].
    intros Hrun. right. right. exists r, e. split_and!; try done; revert Hrun.
    all: destruct (current_files !! OsPath.basename first) as [f|] eqn:Hf; simpl;
      [destruct (PyStr.is_empty f)|]; simpl;
      try (destruct (String.eqb (normpath f) _) eqn:Hn; simpl);
      intros [= <-]; simpl; try done; try by left.
    right. exists f. split_and!; try done. by apply String.eqb_neq.
  - destruct (val_strip (row_get r "Emotion" "Neutral")) as [e|] eqn:He; simpl; [|done].
    intros Hrun. right. left. exists r, e. split_and!; try done; revert Hrun.
    all: destruct (current_files !! OsPath.basename first) as [f|] eqn:Hf; simpl;
      [destruct (PyStr.is_empty f)|]; simpl;
      intros [= <-]; simpl; try done; try by left.
    right. by exists f.
Qed.

Lemma plan_entry_inv n line p p' :
  no_lf (PyStr.strip line) = true →
  plan_inv n p →
  step line p = Ok p' →
  plan_inv (n + (if preview_accepts line then 1 else 0)) p'.
Proof.
  intros Hlf (H1 & H2 & H3 & H4 & H5) Hstep.
  destruct (split_join_id PyStr.PIPE (PyStr.strip line)) as [Hparts _].
  pose proof (no_lf_split _ Hlf) as Hlfs.
  destruct (plan_entry_cases _ _ _ Hstep)
    as [[-> ->]|(first & others & Hs & Hne & -> &
         [[Hnone ->]
         |[(r & e & _ & _ & _ & E1 & E2 & E3 & E4 & Hdel)
          |(r & e & _ & _ & _ & E1 & E2 & E3 & Hmove)]])].
  - rewrite Nat.add_0_r. by split_and!.
  - unfold plan_inv. simpl. rewrite length_app. simpl.
    split_and!; try lia. apply Forall_app. split; [done|].
    constructor; [|done]. by exists (PyStr.strip line).
  - unfold plan_inv. rewrite E1, E2, E3, E4.
    split_and!; try done; try lia.
    destruct Hdel as [->|(f & _ & ->)]; [lia|]. rewrite length_app. simpl. lia.
  - unfold plan_inv. rewrite E1, E2, E3. rewrite length_app. simpl length.
    rewrite Hs in Hlfs, Hparts.
    apply Forall_cons in Hlfs as [Hf Ho]. apply Forall_cons in Hparts as [Hpf Hpo].
    split_and!; try lia.
    + destruct Hmove as [[Ea Eb]|(f & _ & _ & Ea & Eb)];
        rewrite ?Ea, ?Eb, ?length_app; simpl length; lia.
    + destruct Hmove as [[Ea Eb]|(f & _ & _ & Ea & Eb)];
        rewrite ?Ea, ?Eb, ?length_app; simpl length; lia.
    + apply Forall_app. split; [done|]. constructor; [|done].
      eexists. split; [done|]. apply no_lf_join. constructor; [|done].
      rewrite !no_lf_app. rewrite (all_chars_no_lf _ (clean_emotion_chars e)).
      simpl. by rewrite no_lf_basename.
Qed.

Lemma plan_loop_inv lines : ∀ n p p',
  Forall (λ line, no_lf (PyStr.strip line) = true) lines →
  plan_inv n p →
  plan_loop normpath raw_dir csv_data current_files lines p = Ok p' →
  plan_inv (n + length (filter (λ line, preview_accepts line = true) lines)) p'.
Proof.
  induction lines as [|line lines IH]; intros n p p' Hlf Hinv; simpl.
  { intros [= <-]. by rewrite Nat.add_0_r. }
  apply Forall_cons in Hlf as [Hl Hlf].
  destruct (step line p) as [p1|] eqn:Hstep; simpl; [|done].
  intros Hrun. pose proof (plan_entry_inv _ _ _ _ Hl Hinv Hstep) as Hinv1.
  pose proof (IH _ _ _ Hlf Hinv1 Hrun) as Hinv'.
  destruct (preview_accepts line) eqn:Ha.
  - rewrite filter_cons_True by done. simpl length.
    by replace (n + S (length (filter (λ line0, preview_accepts line0 = true) lines)))
      with (n + 1 + length (filter (λ line0, preview_accepts line0 = true) lines)) by lia.
  - rewrite filter_cons_False by (by rewrite Ha). by rewrite Nat.add_0_r in Hinv'.
Qed.

Lemma complete_lines_ok ls : Forall complete_line ls → lines_ok ls.
Proof. induction 1; [constructor|by apply lines_ok_cons]. Qed.

(** X21: the manifest the organizer plans has one line for every entry
    of the old one (a line with at least two fields) that is not to be
    deleted; blank lines and lines without a separator are dropped.
    Every planned line ends with its line break and holds no other, so
    the file written from them reads back as these lines.  Every counted
    move is a planned move, and no more files are planned for deletion
    than entries are counted as deleted. *)
Theorem plan_accounts_for_every_entry content p :
  plan_loop normpath raw_dir csv_data current_files (PyStr.readlines content)
    (Plan [] [] [] 0 0) = Ok p →
  length (new_esd_lines p) + deleted_count p
  = length (filter (λ line, preview_accepts line = true) (PyStr.readlines content))
  ∧ moved_count p = length (files_to_move p)
  ∧ length (files_to_delete p) ≤ deleted_count p
  ∧ moved_count p ≤ length (new_esd_lines p)
  ∧ PyStr.readlines (PyStr.writelines (new_esd_lines p)) = new_esd_lines p.
Proof.
  intros Hrun.
  assert (plan_inv 0 (Plan [] [] [] 0 0)) as H0.
  { unfold plan_inv. simpl. split_and!; try done. }
  assert (Forall (λ line, no_lf (PyStr.strip line) = true) (PyStr.readlines content))
    as Hlf.
  { apply Forall_forall. intros l. apply no_lf_strip_line. }
  destruct (plan_loop_inv _ _ _ _ Hlf H0 Hrun) as (H1 & H2 & H3 & H4 & H5).
  split_and!; try done.
  by apply Lines.readlines_writelines, complete_lines_ok.
Qed.

Abbreviation sources_ok := (plan_sources normpath raw_dir csv_data current_files).

Lemma plan_entry_sources line p p' :
  sources_ok p → step line p = Ok p' → sources_ok p'.
Proof.
  intros [Hd Hm] Hstep.
  destruct (plan_entry_cases _ _ _ Hstep)
    as [[_ ->]|(first & others & Hs & Hne & _ &
         [[Hnone ->]
         |[(r & e & Hr & Hu & He & E1 & E2 & E3 & E4 & Hdel)
          |(r & e & Hr & Hu & He & E1 & E2 & E3 & Hmove)]])]; [done|done|..].
  - split; [|by rewrite E2].
    destruct Hdel as [->|(f & Hf & ->)]; [done|].
    intros x [Hx| ->%list_elem_of_singleton]%elem_of_app; [by apply Hd|].
    by exists (OsPath.basename first), r.
  - split; [by rewrite E2|].
    destruct Hmove as [[-> _]|(f & Hf & Hn & -> & _)]; [done|].
    intros src d dst [Hx|[= -> -> ->]%list_elem_of_singleton]%elem_of_app; [by apply Hm|].
    exists (OsPath.basename first), r, e.
    split_and!; try done. apply StrFacts.basename_no_sep.
Qed.

Lemma plan_loop_sources lines : ∀ p p',
  sources_ok p →
  plan_loop normpath raw_dir csv_data current_files lines p = Ok p' →
  sources_ok p'.
Proof.
  induction lines as [|line lines IH]; intros p p' Hp; simpl; [by intros [= <-]|].
  destruct (step line p) as [p1|] eqn:Hstep; simpl; [|done].
  apply IH. by eapply plan_entry_sources.
Qed.

(** X22: the organizer never plans to delete a file it also plans to
    move.  A planned move takes a file of the audio tree to
    [<raw_dir>/<emotion>/<its own name>], where the emotion is a plain
    name, and is planned only when it leads somewhere else. *)
Theorem plan_never_deletes_what_it_moves lines p :
  cache_wf current_files →
  plan_loop normpath raw_dir csv_data current_files lines (Plan [] [] [] 0 0) = Ok p →
  (∀ src dest_dir dest,
     (src, dest_dir, dest) ∈ files_to_move p → src ∉ files_to_delete p)
  ∧ (∀ src dest_dir dest,
       (src, dest_dir, dest) ∈ files_to_move p →
       ∃ emotion,
         dest_dir = OsPath.join raw_dir emotion
         ∧ emotion ≠ EmptyString
         ∧ OsPath.has_sep emotion = false
         ∧ PyStr.count_char "." emotion = 0
         ∧ dest = OsPath.join dest_dir (OsPath.basename src)
         ∧ OsPath.basename dest = OsPath.basename src
         ∧ current_files !! OsPath.basename src = Some src
         ∧ normpath src ≠ normpath dest).
Proof.
  intros Hwf Hrun.
  assert (sources_ok (Plan [] [] [] 0 0)) as H0.
  { split; simpl; [by intros f ?%elem_of_nil|by intros s d x ?%elem_of_nil]. }
  destruct (plan_loop_sources _ _ _ H0 Hrun) as [Hd Hm]. split.
  - intros src d dst Hin Hdel.
    destruct (Hm _ _ _ Hin) as (name & r & e & Hr & Hu & _ & Hf & _).
    destruct (Hd _ Hdel) as (name' & r' & Hr' & Hu' & Hf').
    assert (name = name') as <-.
    { rewrite <- (Hwf _ _ Hf), <- (Hwf _ _ Hf'). done. }
    congruence.
  - intros src d dst Hin.
    destruct (Hm _ _ _ Hin) as (name & r & e & Hr & Hu & He & Hf & Hname & -> & -> & Hn).
    pose proof (Hwf _ _ Hf) as Hb.
    pose proof (clean_emotion_nonempty e).
    pose proof (all_chars_no_sep _ (clean_emotion_chars e)).
    pose proof (all_chars_no_dot _ (clean_emotion_chars e)).
    exists (clean_emotion e). rewrite Hb.
    split_and!; try done. by apply StrFacts.basename_join.
Qed.

End plan_facts.

(** *** A line the organizer rewrote, seen by the preview *)

Lemma rstrip_lstrip_fixed f s :
  PyStr.rstrip_by f (PyStr.lstrip_by f (PyStr.rstrip_by f s))
  = PyStr.lstrip_by f (PyStr.rstrip_by f s).
Proof. by rewrite rstrip_lstrip_comm, rstrip_by_idemp. Qed.

Lemma rstrip_app_keep f a b :
  PyStr.rstrip_by f b ≠ EmptyString →
  PyStr.rstrip_by f (a +:+ b) = a +:+ PyStr.rstrip_by f b.
Proof.
  intros Hb. induction a as [|c a IH]; [done|].
  rewrite !StrFacts.app_cons. simpl. rewrite IH.
  destruct (a +:+ PyStr.rstrip_by f b) eqn:E; [|by rewrite andb_false_r].
  destruct a; [by rewrite StrFacts.app_nil_l in E|done].
Qed.

Lemma lstrip_head f s c r : PyStr.lstrip_by f s = String c r → f c = false.
Proof.
  induction s as [|d s IH]; [done|]. simpl.
  destruct (f d) eqn:E; [done|]. by intros [= <- _].
Qed.

Lemma dirname_app_sep a b :
  a ≠ EmptyString → OsPath.ends_with_sep a = false → OsPath.has_sep b = false →
  OsPath.dirname (a +:+ String OsPath.SEP b) = a.
Proof.
  intros Hne Hends Hb. unfold OsPath.dirname.
  rewrite head_of_app_sep by done.
  assert (OsPath.all_sep (a +:+ String OsPath.SEP EmptyString) = false) as ->.
  { destruct (OsPath.all_sep (a +:+ String OsPath.SEP EmptyString)) eqn:Hall; [|done].
    assert (OsPath.all_sep a = true) as Hall'.
    { clear -Hall. induction a as [|c a IH]; [done|].
      rewrite StrFacts.app_cons in Hall. simpl in *.
      apply andb_true_iff in Hall as [-> ?]. by apply IH. }
    apply all_sep_ends in Hall' as [?|?]; congruence. }
  assert (PyStr.is_empty (a +:+ String OsPath.SEP EmptyString) = false) as ->
    by (by destruct a).
  simpl. by apply rstrip_sep_app.
Qed.

Lemma no_sep_ends a : OsPath.has_sep a = false → OsPath.ends_with_sep a = false.
Proof.
  induction a as [|c a IH]; [done|]. simpl.
  intros [Hc Ha]%orb_false_iff. destruct a; [done|by apply IH].
Qed.

Lemma replace_char_absent x y s :
  PyStr.count_char x s = 0 → replace_char x y s = s.
Proof.
  induction s as [|c s IH]; [done|]. simpl.
  destruct (Ascii.eqb c x); [done|]. simpl. intros Hs. by rewrite IH.
Qed.

Lemma strip_by_absent f s :
  all_chars (λ c, negb (f c)) s = true → strip_by f s = s.
Proof.
  intros Hs. unfold strip_by.
  assert (PyStr.rstrip_by f s = s) as ->.
  { induction s as [|c s IH]; [done|]. simpl in *.
    apply andb_true_iff in Hs as [Hc Hs]. rewrite (IH Hs).
    by destruct (f c). }
  destruct s as [|c s]; [done|]. simpl in *.
  apply andb_true_iff in Hs as [Hc _]. by destruct (f c).
Qed.

(** The folder of [<name>/<file>] is [name], for a plain name. *)
Lemma current_emotion_of_plain name file :
  name ≠ EmptyString → all_chars name_char name = true →
  OsPath.has_sep file = false →
  current_emotion_of (name +:+ String OsPath.SEP file) = name.
Proof.
  intros Hne Hchars Hfile. unfold current_emotion_of.
  pose proof (all_chars_no_sep _ Hchars) as Hsep.
  rewrite dirname_app_sep by (try done; by apply no_sep_ends).
  rewrite replace_char_absent.
  2:{ clear -Hchars. induction name as [|c s IH]; [done|]. simpl in *.
      apply andb_true_iff in Hchars as [Hc Hs]. rewrite (IH Hs).
      by rewrite (name_char_not c BACKSLASH). }
  rewrite strip_by_absent.
  2:{ clear -Hsep. induction name as [|c s IH]; [done|]. simpl in *.
      apply orb_false_iff in Hsep as [-> Hs]. by rewrite IH. }
  destruct name as [|c s] eqn:E; [done|]. rewrite <- E in *.
  replace (PyStr.is_empty name) with false by (by rewrite E). simpl.
  destruct (String.eqb name ".") eqn:Hdot; [|done].
  apply String.eqb_eq in Hdot. rewrite Hdot in Hchars. done.
Qed.

Section organized_line.
Variable normpath : string → string.
Variable raw_dir : string.
Variable csv_data : gmap string row.
Variable current_files : gmap string string.
Variable raw_files_map : gmap string string.

(** X23: the line the organizer writes for a usable entry has the fields
    of the old line, but the first, which becomes [<emotion>/<file
    name>]; with the same CSV the preview reads that line back as an
    entry of the tab of the emotion with the status "Keep (Verified)":
    organizing once more would neither move it nor change it.  (Only the
    emotion named "Unclassified", which the preview takes for "in no
    folder", is never seen as verified.) *)
Theorem organized_line_is_verified line p p' first others r e reason :
  PyStr.split PyStr.PIPE (PyStr.strip line) = first :: others →
  others ≠ [] →
  csv_data !! OsPath.basename first = Some r →
  is_usable_of r = Ok true →
  val_strip (row_get r "Emotion" "Neutral") = Ok e →
  val_strip (row_get r "Reason" EmptyString) = Ok reason →
  clean_emotion e ≠ "Unclassified" →
  plan_entry normpath raw_dir csv_data current_files line p = Ok p' →
  ∃ body,
    new_esd_lines p' = new_esd_lines p ++ [body +:+ String PyStr.LF EmptyString]
    ∧ PyStr.split PyStr.PIPE body
      = (clean_emotion e +:+ "/" +:+ OsPath.basename first) :: others
    ∧ preview_entry csv_data raw_files_map (body +:+ String PyStr.LF EmptyString)
      = Some (Ok (Named (clean_emotion e), Kept,
                  Item (OsPath.basename first)
                    (default EmptyString ((first :: others) !! 3))
                    reason "Keep (Verified)"
                    (default EmptyString (raw_files_map !! OsPath.basename first))
                    body)).
Proof.
  intros Hs Hne Hr Hu He Hreason Hunc Hstep.
  destruct (plan_entry_cases _ _ _ _ _ _ _ Hstep)
    as [[Hacc _]|(first' & others' & Hs' & _ & _ &
         [[Hnone _]
         |[(r' & e' & Hr' & Hu' & _)
          |(r' & e' & Hr' & _ & He' & E1 & _)]])].
  { unfold preview_accepts in Hacc. rewrite Hs in Hacc.
    destruct others; [done|]. done. }
  all: rewrite Hs in Hs'; injection Hs' as <- <-.
  { congruence. }
  { rewrite Hr in Hr'. injection Hr' as <-. congruence. }
  rewrite Hr in Hr'. injection Hr' as <-. rewrite He in He'. injection He' as <-.
  set (emotion := clean_emotion e) in *.
  set (name := OsPath.basename first) in *.
  pose proof (clean_emotion_nonempty e) as Hnonempty.
  pose proof (clean_emotion_chars e) as Hchars.
  pose proof (all_chars_no_sep _ Hchars) as Hsep.
  pose proof (all_chars_no_dot _ Hchars) as Hdot.
  pose proof (all_chars_no_pipe _ Hchars) as Hpipe.
  pose proof (all_chars_no_lf _ Hchars) as Hlf.
  pose proof (clean_emotion_stripped e) as Hstripped.
  fold emotion in Hnonempty, Hchars, Hsep, Hdot, Hpipe, Hlf, Hstripped.
  destruct (split_join_id PyStr.PIPE (PyStr.strip line)) as [Hparts Hjoin].
  rewrite Hs in Hparts, Hjoin.
  apply Forall_cons in Hparts as [Hpf Hpo].
  rewrite join_with_cons in Hjoin by done.
  set (body := join_with PyStr.PIPE ((emotion +:+ "/" +:+ name) :: others)) in *.
  assert (PyStr.count_char PyStr.PIPE (emotion +:+ "/" +:+ name) = 0) as Hrel.
  { rewrite !count_char_app, Hpipe. simpl. by apply count_char_basename. }
  assert (PyStr.split PyStr.PIPE body = (emotion +:+ "/" +:+ name) :: others) as Hsplit.
  { apply split_of_join; [done|by constructor]. }
  assert (PyStr.strip body = body) as Hbody.
  { unfold body. rewrite join_with_cons by done.
    set (tail := String PyStr.PIPE (join_with PyStr.PIPE others)) in *.
    assert (PyStr.rstrip_by PyStr.is_space tail ≠ EmptyString) as Htail.
    { unfold tail. simpl. done. }
    assert (PyStr.rstrip_by PyStr.is_space tail = tail) as Hfix.
    { pose proof (rstrip_lstrip_fixed PyStr.is_space line) as Hstrip.
      fold (PyStr.strip line) in Hstrip. rewrite <- Hjoin in Hstrip.
      rewrite rstrip_app_keep in Hstrip by done.
      by apply (inj (String.append first)) in Hstrip. }
    unfold PyStr.strip. rewrite rstrip_app_keep, Hfix by done.
    destruct emotion as [|c0 rest] eqn:Eem; [done|].
    assert (PyStr.is_space c0 = false) as Hc0.
    { unfold PyStr.strip in Hstripped. by apply lstrip_head in Hstripped. }
    rewrite !StrFacts.app_cons. simpl. by rewrite Hc0. }
  exists body. split; [done|]. split; [done|].
  unfold preview_entry. rewrite strip_line, Hbody, Hsplit.
  destruct others as [|second others']; [done|].
  assert (OsPath.basename (emotion +:+ "/" +:+ name) = name) as ->.
  { apply StrFacts.basename_app_sep, StrFacts.basename_no_sep. }
  rewrite Hr. cbv zeta. rewrite Hu. simpl. rewrite He. simpl. rewrite Hreason. simpl.
  fold emotion.
  assert (current_emotion_of (emotion +:+ "/" +:+ name) = emotion) as ->.
  { apply current_emotion_of_plain; [done|done|apply StrFacts.basename_no_sep]. }
  rewrite String.eqb_refl. simpl.
  apply String.eqb_neq in Hunc as ->. done.
Qed.

End organized_line.

(** *** The export of a tab *)

Lemma export_lines_frame cat items save_path w r w' x :
  export_category_list cat items save_path w = (r, w') →
  x ≠ save_path → files w' !! x = files w !! x.
Proof.
  unfold export_category_list. destruct items as [|it items]; [by intros [= <- <-]|].
  destruct (PyStr.is_empty save_path); [by intros [= <- <-]|].
  unfold try_except. rewrite bind_run, open_w_run.
  destruct (fault w).
  { rewrite showerror_run. by intros [= <- <-]. }
  cbv beta iota. rewrite bind_run, write_lines_run. cbn [files trace faults].
  destruct (fault _).
  { rewrite showerror_run. cbn [files tick]. intros [= <- <-] Hx. simpl.
    by rewrite lookup_insert_ne. }
  cbv beta iota. rewrite showinfo_run. cbn [files]. intros [= <- <-] Hx. simpl.
  by rewrite !lookup_insert_ne.
Qed.


(** *** A tab exported and read again *)

Section export_round_trip.
Variable csv_data : gmap string row.
Variable raw_files_map : gmap string string.

Lemma entry_original_line line c b it :
  preview_entry csv_data raw_files_map line = Some (Ok (c, b, it)) →
  original_line it = PyStr.strip line ∧ PyStr.strip line ≠ EmptyString.
Proof.
  unfold preview_entry.
  destruct (PyStr.split PyStr.PIPE (PyStr.strip line)) as [|p0 [|p1 ps]] eqn:Hs;
    [done|done|].
  intros [= Hrun]. split.
  - revert Hrun.
    match goal with
    | |- context [mbind _ ?m] => destruct m as [[[[c' re] stt] b']|]
    end; simpl; [|done].
    by intros [= <- <- <-].
  - intros E. rewrite E in Hs. done.
Qed.

Lemma entry_of_stripped line1 line2 :
  PyStr.strip line1 = PyStr.strip line2 →
  preview_entry csv_data raw_files_map line1 = preview_entry csv_data raw_files_map line2.
Proof. intros E. unfold preview_entry. by rewrite E. Qed.

Lemma loop_one_tab c lines : ∀ its acc st,
  Forall2 (λ line it, ∃ b, preview_entry csv_data raw_files_map line = Some (Ok (c, b, it)))
    lines its →
  ∃ st', preview_loop csv_data raw_files_map lines [(c, acc)] st
         = ([(c, acc ++ its)], st', None).
Proof.
  induction lines as [|line lines IH]; intros its acc st Hall.
  { apply Forall2_nil_inv_l in Hall as ->. exists st. by rewrite app_nil_r. }
  apply Forall2_cons_inv_l in Hall as (it & its' & [b He] & Hall & ->).
  simpl. rewrite He. rewrite decide_True by done.
  destruct (IH its' (acc ++ [it]) (count b st) Hall) as [st' ->].
  exists st'. by rewrite <- (assoc_L (++)).
Qed.

(** X25: a tab of the preview, exported to a file, reads back as it was:
    the preview loop run on the exported file, with the same CSV and the
    same file-name cache, builds that one tab with the same items in the
    same order, and the file has one line for each item. *)
Theorem exported_tab_reads_back content c items :
  (c, items) ∈ (preview_loop csv_data raw_files_map (PyStr.readlines content) []
                  (Stats 0 0 0)).1.1 →
  let exported := PyStr.writelines (export_lines items) in
  length (PyStr.readlines exported) = length items
  ∧ ∃ st,
      preview_loop csv_data raw_files_map (PyStr.readlines exported) [] (Stats 0 0 0)
      = ([(c, items)], st, None).
Proof.
  destruct (preview_loop_spec csv_data raw_files_map (PyStr.readlines content) [] []
              (Stats 0 0 0) grouped_nil) as (pd & st0 & -> & Hg & _).
  simpl. intros Hin.
  assert (Forall (λ it, ∃ b line, line ∈ PyStr.readlines content
            ∧ preview_entry csv_data raw_files_map line = Some (Ok (c, b, it))) items)
    as Hsrc.
  { apply Forall_forall. intros it Hit.
    pose proof (grouped_elem _ _ _ _ _ Hg Hin Hit) as He.
    apply list_elem_of_fmap in He as ([[c' b] it'] & [= <- <-] & Hf).
    apply filed_elem in Hf as (line & ? & ?). by exists b, line. }
  assert (items ≠ []) as Hne.
  { destruct Hg as (_ & Hgr & _). by destruct (Hgr _ _ Hin). }
  assert (export_lines items
          = map (λ it, original_line it +:+ String PyStr.LF EmptyString) items) as Hexp.
  { clear -Hsrc. induction Hsrc as [|it items (b & line & _ & He) _ IH]; [done|].
    simpl. destruct (entry_original_line _ _ _ _ He) as [-> Hnb].
    rewrite strip_idemp. destruct (PyStr.strip line); [done|]. simpl. by rewrite IH. }
  assert (PyStr.readlines (PyStr.writelines (export_lines items)) = export_lines items)
    as Hread.
  { apply Lines.readlines_writelines, complete_lines_ok. rewrite Hexp.
    clear -Hsrc. induction Hsrc as [|it items (b & line & Hl & He) _ IH]; [done|].
    simpl. constructor; [|done]. eexists. split; [done|].
    destruct (entry_original_line _ _ _ _ He) as [-> _].
    by eapply no_lf_strip_line. }
  rewrite Hread, Hexp. split; [by rewrite length_map|].
  assert (Forall2 (λ line it, ∃ b,
            preview_entry csv_data raw_files_map line = Some (Ok (c, b, it)))
            (map (λ it, original_line it +:+ String PyStr.LF EmptyString) items) items)
    as Hall.
  { clear -Hsrc. induction Hsrc as [|it items (b & line & Hl & He) _ IH]; [constructor|].
    simpl. constructor; [|done]. exists b. rewrite <- He.
    apply entry_of_stripped. rewrite strip_line.
    destruct (entry_original_line _ _ _ _ He) as [-> _]. apply strip_idemp. }
  destruct items as [|it items]; [done|].
  simpl in Hall. apply Forall2_cons in Hall as [[b He] Hall].
  simpl. rewrite He. simpl.
  destruct (loop_one_tab c _ items [it] (count b (Stats 0 0 0)) Hall) as [st' ->].
  by exists st'.
Qed.

End export_round_trip.
End OrganizerFacts.

(** ** The further properties on the example data *)

(** The run on the example leaves [a.wav] alone. *)
Lemma executor_leaves_other_files_witness :
  files Demo.w0' !! "data/raw/a.wav" = files Demo.w0 !! "data/raw/a.wav".
Proof.
  apply (executor_leaves_other_files Demo.cands Demo.esd_path Demo.raw_dir Demo.now Demo.w0
           (execute_dedup_deletion Demo.cands Demo.esd_path Demo.raw_dir Demo.now Demo.w0).1
           Demo.w0' "data/raw/a.wav").
  - unfold Demo.w0'. apply run_pair.
  - discriminate.
  - vm_compute. discriminate.
  - apply (bool_decide_unpack _). vm_compute. exact I.
  - apply (bool_decide_unpack _). vm_compute. exact I.
Defined.

(** Without a manifest the run on the example changes nothing. *)
Lemma missing_manifest_changes_nothing_witness :
  (execute_dedup_deletion Demo.cands Demo.esd_path Demo.raw_dir Demo.now Demo2.w_missing).1
  = Ok ()
  ∧ files (execute_dedup_deletion Demo.cands Demo.esd_path Demo.raw_dir Demo.now
             Demo2.w_missing).2 = files Demo2.w_missing
  ∧ ∃ evs msg,
      trace (execute_dedup_deletion Demo.cands Demo.esd_path Demo.raw_dir Demo.now
               Demo2.w_missing).2 = trace Demo2.w_missing ++ evs
      ∧ filter (λ e, is_dialog e = true) evs = [EvShowError "error" msg].
Proof.
  apply (missing_manifest_changes_nothing Demo.cands Demo.esd_path Demo.raw_dir Demo.now
           Demo2.w_missing).
  - vm_compute. reflexivity.
  - apply run_pair.
Defined.


(** After the run on the example [b.wav] is gone from the audio tree. *)
Lemma confirmed_files_leave_their_place_witness :
  files (execute_dedup_deletion [Demo.the_candidate] Demo.esd_path Demo.raw_dir Demo.now
           Demo.w0).2 !! delete_path Demo.the_candidate = None.
Proof.
  apply (confirmed_files_leave_their_place [Demo.the_candidate] Demo.esd_path Demo.raw_dir
           Demo.now Demo.w0
           (execute_dedup_deletion [Demo.the_candidate] Demo.esd_path Demo.raw_dir Demo.now
              Demo.w0).1).
  - constructor.
  - exists Demo.manifest. vm_compute. reflexivity.
  - intros c ->%list_elem_of_singleton. apply (bool_decide_unpack _). vm_compute. exact I.
  - apply run_pair.
  - left.
Defined.

(** The operator answers no on the example. *)
Lemma declined_commit_changes_nothing_witness :
  ∃ title msg,
    do_delete [Demo.the_candidate] Demo.esd_path Demo.raw_dir false Demo.now Demo.w0
    = (Ok (), World (files Demo.w0) (trace Demo.w0 ++ [EvAskYesNo title msg false])
                (faults Demo.w0)).
Proof.
  apply (declined_commit_changes_nothing [Demo.the_candidate] Demo.esd_path Demo.raw_dir
           Demo.now Demo.w0 Demo.the_candidate).
  - left.
  - reflexivity.
Defined.


(** Three clicks on the only row of the example untick it. *)
Lemma row_ticked_iff_even_clicks_witness :
  ∃ row,
    clicks_on [0; 0; 0] (map tick_row [Demo.the_candidate]) !! 0 = Some row
    ∧ selected row = Nat.even (count_occ Nat.eq_dec [0; 0; 0] 0)
    ∧ (text row, keep_file row, keep_path row, keep_line row)
      = (text Demo.the_candidate, keep_file Demo.the_candidate,
         keep_path Demo.the_candidate, keep_line Demo.the_candidate)
    ∧ (delete_file row, delete_path row, delete_line row)
      = (delete_file Demo.the_candidate, delete_path Demo.the_candidate,
         delete_line Demo.the_candidate)
    ∧ length (clicks_on [0; 0; 0] (map tick_row [Demo.the_candidate]))
      = length [Demo.the_candidate].
Proof.
  apply (row_ticked_iff_even_clicks [Demo.the_candidate] [0; 0; 0] 0 Demo.the_candidate).
  reflexivity.
Defined.

(** The pass on the example only adds to the empty cache. *)
Lemma analysis_extends_cache_witness :
  cache_extends Demo.os_walk Demo.raw_dir ∅ Demo.analysis.2
  ∧ (∀ f, resolve Demo.os_walk Demo.raw_dir Demo.analysis.2 f
          = resolve Demo.os_walk Demo.raw_dir ∅ f)
  ∧ (cache_wf ∅ → cache_wf Demo.analysis.2)
  ∧ (first_match_cache Demo.os_walk Demo.raw_dir ∅
     → first_match_cache Demo.os_walk Demo.raw_dir Demo.analysis.2).
Proof.
  apply (@analysis_extends_cache Demo.librosa Demo.os_walk Demo.disk Demo.raw_dir 40 2000 15
           Demo.esd_path ∅ Demo.analysis.1 Demo.analysis.2).
  apply run_pair.
Defined.

(** A manifest with two transcripts, each met once: nothing to propose. *)
Lemma distinct_transcripts_yield_nothing_witness :
  @run_dedup_analysis Demo.librosa Demo.os_walk Demo2.disk_distinct Demo.raw_dir 40 2000 15
    Demo.esd_path ∅ = (Some [], ∅).
Proof.
  apply (@distinct_transcripts_yield_nothing Demo.librosa Demo.os_walk Demo2.disk_distinct
           Demo.raw_dir 40 2000 15 Demo.esd_path Demo2.manifest_distinct ∅).
  - vm_compute. reflexivity.
  - apply (bool_decide_unpack _). vm_compute. exact I.
Defined.

(** On the example the kept file is not the deleted one. *)
Lemma kept_audio_is_no_delete_path_witness :
  keep_path Demo.the_candidate ≠ delete_path Demo.the_candidate.
Proof.
  apply (@kept_audio_is_no_delete_path Demo.librosa Demo.os_walk Demo.disk Demo.raw_dir
           40 2000 15 Demo.esd_path Demo.manifest ∅ [Demo.the_candidate] Demo.analysis.2
           Demo.the_candidate Demo.the_candidate).
  - vm_compute. reflexivity.
  - apply cache_wf_empty.
  - apply (bool_decide_unpack _). vm_compute. exact I.
  - vm_compute. reflexivity.
  - left.
  - left.
Defined.

(** The candidate of the example shows the names of its two files. *)
Lemma candidate_names_match_paths_witness :
  selected Demo.the_candidate = true
  ∧ OsPath.basename (keep_path Demo.the_candidate) = keep_file Demo.the_candidate
  ∧ OsPath.basename (delete_path Demo.the_candidate) = delete_file Demo.the_candidate
  ∧ keep_path Demo.the_candidate ≠ EmptyString
  ∧ delete_path Demo.the_candidate ≠ EmptyString.
Proof.
  apply (@candidate_names_match_paths Demo.librosa Demo.os_walk Demo.disk Demo.raw_dir
           40 2000 15 Demo.esd_path ∅ [Demo.the_candidate] Demo.analysis.2
           Demo.the_candidate).
  - apply cache_wf_empty.
  - vm_compute. reflexivity.
  - left.
Defined.

(** The backup folder of the data set [data]. *)
Lemma backup_lies_in_dataset_root_witness :
  OsPath.dirname (OsPath.join "data" "esd.list") = "data"
  ∧ backup_root_of (OsPath.join "data" "esd.list") Demo.now
    = "data" +:+ "/backup_dedup_" +:+ strftime Demo.now
  ∧ backup_files_dir_of (OsPath.join "data" "esd.list") Demo.now
    = "data" +:+ "/backup_dedup_" +:+ strftime Demo.now +:+ "/deleted_files".
Proof.
  apply (backup_lies_in_dataset_root "data" Demo.now).
  - discriminate.
  - reflexivity.
Defined.

(** The plan for the example: [a.wav] goes to its emotion, [b.wav] is to
    be deleted, [c.wav] stays as it is. *)
Lemma plan_accounts_for_every_entry_witness :
  length (Organizer.new_esd_lines Demo2.the_plan) + Organizer.deleted_count Demo2.the_plan
  = length (filter (λ line, preview_accepts line = true) (PyStr.readlines Demo2.manifest))
  ∧ Organizer.moved_count Demo2.the_plan = length (Organizer.files_to_move Demo2.the_plan)
  ∧ length (Organizer.files_to_delete Demo2.the_plan)
    ≤ Organizer.deleted_count Demo2.the_plan
  ∧ Organizer.moved_count Demo2.the_plan ≤ length (Organizer.new_esd_lines Demo2.the_plan)
  ∧ PyStr.readlines (PyStr.writelines (Organizer.new_esd_lines Demo2.the_plan))
    = Organizer.new_esd_lines Demo2.the_plan.
Proof.
  apply (OrganizerFacts.plan_accounts_for_every_entry Demo2.normpath Demo.raw_dir
           Demo2.csv_data Demo2.current_files Demo2.manifest Demo2.the_plan).
  vm_compute. reflexivity.
Defined.

Lemma plan_never_deletes_what_it_moves_witness :
  (∀ src dest_dir dest,
     (src, dest_dir, dest) ∈ Organizer.files_to_move Demo2.the_plan →
     src ∉ Organizer.files_to_delete Demo2.the_plan)
  ∧ (∀ src dest_dir dest,
       (src, dest_dir, dest) ∈ Organizer.files_to_move Demo2.the_plan →
       ∃ emotion,
         dest_dir = OsPath.join Demo.raw_dir emotion
         ∧ emotion ≠ EmptyString
         ∧ OsPath.has_sep emotion = false
         ∧ PyStr.count_char "." emotion = 0
         ∧ dest = OsPath.join dest_dir (OsPath.basename src)
         ∧ OsPath.basename dest = OsPath.basename src
         ∧ Demo2.current_files !! OsPath.basename src = Some src
         ∧ Demo2.normpath src ≠ Demo2.normpath dest).
Proof.
  apply (OrganizerFacts.plan_never_deletes_what_it_moves Demo2.normpath Demo.raw_dir
           Demo2.csv_data Demo2.current_files (PyStr.readlines Demo2.manifest)
           Demo2.the_plan).
  - intros f p Hf. unfold Demo2.current_files in Hf.
    apply lookup_insert_Some in Hf as [[<- <-]|[_ Hf]]; [reflexivity|].
    apply lookup_insert_Some in Hf as [[<- <-]|[_ Hf]]; [reflexivity|].
    apply lookup_insert_Some in Hf as [[<- <-]|[_ Hf]]; [reflexivity|].
    by rewrite lookup_empty in Hf.
  - vm_compute. reflexivity.
Defined.

(** The line planned for [a.wav] is read back as verified. *)
Lemma organized_line_is_verified_witness :
  ∃ body,
    Organizer.new_esd_lines
      (Organizer.Plan [Demo.line "Happy/a.wav|spk|en|Hello"] []
         [("data/raw/a.wav", "data/raw/Happy", "data/raw/Happy/a.wav")] 1 0)
    = Organizer.new_esd_lines (Organizer.Plan [] [] [] 0 0)
      ++ [body +:+ String PyStr.LF EmptyString]
    ∧ PyStr.split PyStr.PIPE body
      = (Organizer.clean_emotion "Happy" +:+ "/" +:+ OsPath.basename "a.wav")
        :: ["spk"; "en"; "Hello"]
    ∧ Organizer.preview_entry Demo2.csv_data Demo2.current_files
        (body +:+ String PyStr.LF EmptyString)
      = Some (Ok (Organizer.Named (Organizer.clean_emotion "Happy"), Organizer.Kept,
                  Organizer.Item (OsPath.basename "a.wav")
                    (default EmptyString (("a.wav" :: ["spk"; "en"; "Hello"]) !! 3))
                    "clear voice" "Keep (Verified)"
                    (default EmptyString (Demo2.current_files !! OsPath.basename "a.wav"))
                    body)).
Proof.
  apply (OrganizerFacts.organized_line_is_verified Demo2.normpath Demo.raw_dir
           Demo2.csv_data Demo2.current_files Demo2.current_files
           (Demo.line "a.wav|spk|en|Hello") (Organizer.Plan [] [] [] 0 0)
           (Organizer.Plan [Demo.line "Happy/a.wav|spk|en|Hello"] []
              [("data/raw/a.wav", "data/raw/Happy", "data/raw/Happy/a.wav")] 1 0)
           "a.wav" ["spk"; "en"; "Hello"] Demo2.row_a "Happy" "clear voice").
  - reflexivity.
  - discriminate.
  - vm_compute. reflexivity.
  - vm_compute. reflexivity.
  - vm_compute. reflexivity.
  - vm_compute. reflexivity.
  - vm_compute. discriminate.
  - vm_compute. reflexivity.
Defined.

(** The one tab of the example without a CSV, exported and read back. *)
Lemma exported_tab_reads_back_witness :
  length (PyStr.readlines (PyStr.writelines (Organizer.export_lines Demo2.the_tab)))
  = length Demo2.the_tab
  ∧ ∃ st,
      Organizer.preview_loop ∅ Demo2.current_files
        (PyStr.readlines (PyStr.writelines (Organizer.export_lines Demo2.the_tab))) []
        (Organizer.Stats 0 0 0)
      = ([(Organizer.Named "Unclassified (Root)", Demo2.the_tab)], st, None).
Proof.
  apply (OrganizerFacts.exported_tab_reads_back ∅ Demo2.current_files Demo2.manifest
           (Organizer.Named "Unclassified (Root)") Demo2.the_tab).
  vm_compute. left.
Defined.
